(** * Provisioning workflow of the Fabric automation scripts

    A shallow embedding of [config/fabric_core] (capacity, workspace and
    git integration modules), of the single-file driver
    [config/generate_solution_from_yml_simple.py] and of the scripts of
    [config/scripts] that drive the modules.

    Python text is a list of Unicode code points; decoded JSON is an
    inductive value; every operation is a function from the state of the
    outside world to a result (a value or a raised exception), the next
    state of the world, and the events it emitted (commands, sleeps,
    printed lines), in the order the code emits them. *)

From Stdlib Require Import String Ascii DecimalString.
From Stdlib Require Import ZArith NArith QArith Bool Lia List.
Import ListNotations.

Local Open Scope Z_scope.

(* ===================================================================== *)
(** ** Python text *)
(* ===================================================================== *)

(** A Python [str]: the sequence of its code points. *)
Definition str := list N.

(** An ASCII literal of the source, as a [str]. *)
Definition u (s : string) : str :=
  map N_of_ascii (list_ascii_of_string s).

Fixpoint str_eqb (a b : str) : bool :=
  match a, b with
  | [], [] => true
  | x :: a', y :: b' => N.eqb x y && str_eqb a' b'
  | _, _ => false
  end.

(** The marks the source prints: U+2713, U+2717, U+26A0, U+2192. *)
Definition check_mark : str := [10003%N].
Definition cross_mark : str := [10007%N].
Definition warn_mark : str := [9888%N].
Definition arrow_mark : str := [8594%N].

(** [str.isspace] for one character: the code points Python treats as
    whitespace in [str.strip()]. *)
Definition isspace (c : N) : bool :=
  ((9 <=? c) && (c <=? 13) || (28 <=? c) && (c <=? 32)
   || (c =? 133) || (c =? 160) || (c =? 5760)
   || (8192 <=? c) && (c <=? 8202)
   || (c =? 8232) || (c =? 8233) || (c =? 8239) || (c =? 8287)
   || (c =? 12288))%N.

Fixpoint lstrip (s : str) : str :=
  match s with
  | c :: s' => if isspace c then lstrip s' else s
  | [] => []
  end.

Definition rstrip (s : str) : str := rev (lstrip (rev s)).

(** [s.strip()] *)
Definition strip (s : str) : str := rstrip (lstrip s).

(** [s.split(sep)] for a one-character separator: always at least one
    piece. *)
Fixpoint split (sep : N) (s : str) : list str :=
  match s with
  | [] => [[]]
  | c :: s' =>
      if N.eqb c sep then [] :: split sep s'
      else match split sep s' with
           | p :: ps => (c :: p) :: ps
           | [] => [[c]]
           end
  end.

Definition comma : N := 44%N.

(** [s.lower()] on the ASCII letters.  The case mappings of the other
    code points never produce a digit, a letter [a]-[f] or a hyphen, which
    is all the one use of [lower] in the source looks for. *)
Definition lower_char (c : N) : N :=
  if ((65 <=? c) && (c <=? 90))%N then (c + 32)%N else c.

Definition lower (s : str) : str := map lower_char s.

(** Python truthiness of a [str]. *)
Definition nonempty (s : str) : bool :=
  match s with [] => false | _ => true end.

(** [s.startswith(prefix)] *)
Fixpoint startswith (prefix s : str) : bool :=
  match prefix, s with
  | [], _ => true
  | x :: prefix', y :: s' => N.eqb x y && startswith prefix' s'
  | _ :: _, [] => false
  end.

(** [sub in s] *)
Fixpoint contains (sub s : str) : bool :=
  startswith sub s
  || match s with
     | [] => false
     | _ :: s' => contains sub s'
     end.

(** The scan of [s.replace(old, new)] for a non-empty [old]: the
    occurrences are taken from left to right and do not overlap; [skip]
    counts the characters of the occurrence just replaced that are still
    to be passed over. *)
Fixpoint replace_from (old new : str) (skip : nat) (s : str) : str :=
  match s with
  | [] => []
  | c :: s' =>
      match skip with
      | S k => replace_from old new k s'
      | O =>
          if startswith old s
          then new ++ replace_from old new (Nat.pred (length old)) s'
          else c :: replace_from old new O s'
      end
  end.

(** [s.replace(old, new)]; an empty [old] matches before every character
    and at the end. *)
Definition replace (old new s : str) : str :=
  match old with
  | [] => new ++ flat_map (fun c => c :: new) s
  | _ :: _ => replace_from old new O s
  end.

(* ===================================================================== *)
(** ** JSON values and the Python operations the code applies to them *)
(* ===================================================================== *)

(** What [json.loads] returns.  A float is the rational it denotes, or
    [None] for NaN and the infinities.  An object keeps its pairs in the
    order of the text; a later binding of a key hides an earlier one. *)
#[warnings="-register-all"]
Inductive json : Type :=
| JNull
| JBool (b : bool)
| JInt (z : Z)
| JFloat (q : option Q)
| JStr (s : str)
| JArr (l : list json)
| JObj (kv : list (str * json)).

Inductive Exn : Type :=
| JSONDecodeError
| KeyError
| AttributeError
| TypeError.

(** A value or a raised exception. *)
Inductive Res (A : Type) : Type :=
| Ok (a : A)
| Raise (e : Exn).
Arguments Ok {A} a.
Arguments Raise {A} e.

(** Lookup in the pairs of a dict built from left to right. *)
Fixpoint dict_find (k : str) (kv : list (str * json)) : option json :=
  match kv with
  | [] => None
  | (k', v) :: kv' =>
      match dict_find k kv' with
      | Some v' => Some v'
      | None => if str_eqb k' k then Some v else None
      end
  end.

(** [obj.get(k, default)]: only a dict has [get]. *)
Definition py_get (obj : json) (k : str) (default : json) : Res json :=
  match obj with
  | JObj kv => Ok (match dict_find k kv with Some v => v | None => default end)
  | _ => Raise AttributeError
  end.

(** [obj[k]] with a string key. *)
Definition py_index (obj : json) (k : str) : Res json :=
  match obj with
  | JObj kv => match dict_find k kv with
               | Some v => Ok v
               | None => Raise KeyError
               end
  | _ => Raise TypeError
  end.

(** [v == z] for an integer literal [z]. *)
Definition py_eq_int (v : json) (z : Z) : bool :=
  match v with
  | JInt x => Z.eqb x z
  | JFloat (Some q) => Qeq_bool q (inject_Z z)
  | JBool b => Z.eqb (if b then 1 else 0) z
  | _ => false
  end.

(** [v in [z1, z2, ...]] *)
Definition py_in_ints (v : json) (zs : list Z) : bool :=
  existsb (py_eq_int v) zs.

(** [v == s] for a string [s]. *)
Definition py_eq_str (v : json) (s : str) : bool :=
  match v with
  | JStr t => str_eqb t s
  | _ => false
  end.

(** Python truthiness. *)
Definition truthy (v : json) : bool :=
  match v with
  | JNull => false
  | JBool b => b
  | JInt z => negb (Z.eqb z 0)
  | JFloat (Some q) => negb (Qeq_bool q 0)
  | JFloat None => true
  | JStr s => nonempty s
  | JArr l => match l with [] => false | _ => true end
  | JObj kv => match kv with [] => false | _ => true end
  end.

Definition opt_json (o : option str) : json :=
  match o with Some s => JStr s | None => JNull end.

(* ===================================================================== *)
(** ** The outside world *)
(* ===================================================================== *)

(** [subprocess.CompletedProcess] as [run_command] returns it. *)
Record CompletedProcess : Type := mkCP {
  returncode : Z;
  stdout : str;
  stderr : str
}.

(** What an operation does that the outside can see. *)
Inductive Event : Type :=
| ECmd (argv : list str)
| ESleep (secs : Z)
| EPrint (line : str).

(** What the code takes from its host: the child processes it runs and the
    time it lets pass act on a state of the world; [json.loads] (with
    [None] for [JSONDecodeError]), [json.dumps] and [str()] of a value in
    an f-string are the interpreter's; [fab] is what
    [get_fabric_cli_path()] returns; [getenv] is [os.getenv]. *)
Record Host : Type := mkHost {
  World : Type;
  exec : list str -> World -> CompletedProcess * World;
  elapse : Z -> World -> World;
  json_loads : str -> option json;
  json_dumps : json -> str;
  fmt : json -> str;
  fab : str;
  getenv : str -> option str
}.

(* ===================================================================== *)
(** ** Operations as functions of the world *)
(* ===================================================================== *)

Section Operations.

Variable H : Host.

(** An operation: from a world to its result, the next world and the
    events emitted on the way. *)
Definition M (A : Type) : Type :=
  World H -> Res A * World H * list Event.

Definition ret {A} (a : A) : M A := fun w => (Ok a, w, []).

Definition raise {A} (e : Exn) : M A := fun w => (Raise e, w, []).

Definition bind {A B} (m : M A) (f : A -> M B) : M B :=
  fun w =>
    match m w with
    | (Ok a, w1, t1) =>
        match f a w1 with
        | (r, w2, t2) => (r, w2, t1 ++ t2)
        end
    | (Raise e, w1, t1) => (Raise e, w1, t1)
    end.

(** [try: m  except <the exceptions h accepts>: ...] *)
Definition try_except {A} (m : M A) (h : Exn -> option (M A)) : M A :=
  fun w =>
    match m w with
    | (Ok a, w1, t1) => (Ok a, w1, t1)
    | (Raise e, w1, t1) =>
        match h e with
        | Some k => match k w1 with
                    | (r, w2, t2) => (r, w2, t1 ++ t2)
                    end
        | None => (Raise e, w1, t1)
        end
    end.

(** A pure computation that may raise. *)
Definition lift {A} (r : Res A) : M A := fun w => (r, w, []).

Notation "x <- m ;; k" := (bind m (fun x => k))
  (at level 61, m at next level, right associativity).
Notation "m ;;; k" := (bind m (fun _ => k))
  (at level 61, right associativity).

(** [utils.run_command]: the child process runs to its end; a non-zero
    exit code is a value, not an exception. *)
Definition run_command (cmd : list str) : M CompletedProcess :=
  fun w => match exec H cmd w with
           | (cp, w') => (Ok cp, w', [ECmd cmd])
           end.

(** [time.sleep] *)
Definition sleep (secs : Z) : M unit :=
  fun w => (Ok tt, elapse H secs w, [ESleep secs]).

(** [print] *)
Definition print (line : str) : M unit :=
  fun w => (Ok tt, w, [EPrint line]).

(** [json.loads] *)
Definition loads (s : str) : Res json :=
  match json_loads H s with
  | Some v => Ok v
  | None => Raise JSONDecodeError
  end.

(** The two values [call_azure_api] computes inside its [try]. *)
Definition decode_envelope (out : str) : Res (json * json) :=
  match loads out with
  | Raise e => Raise e
  | Ok v =>
      match py_get v (u "status_code") (JInt 0) with
      | Raise e => Raise e
      | Ok status =>
          match py_get v (u "text") (JObj []) with
          | Raise e => Raise e
          | Ok text => Ok (status, text)
          end
      end
  end.

(** [utils.call_azure_api(endpoint, method, body)]: the bare [except]
    turns every failure of the decoding into [(0, {})]. *)
Definition call_azure_api (endpoint method : str) (body : option json)
  : M (json * json) :=
  let cmd := [fab H; u "api"; endpoint; u "-X"; method; u "-A"; u "azure"] in
  let cmd := match body with
             | Some b => if truthy b then cmd ++ [u "-i"; json_dumps H b]
                         else cmd
             | None => cmd
             end in
  response <- run_command cmd ;;
  match decode_envelope (stdout response) with
  | Ok p => ret p
  | Raise _ => ret (JInt 0, JObj [])
  end.

(* --------------------------------------------------------------------- *)
(** *** [fabric_core/capacity.py] *)
(* --------------------------------------------------------------------- *)

Definition capacity_url (subscription_id resource_group capacity_name : str)
  : str :=
  u "/subscriptions/" ++ subscription_id ++ u "/resourceGroups/"
    ++ resource_group ++ u "/providers/Microsoft.Fabric/capacities/"
    ++ capacity_name.

Definition api_version : str := u "?api-version=2023-11-01".

(** [capacity_exists] *)
Definition capacity_exists (capacity_name subscription_id resource_group : str)
  : M bool :=
  p <- call_azure_api
         (capacity_url subscription_id resource_group capacity_name
            ++ api_version) (u "get") None ;;
  ret (py_eq_int (fst p) 200).

(** The [admin_members] entry of the configuration: a YAML list or a
    string. *)
Inductive AdminMembers : Type :=
| AdminList (l : list str)
| AdminString (s : str).

(** A capacity entry of the configuration; an absent key is [None]. *)
Record CapacityConfig : Type := mkCapacity {
  cap_name : str;
  cap_region : option str;
  cap_sku : option str;
  cap_admin_members : option AdminMembers;
  cap_resource_group : option str
}.

(** [azure.capacity_defaults] *)
Record CapacityDefaults : Type := mkDefaults {
  def_region : option str;
  def_sku : option str;
  def_capacity_admins : option AdminMembers;
  def_resource_group : option str
}.

(** [d.get(k, fallback)] on an optional entry. *)
Definition get_or {A} (o fallback : option A) : option A :=
  match o with Some a => Some a | None => fallback end.

(** Lines 35-38 of [create_capacity]: the members placed in the body. *)
Definition admin_members_of (capacity_config : CapacityConfig)
  (defaults : CapacityDefaults) : list str :=
  let admin_members :=
    match get_or (cap_admin_members capacity_config)
                 (def_capacity_admins defaults) with
    | Some a => a
    | None => AdminString []
    end in
  match admin_members with
  | AdminList l => l
  | AdminString s =>
      map strip (filter (fun admin_id => nonempty (strip admin_id))
                        (split comma s))
  end.

Definition capacity_request_body (capacity_config : CapacityConfig)
  (defaults : CapacityDefaults) : json :=
  JObj [ (u "location",
          opt_json (get_or (cap_region capacity_config) (def_region defaults)));
         (u "sku",
          JObj [ (u "name",
                  opt_json (get_or (cap_sku capacity_config)
                                   (def_sku defaults)));
                 (u "tier", JStr (u "Fabric")) ]);
         (u "properties",
          JObj [ (u "administration",
                  JObj [ (u "members",
                          JArr (map JStr (admin_members_of capacity_config
                                                           defaults))) ]) ]) ].

Definition resume_url (subscription_id resource_group capacity_name : str)
  : str :=
  capacity_url subscription_id resource_group capacity_name
    ++ u "/resume" ++ api_version.

(** [create_capacity] *)
Definition create_capacity (capacity_config : CapacityConfig)
  (subscription_id resource_group : str) (defaults : CapacityDefaults)
  : M unit :=
  let capacity_name := cap_name capacity_config in
  found <- capacity_exists capacity_name subscription_id resource_group ;;
  if (found : bool) then
    print (check_mark ++ u " " ++ capacity_name ++ u " exists") ;;;
    call_azure_api (resume_url subscription_id resource_group capacity_name)
      (u "post") None ;;;
    ret tt
  else
    p <- call_azure_api
           (capacity_url subscription_id resource_group capacity_name
              ++ api_version)
           (u "put") (Some (capacity_request_body capacity_config defaults)) ;;
    if py_in_ints (fst p) [200; 201] then
      print (check_mark ++ u " Created " ++ capacity_name) ;;;
      sleep 40
    else ret tt.

(** The endpoint of [suspend_capacity] (the source writes it without the
    leading slash). *)
Definition suspend_url (subscription_id resource_group capacity_name : str)
  : str :=
  u "subscriptions/" ++ subscription_id ++ u "/resourceGroups/"
    ++ resource_group ++ u "/providers/Microsoft.Fabric/capacities/"
    ++ capacity_name ++ u "/suspend" ++ api_version.

(** The [for _ in range(n)] loop of [suspend_capacity] and what follows
    it. *)
Fixpoint suspend_loop (n : nat)
  (capacity_name subscription_id resource_group : str) : M bool :=
  match n with
  | O =>
      print (cross_mark ++ u " Failed to suspend " ++ capacity_name) ;;;
      ret false
  | S n' =>
      p <- call_azure_api
             (suspend_url subscription_id resource_group capacity_name)
             (u "post") None ;;
      if py_in_ints (fst p) [200; 202] then
        print (check_mark ++ u " Suspended " ++ capacity_name) ;;;
        ret true
      else
        sleep 60 ;;;
        suspend_loop n' capacity_name subscription_id resource_group
  end.

(** [suspend_capacity] *)
Definition suspend_capacity (capacity_name subscription_id resource_group : str)
  : M bool :=
  suspend_loop 5 capacity_name subscription_id resource_group.

(* --------------------------------------------------------------------- *)
(** *** [fabric_core/workspace.py] *)
(* --------------------------------------------------------------------- *)

(** [workspace_exists] *)
Definition workspace_exists (workspace_name : str) : M bool :=
  r <- run_command [fab H; u "ls"; workspace_name ++ u ".Workspace"] ;;
  ret (Z.eqb (returncode r) 0).

(** The character class [[0-9a-f]]. *)
Definition is_hex (c : N) : bool :=
  ((48 <=? c) && (c <=? 57) || (97 <=? c) && (c <=? 102))%N.

Definition hyphen : N := 45%N.

(** [[0-9a-f]{n}] at the head of [s]: what is left of [s] after it. *)
Fixpoint eat_hex (n : nat) (s : str) : option str :=
  match n with
  | O => Some s
  | S n' =>
      match s with
      | c :: s' => if is_hex c then eat_hex n' s' else None
      | [] => None
      end
  end.

(** [-] followed by [[0-9a-f]{n}] at the head of [s]. *)
Definition eat_group (n : nat) (s : str) : option str :=
  match s with
  | c :: s' => if N.eqb c hyphen then eat_hex n s' else None
  | [] => None
  end.

(** Whether the pattern
    [[0-9a-f]{8}-[0-9a-f]{4}-[0-9a-f]{4}-[0-9a-f]{4}-[0-9a-f]{12}]
    matches at the head of [s]. *)
Definition uuid_at (s : str) : bool :=
  match eat_hex 8 s with
  | Some s1 =>
      match eat_group 4 s1 with
      | Some s2 =>
          match eat_group 4 s2 with
          | Some s3 =>
              match eat_group 4 s3 with
              | Some s4 =>
                  match eat_group 12 s4 with
                  | Some _ => true
                  | None => false
                  end
              | None => false
              end
          | None => false
          end
      | None => false
      end
  | None => false
  end.

(** [re.search(pattern, s)] for that pattern, with [.group()] applied to a
    match: the leftmost match, 36 characters long. *)
Fixpoint re_search_uuid (s : str) : option str :=
  match s with
  | [] => None
  | _ :: s' => if uuid_at s then Some (firstn 36 s) else re_search_uuid s'
  end.

Definition get_id_cmd (workspace_name : str) : list str :=
  [fab H; u "get"; workspace_name ++ u ".Workspace"; u "-q"; u "id"].

(** [get_workspace_id]: [None] is Python's [None]. *)
Definition get_workspace_id (workspace_name : str) : M (option str) :=
  response <- run_command (get_id_cmd workspace_name) ;;
  let fallback := ret (re_search_uuid (lower (stdout response))) in
  if Z.eqb (returncode response) 0 then
    let workspace_id := strip (stdout response) in
    if nonempty workspace_id then ret (Some workspace_id) else fallback
  else fallback.

(** A desired role assignment of the configuration: a dict with the keys
    [group] and [role]. *)
Record Permission : Type := mkPermission {
  group : str;
  role : str
}.

(** A workspace entry of the configuration. *)
Record WorkspaceConfig : Type := mkWorkspace {
  ws_name : str;
  ws_capacity : str;
  ws_permissions : option (list Permission);
  ws_connect_to_git_folder : option str
}.

Definition create_cmd (workspace_config : WorkspaceConfig) : list str :=
  [fab H; u "create"; ws_name workspace_config ++ u ".Workspace"; u "-P";
   u "capacityname=" ++ ws_capacity workspace_config].

(** [create_workspace] *)
Definition create_workspace (workspace_config : WorkspaceConfig)
  : M (option str) :=
  let workspace_name := ws_name workspace_config in
  found <- workspace_exists workspace_name ;;
  if (found : bool) then
    print (check_mark ++ u " " ++ workspace_name ++ u " exists") ;;;
    get_workspace_id workspace_name
  else
    result <- run_command (create_cmd workspace_config) ;;
    if negb (Z.eqb (returncode result) 0) then
      print (cross_mark ++ u " Failed to create " ++ workspace_name) ;;;
      print (u "  stdout: " ++ stdout result) ;;;
      print (u "  stderr: " ++ stderr result) ;;;
      ret None
    else
      print (check_mark ++ u " Created " ++ workspace_name) ;;;
      sleep 5 ;;;
      workspace_id <- get_workspace_id workspace_name ;;
      match workspace_id with
      | Some _ => ret workspace_id
      | None =>
          print (u "  " ++ warn_mark
                   ++ u " Warning: Workspace created but ID could not be retrieved") ;;;
          ret workspace_id
      end.

(** [for x in v]: what iterating a decoded value yields. *)
Definition py_iter (v : json) : Res (list json) :=
  match v with
  | JArr l => Ok l
  | JStr s => Ok (map (fun c => JStr [c]) s)
  | JObj kv => Ok (map (fun p => JStr (fst p)) kv)
  | _ => Raise TypeError
  end.

(** Whether a decoded value can be a dict key. *)
Definition hashable (v : json) : bool :=
  match v with
  | JArr _ | JObj _ => false
  | _ => true
  end.

(** The dict comprehension
    [{a['principal']['id']: a['role'] for a in assignments}]: the pairs in
    the order they are inserted. *)
Fixpoint role_pairs (assignments : list json) : Res (list (json * json)) :=
  match assignments with
  | [] => Ok []
  | a :: rest =>
      match py_index a (u "principal") with
      | Raise e => Raise e
      | Ok principal =>
          match py_index principal (u "id") with
          | Raise e => Raise e
          | Ok k =>
              match py_index a (u "role") with
              | Raise e => Raise e
              | Ok v =>
                  if hashable k then
                    match role_pairs rest with
                    | Raise e => Raise e
                    | Ok ps => Ok ((k, v) :: ps)
                    end
                  else Raise TypeError
              end
          end
      end
  end.

(** The body of the [try] of [get_workspace_role_assignments]: [None]
    when control falls out of it to the final [return {}]. *)
Definition decode_assignments (out : str) : Res (option (list (json * json))) :=
  match loads out with
  | Raise e => Raise e
  | Ok response_json =>
      match py_get response_json (u "status_code") JNull with
      | Raise e => Raise e
      | Ok sc =>
          if py_eq_int sc 200 then
            match py_get response_json (u "text") (JObj []) with
            | Raise e => Raise e
            | Ok text =>
                match py_get text (u "value") (JArr []) with
                | Raise e => Raise e
                | Ok value =>
                    match py_iter value with
                    | Raise e => Raise e
                    | Ok assignments =>
                        match role_pairs assignments with
                        | Raise e => Raise e
                        | Ok ps => Ok (Some ps)
                        end
                    end
                end
            end
          else Ok None
      end
  end.

Definition role_assignments_path (workspace_id : str) : str :=
  u "workspaces/" ++ workspace_id ++ u "/roleAssignments".

Definition list_roles_cmd (workspace_id : str) : list str :=
  [fab H; u "api"; u "-X"; u "get"; role_assignments_path workspace_id].

(** [get_workspace_role_assignments]: the dict as the list of the pairs
    inserted into it. *)
Definition get_workspace_role_assignments (workspace_id : str)
  : M (list (json * json)) :=
  result <- run_command (list_roles_cmd workspace_id) ;;
  if negb (Z.eqb (returncode result) 0) then ret []
  else
    match decode_assignments (stdout result) with
    | Ok (Some ps) => ret ps
    | Ok None => ret []
    | Raise JSONDecodeError => ret []
    | Raise KeyError => ret []
    | Raise e => raise e
    end.

(** [security_groups.get(name)]: the dict of the configuration as its
    pairs, a later one hiding an earlier one. *)
Fixpoint sg_get (security_groups : list (str * str)) (name : str)
  : option str :=
  match security_groups with
  | [] => None
  | (k, v) :: rest =>
      match sg_get rest name with
      | Some v' => Some v'
      | None => if str_eqb k name then Some v else None
      end
  end.

(** Whether the key [k] of the dict of assignments equals [group_id] (a
    string of the configuration, or [None]). *)
Definition key_is (group_id : option str) (k : json) : bool :=
  match group_id, k with
  | Some g, JStr s => str_eqb s g
  | None, JNull => true
  | _, _ => false
  end.

(** [existing_assignments[group_id]] when [group_id in
    existing_assignments], else [None]: the pair inserted last wins. *)
Fixpoint existing_role_of (group_id : option str)
  (existing_assignments : list (json * json)) : option json :=
  match existing_assignments with
  | [] => None
  | (k, v) :: rest =>
      match existing_role_of group_id rest with
      | Some v' => Some v'
      | None => if key_is group_id k then Some v else None
      end
  end.

Definition role_request_body (group_id : option str) (p : Permission) : json :=
  JObj [ (u "principal",
          JObj [ (u "id", opt_json group_id);
                 (u "type", JStr (u "Group"));
                 (u "groupDetails",
                  JObj [ (u "groupType", JStr (u "SecurityGroup")) ]) ]);
         (u "role", JStr (role p)) ].

Definition assign_cmd (workspace_id : str) (group_id : option str)
  (p : Permission) : list str :=
  [fab H; u "api"; u "-X"; u "post"; role_assignments_path workspace_id;
   u "-i"; json_dumps H (role_request_body group_id p)].

Definition failed_to_assign (p : Permission) : str :=
  u "  " ++ cross_mark ++ u " Failed to assign " ++ role p ++ u " to "
    ++ group p.

(** Lines 133-156: the role-assignment call and the report on its
    response. *)
Definition post_assignment (workspace_id : str) (group_id : option str)
  (p : Permission) : M unit :=
  assign_response <- run_command (assign_cmd workspace_id group_id p) ;;
  if negb (nonempty (strip (stdout assign_response))) then
    print (failed_to_assign p ++ u ": Empty response") ;;;
    print (u "    stderr: " ++ stderr assign_response)
  else
    match loads (stdout assign_response) with
    | Raise _ =>
        print (failed_to_assign p ++ u ": Invalid JSON") ;;;
        print (u "    stdout: " ++ stdout assign_response) ;;;
        print (u "    stderr: " ++ stderr assign_response)
    | Ok response_json =>
        sc <- lift (py_get response_json (u "status_code") JNull) ;;
        if py_in_ints sc [200; 201] then
          print (u "  " ++ check_mark ++ u " Assigned " ++ role p ++ u " to "
                   ++ group p)
        else
          print (failed_to_assign p) ;;;
          print (u "    Status: " ++ fmt H sc) ;;;
          text <- lift (py_get response_json (u "text") (JObj [])) ;;
          print (u "    Response: " ++ fmt H text)
    end.

(** The body of the [for permission in permissions] loop. *)
Definition assign_one (workspace_id : str)
  (security_groups : list (str * str))
  (existing_assignments : list (json * json)) (p : Permission) : M unit :=
  let group_id := sg_get security_groups (group p) in
  let desired_role := role p in
  match existing_role_of group_id existing_assignments with
  | Some existing_role =>
      if py_eq_str existing_role desired_role then
        print (u "  " ++ check_mark ++ u " " ++ group p ++ u " already has "
                 ++ desired_role ++ u " role")
      else
        print (u "  " ++ warn_mark ++ u " " ++ group p ++ u " already has "
                 ++ fmt H existing_role ++ u " role (wanted " ++ desired_role
                 ++ u ")")
  | None => post_assignment workspace_id group_id p
  end.

(** [for x in l: body(x)] *)
Fixpoint for_each {A} (body : A -> M unit) (l : list A) : M unit :=
  match l with
  | [] => ret tt
  | x :: rest => body x ;;; for_each body rest
  end.

(** [assign_permissions] *)
Definition assign_permissions (workspace_id : str)
  (permissions : list Permission) (security_groups : list (str * str))
  : M unit :=
  sleep 10 ;;;
  existing_assignments <- get_workspace_role_assignments workspace_id ;;
  for_each (assign_one workspace_id security_groups existing_assignments)
           permissions.

(* --------------------------------------------------------------------- *)
(** *** [fabric_core/git_integration.py] *)
(* --------------------------------------------------------------------- *)

(** The [github] entry of the configuration; an absent key is [None]. *)
Record GitConfig : Type := mkGit {
  organization : option str;
  repository : option str;
  provider : option str;
  branch : option str
}.

(** An optional string inside an f-string. *)
Definition fstr (o : option str) : str :=
  match o with Some s => s | None => u "None" end.

Definition connection_body (connection_name github_url : str) : json :=
  JObj [ (u "connectivityType", JStr (u "ShareableCloud"));
         (u "displayName", JStr connection_name);
         (u "connectionDetails",
          JObj [ (u "type", JStr (u "GitHubSourceControl"));
                 (u "creationMethod", JStr (u "GitHubSourceControl.Contents"));
                 (u "parameters",
                  JArr [ JObj [ (u "dataType", JStr (u "Text"));
                                (u "name", JStr (u "url"));
                                (u "value", JStr github_url) ] ]) ]);
         (u "credentialDetails",
          JObj [ (u "credentials",
                  JObj [ (u "credentialType", JStr (u "Key"));
                         (u "key", opt_json (getenv H (u "GITHUB_PAT"))) ]) ]) ].

Definition list_connections_cmd : list str :=
  [fab H; u "api"; u "-X"; u "get"; u "connections"].

Definition create_connection_cmd (body : json) : list str :=
  [fab H; u "api"; u "-X"; u "post"; u "connections"; u "-i";
   json_dumps H body].

(** The [for conn in connections] loop of [get_or_create_git_connection]:
    [Some id] when it returns from the function. *)
Fixpoint find_connection (display_name : str) (connections : list json)
  : Res (option json) :=
  match connections with
  | [] => Ok None
  | conn :: rest =>
      match py_get conn (u "displayName") JNull with
      | Raise e => Raise e
      | Ok d =>
          if py_eq_str d display_name then
            match py_get conn (u "id") JNull with
            | Raise e => Raise e
            | Ok i => Ok (Some i)
            end
          else find_connection display_name rest
      end
  end.

(** Lines 39-65: create the connection; [JNull] is Python's [None]. *)
Definition create_connection (connection_name : str) (git_config : GitConfig)
  : M json :=
  let github_url :=
    u "https://github.com/" ++ fstr (organization git_config) ++ u "/"
      ++ fstr (repository git_config) in
  create_response <-
    run_command
      (create_connection_cmd (connection_body connection_name github_url)) ;;
  create_json <- lift (loads (stdout create_response)) ;;
  sc <- lift (py_get create_json (u "status_code") JNull) ;;
  if py_in_ints sc [200; 201] then
    text <- lift (py_get create_json (u "text") (JObj [])) ;;
    connection_id <- lift (py_get text (u "id") JNull) ;;
    print (check_mark ++ u " Created connection: " ++ connection_name) ;;;
    ret connection_id
  else ret JNull.

(** [get_or_create_git_connection]: the decoding of both responses is
    outside any [try]. *)
Definition get_or_create_git_connection (workspace_id : str)
  (git_config : GitConfig) : M json :=
  let connection_name :=
    u "GitHub-" ++ fstr (organization git_config) ++ u "-"
      ++ fstr (repository git_config) in
  list_response <- run_command list_connections_cmd ;;
  list_json <- lift (loads (stdout list_response)) ;;
  sc <- lift (py_get list_json (u "status_code") JNull) ;;
  found <-
    (if py_eq_int sc 200 then
       text <- lift (py_get list_json (u "text") (JObj [])) ;;
       value <- lift (py_get text (u "value") (JArr [])) ;;
       connections <- lift (py_iter value) ;;
       lift (find_connection (u "test_connection") connections)
     else ret None) ;;
  match found with
  | Some i => print (u "using a test connection") ;;; ret i
  | None => create_connection connection_name git_config
  end.

Definition git_path (workspace_id : str) (leaf : string) : str :=
  u "workspaces/" ++ workspace_id ++ u "/git/" ++ u leaf.

Definition git_status_cmd (workspace_id : str) : list str :=
  [fab H; u "api"; u "-X"; u "get"; git_path workspace_id "status"].

Definition git_init_cmd (workspace_id : str) : list str :=
  [fab H; u "api"; u "-X"; u "post";
   git_path workspace_id "initializeConnection"; u "-i"; u "{}"].

Definition update_request (remote_commit_hash : json) : json :=
  JObj [ (u "remoteCommitHash", remote_commit_hash);
         (u "conflictResolution",
          JObj [ (u "conflictResolutionType", JStr (u "Workspace"));
                 (u "conflictResolutionPolicy", JStr (u "PreferWorkspace")) ]);
         (u "options", JObj [ (u "allowOverrideItems", JBool true) ]) ].

Definition git_update_cmd (workspace_id : str) (remote_commit_hash : json)
  : list str :=
  [fab H; u "api"; u "-X"; u "post"; git_path workspace_id "updateFromGit";
   u "-i"; json_dumps H (update_request remote_commit_hash)].

Definition not_initialized : str := u "WorkspaceGitConnectionNotInitialized".

(** [json.loads(status_response.stdout)] followed by
    [status_json.get('status_code')]. *)
Definition decode_status (out : str) : M (json * json) :=
  status_json <- lift (loads out) ;;
  status_code <- lift (py_get status_json (u "status_code") JNull) ;;
  ret (status_json, status_code).

(** Lines 88-104 of [update_workspace_from_git]: on status 400 with the
    error code of a connection that was never initialized, initialize it
    and read the status again. *)
Definition initialize_if_needed (workspace_id : str) (st : json * json)
  : M (json * json) :=
  if py_eq_int (snd st) 400 then
    error_text <- lift (py_get (fst st) (u "text") (JObj [])) ;;
    code <- lift (py_get error_text (u "errorCode") JNull) ;;
    if py_eq_str code not_initialized then
      print (u "  " ++ arrow_mark ++ u " Initializing Git connection") ;;;
      run_command (git_init_cmd workspace_id) ;;;
      status_response <- run_command (git_status_cmd workspace_id) ;;
      decode_status (stdout status_response)
    else ret st
  else ret st.

(** Lines 106-115: [None] when the function returns [False] there, else
    the remote commit hash. *)
Definition remote_hash_of (st : json * json) : M (option json) :=
  if negb (py_eq_int (snd st) 200) then
    error_text <- lift (py_get (fst st) (u "text") (JObj [])) ;;
    print (u "  " ++ warn_mark ++ u " Failed to get Git status: "
             ++ fmt H (snd st)) ;;;
    print (u "     Error: " ++ fmt H error_text) ;;;
    ret None
  else
    text <- lift (py_get (fst st) (u "text") (JObj [])) ;;
    remote_commit_hash <- lift (py_get text (u "remoteCommitHash") JNull) ;;
    if negb (truthy remote_commit_hash) then
      print (u "  " ++ warn_mark ++ u " No remoteCommitHash found in status") ;;;
      ret None
    else ret (Some remote_commit_hash).

(** Lines 85-115, the body of the first [try] of
    [update_workspace_from_git]. *)
Definition read_remote_hash (workspace_id : str) (out : str)
  : M (option json) :=
  st <- decode_status out ;;
  st <- initialize_if_needed workspace_id st ;;
  remote_hash_of st.

(** [except json.JSONDecodeError:] *)
Definition on_decode_error {A} (k : M A) (e : Exn) : option (M A) :=
  match e with
  | JSONDecodeError => Some k
  | _ => None
  end.

(** Lines 130-148: the update call and the reading of its response. *)
Definition pull_from_git (workspace_id workspace_name : str)
  (remote_commit_hash : json) : M bool :=
  update_response <-
    run_command (git_update_cmd workspace_id remote_commit_hash) ;;
  if negb (nonempty (strip (stdout update_response))) then ret true
  else
    accepted <-
      try_except
        (response_json <- lift (loads (stdout update_response)) ;;
         sc <- lift (py_get response_json (u "status_code") JNull) ;;
         ret (py_in_ints sc [200; 201; 202]))
        (on_decode_error (ret false)) ;;
    if (accepted : bool) then
      print (u "  " ++ check_mark ++ u " Updated " ++ workspace_name
               ++ u " from Git") ;;;
      ret true
    else
      print (u "  " ++ warn_mark ++ u " Update from Git may have failed") ;;;
      ret false.

(** [update_workspace_from_git] *)
Definition update_workspace_from_git (workspace_id workspace_name : str)
  : M bool :=
  status_response <- run_command (git_status_cmd workspace_id) ;;
  if negb (nonempty (strip (stdout status_response))) then
    print (u "  " ++ warn_mark ++ u " Failed to get Git status") ;;;
    ret false
  else
    h <- try_except
           (read_remote_hash workspace_id (stdout status_response))
           (on_decode_error
              (print (u "  " ++ warn_mark ++ u " Failed to parse Git status") ;;;
               ret None)) ;;
    match h with
    | None => ret false
    | Some remote_commit_hash =>
        pull_from_git workspace_id workspace_name remote_commit_hash
    end.

Definition connect_body (directory_name : str) (git_config : GitConfig)
  (connection_id : json) : json :=
  JObj [ (u "gitProviderDetails",
          JObj [ (u "ownerName", opt_json (organization git_config));
                 (u "gitProviderType", opt_json (provider git_config));
                 (u "repositoryName", opt_json (repository git_config));
                 (u "branchName", opt_json (branch git_config));
                 (u "directoryName", JStr directory_name) ]);
         (u "myGitCredentials",
          JObj [ (u "source", JStr (u "ConfiguredConnection"));
                 (u "connectionId", connection_id) ]) ].

Definition git_connect_cmd (workspace_id : str) (body : json) : list str :=
  [fab H; u "api"; u "-X"; u "post"; git_path workspace_id "connect";
   u "-i"; json_dumps H body].

(** Lines 173-179 of [connect_workspace_to_git]: whether the status shows
    an existing binding. *)
Definition already_connected (out : str) : Res bool :=
  match loads out with
  | Raise e => Raise e
  | Ok status_json =>
      match py_get status_json (u "status_code") JNull with
      | Raise e => Raise e
      | Ok sc =>
          if py_eq_int sc 200 then
            match py_get status_json (u "text") (JObj []) with
            | Raise e => Raise e
            | Ok git_status =>
                match py_get git_status (u "gitConnectionState") JNull with
                | Raise e => Raise e
                | Ok state =>
                    if truthy state then Ok true
                    else
                      match py_get git_status (u "remoteCommitHash") JNull with
                      | Raise e => Raise e
                      | Ok h => Ok (truthy h)
                      end
                end
            end
          else Ok false
      end
  end.

(** [connect_workspace_to_git] *)
Definition connect_workspace_to_git (workspace_id workspace_name : str)
  (directory_name : str) (git_config : GitConfig) (connection_id : json)
  : M bool :=
  status_response <- run_command (git_status_cmd workspace_id) ;;
  connected <-
    (if nonempty (strip (stdout status_response)) then
       try_except (lift (already_connected (stdout status_response)))
                  (on_decode_error (ret false))
     else ret false) ;;
  if (connected : bool) then
    print (check_mark ++ u " " ++ workspace_name
             ++ u " already connected to Git") ;;;
    ret true
  else
    connect_response <-
      run_command
        (git_connect_cmd workspace_id
           (connect_body directory_name git_config connection_id)) ;;
    if negb (nonempty (strip (stdout connect_response))) then
      print (cross_mark ++ u " Failed to connect " ++ workspace_name
               ++ u " to Git: Empty response") ;;;
      ret false
    else
      match loads (stdout connect_response) with
      | Raise _ =>
          print (cross_mark ++ u " Failed to connect " ++ workspace_name
                   ++ u " to Git: Invalid JSON") ;;;
          ret false
      | Ok connect_json =>
          sc <- lift (py_get connect_json (u "status_code") JNull) ;;
          if py_in_ints sc [200; 201] then
            print (check_mark ++ u " Connected " ++ workspace_name
                     ++ u " to Git: " ++ fstr (branch git_config) ++ u "/"
                     ++ directory_name) ;;;
            ret true
          else
            print (cross_mark ++ u " Failed to connect " ++ workspace_name
                     ++ u " to Git") ;;;
            print (u "  Status: " ++ fmt H sc) ;;;
            text <- lift (py_get connect_json (u "text") (JObj [])) ;;
            print (u "  Response: " ++ fmt H text) ;;;
            ret false
      end.

(* --------------------------------------------------------------------- *)
(** *** [fabric_core/auth.py] *)
(* --------------------------------------------------------------------- *)

Definition auth_cmd (client_id client_secret tenant_id : str) : list str :=
  [fab H; u "auth"; u "login"; u "-u"; client_id; u "-p"; client_secret;
   u "--tenant"; tenant_id].

(** [auth]: a variable of the environment that is not set puts [None]
    in the command line, which [subprocess.run] refuses with a
    [TypeError]. *)
Definition auth : M bool :=
  match getenv H (u "SPN_CLIENT_ID"), getenv H (u "SPN_CLIENT_SECRET"),
        getenv H (u "AZURE_TENANT_ID") with
  | Some client_id, Some client_secret, Some tenant_id =>
      result <- run_command (auth_cmd client_id client_secret tenant_id) ;;
      if negb (Z.eqb (returncode result) 0) then
        print (cross_mark ++ u " Authentication failed") ;;;
        print (u "  stdout: " ++ stdout result) ;;;
        print (u "  stderr: " ++ stderr result) ;;;
        ret false
      else
        print (check_mark ++ u " Authenticated successfully") ;;;
        ret true
  | _, _, _ => raise TypeError
  end.

(* --------------------------------------------------------------------- *)
(** *** [scripts/generate_solution_from_yml_simple.py] *)
(* --------------------------------------------------------------------- *)

(** The configuration that [load_config] returns, as far as [main] reads
    it.  [cfg_github] is [None] for an absent or empty [github] entry. *)
Record Config : Type := mkConfig {
  cfg_subscription_id : str;
  cfg_capacity_defaults : CapacityDefaults;
  cfg_security_groups : list (str * str);
  cfg_github : option GitConfig;
  cfg_capacities : list CapacityConfig;
  cfg_workspaces : list WorkspaceConfig
}.

Definition newline : str := [10%N].

(** [capacity_config.get('resource_group',
    capacity_defaults.get('resource_group'))], as the f-strings of the
    capacity functions render it. *)
Definition resource_group_of (config : Config)
  (capacity_config : CapacityConfig) : str :=
  fstr (get_or (cap_resource_group capacity_config)
               (def_resource_group (cfg_capacity_defaults config))).

(** Python truthiness of a workspace id. *)
Definition has_id (workspace_id : option str) : bool :=
  match workspace_id with
  | Some s => nonempty s
  | None => false
  end.

(** The body of the loop over the workspaces: the value is the connection
    id the next iteration starts with. *)
Definition provision_workspace (config : Config)
  (github_connection_id : json) (workspace_config : WorkspaceConfig)
  : M json :=
  workspace_id <- create_workspace workspace_config ;;
  match ws_permissions workspace_config, workspace_id with
  | Some permissions, Some i =>
      if nonempty i then
        assign_permissions i permissions (cfg_security_groups config)
      else ret tt
  | _, _ => ret tt
  end ;;;
  match ws_connect_to_git_folder workspace_config, workspace_id,
        cfg_github config with
  | Some folder, Some i, Some git_config =>
      if nonempty i then
        connection <-
          (if negb (truthy github_connection_id) then
             get_or_create_git_connection i git_config
           else ret github_connection_id) ;;
        if truthy connection then
          connect_workspace_to_git i (ws_name workspace_config) folder
            git_config connection ;;;
          ret connection
        else ret connection
      else ret github_connection_id
  | _, _, _ => ret github_connection_id
  end.

Fixpoint provision_workspaces (config : Config) (github_connection_id : json)
  (l : list WorkspaceConfig) : M unit :=
  match l with
  | [] => ret tt
  | workspace_config :: rest =>
      connection <-
        provision_workspace config github_connection_id workspace_config ;;
      provision_workspaces config connection rest
  end.

(** [main], from the configuration on. *)
Definition main (config : Config) : M unit :=
  print (u "=== AUTHENTICATING ===") ;;;
  authenticated <- auth ;;
  if negb authenticated then
    print (newline ++ cross_mark
             ++ u " Authentication failed. Cannot proceed.")
  else
    print (newline ++ u "=== CREATING CAPACITIES ===") ;;;
    for_each
      (fun capacity_config =>
         create_capacity capacity_config (cfg_subscription_id config)
           (resource_group_of config capacity_config)
           (cfg_capacity_defaults config))
      (cfg_capacities config) ;;;
    print (newline ++ u "=== CREATING WORKSPACES ===") ;;;
    provision_workspaces config JNull (cfg_workspaces config) ;;;
    print (newline ++ u "=== SUSPENDING CAPACITIES ===") ;;;
    sleep 20 ;;;
    for_each
      (fun capacity_config =>
         suspend_capacity (cap_name capacity_config)
           (cfg_subscription_id config)
           (resource_group_of config capacity_config) ;;;
         ret tt)
      (cfg_capacities config) ;;;
    print (newline ++ check_mark ++ u " Done").

End Operations.

(* ===================================================================== *)
(** ** The single-file script [config/generate_solution_from_yml_simple.py] *)
(* ===================================================================== *)

(** The script says of itself that it is written without error handling
    and validation.  Its capacity functions, [workspace_exists] and
    [get_workspace_id] are the same text as in [fabric_core]; the ones
    that differ are below. *)
Module Simple.

Section Script.

Variable H : Host.

Notation "x <- m ;; k" := (bind H m (fun x => k))
  (at level 61, m at next level, right associativity).
Notation "m ;;; k" := (bind H m (fun _ => k))
  (at level 61, right associativity).

(** The body of the loop of the script's [assign_permissions]: no look at
    the existing assignments, and the response decoded outside any
    [try]. *)
Definition assign_one (workspace_id : str)
  (security_groups : list (str * str)) (p : Permission) : M H unit :=
  let group_id := sg_get security_groups (group p) in
  assign_response <- run_command H (assign_cmd H workspace_id group_id p) ;;
  response_json <- lift H (loads H (stdout assign_response)) ;;
  sc <- lift H (py_get response_json (u "status_code") JNull) ;;
  if py_in_ints sc [200; 201] then
    print H (u "  " ++ check_mark ++ u " Assigned " ++ role p ++ u " to "
               ++ group p)
  else ret H tt.

(** The script's [assign_permissions] *)
Definition assign_permissions (workspace_id : str)
  (permissions : list Permission) (security_groups : list (str * str))
  : M H unit :=
  sleep H 10 ;;;
  for_each H (assign_one workspace_id security_groups) permissions.

(** The script's [create_workspace]: the exit code of the create command
    is not looked at. *)
Definition create_workspace (workspace_config : WorkspaceConfig)
  : M H (option str) :=
  let workspace_name := ws_name workspace_config in
  found <- workspace_exists H workspace_name ;;
  if (found : bool) then
    print H (check_mark ++ u " " ++ workspace_name ++ u " exists") ;;;
    get_workspace_id H workspace_name
  else
    run_command H (create_cmd H workspace_config) ;;;
    print H (check_mark ++ u " Created " ++ workspace_name) ;;;
    sleep H 5 ;;;
    get_workspace_id H workspace_name.

(** The script's [get_or_create_git_connection]: a connection is reused
    when its display name is the name computed from the owner and the
    repository. *)
Definition get_or_create_git_connection (workspace_id : str)
  (git_config : GitConfig) : M H json :=
  let connection_name :=
    u "GitHub-" ++ fstr (organization git_config) ++ u "-"
      ++ fstr (repository git_config) in
  list_response <- run_command H (list_connections_cmd H) ;;
  list_json <- lift H (loads H (stdout list_response)) ;;
  sc <- lift H (py_get list_json (u "status_code") JNull) ;;
  found <-
    (if py_eq_int sc 200 then
       text <- lift H (py_get list_json (u "text") (JObj [])) ;;
       value <- lift H (py_get text (u "value") (JArr [])) ;;
       connections <- lift H (py_iter value) ;;
       lift H (find_connection connection_name connections)
     else ret H None) ;;
  match found with
  | Some i =>
      print H (check_mark ++ u " Using existing connection: "
                 ++ connection_name) ;;;
      ret H i
  | None => create_connection H connection_name git_config
  end.

(** The script's [connect_workspace_to_git]: no look at the status of the
    workspace, and the response decoded outside any [try]. *)
Definition connect_workspace_to_git (workspace_id workspace_name : str)
  (directory_name : str) (git_config : GitConfig) (connection_id : json)
  : M H bool :=
  connect_response <-
    run_command H
      (git_connect_cmd H workspace_id
         (connect_body directory_name git_config connection_id)) ;;
  connect_json <- lift H (loads H (stdout connect_response)) ;;
  sc <- lift H (py_get connect_json (u "status_code") JNull) ;;
  if py_in_ints sc [200; 201] then
    print H (check_mark ++ u " Connected " ++ workspace_name
               ++ u " to Git: " ++ directory_name) ;;;
    ret H true
  else ret H false.

(** The script's [auth]: the result of the login is not looked at. *)
Definition auth : M H unit :=
  match getenv H (u "SPN_CLIENT_ID"), getenv H (u "SPN_CLIENT_SECRET"),
        getenv H (u "AZURE_TENANT_ID") with
  | Some client_id, Some client_secret, Some tenant_id =>
      run_command H (auth_cmd H client_id client_secret tenant_id) ;;;
      ret H tt
  | _, _, _ => raise H TypeError
  end.

(** The body of the loop over the workspaces of the script's [main]. *)
Definition provision_workspace (config : Config)
  (github_connection_id : json) (workspace_config : WorkspaceConfig)
  : M H json :=
  workspace_id <- create_workspace workspace_config ;;
  match ws_permissions workspace_config, workspace_id with
  | Some permissions, Some i =>
      if nonempty i then
        assign_permissions i permissions (cfg_security_groups config)
      else ret H tt
  | _, _ => ret H tt
  end ;;;
  match ws_connect_to_git_folder workspace_config, workspace_id,
        cfg_github config with
  | Some folder, Some i, Some git_config =>
      if nonempty i then
        connection <-
          (if negb (truthy github_connection_id) then
             get_or_create_git_connection i git_config
           else ret H github_connection_id) ;;
        if truthy connection then
          connect_workspace_to_git i (ws_name workspace_config) folder
            git_config connection ;;;
          ret H connection
        else ret H connection
      else ret H github_connection_id
  | _, _, _ => ret H github_connection_id
  end.

Fixpoint provision_workspaces (config : Config) (github_connection_id : json)
  (l : list WorkspaceConfig) : M H unit :=
  match l with
  | [] => ret H tt
  | workspace_config :: rest =>
      connection <-
        provision_workspace config github_connection_id workspace_config ;;
      provision_workspaces config connection rest
  end.

(** The script's [main], from the configuration on: no look at the
    outcome of the login. *)
Definition main (config : Config) : M H unit :=
  print H (u "=== AUTHENTICATING ===") ;;;
  auth ;;;
  print H (newline ++ u "=== CREATING CAPACITIES ===") ;;;
  for_each H
    (fun capacity_config =>
       create_capacity H capacity_config (cfg_subscription_id config)
         (resource_group_of config capacity_config)
         (cfg_capacity_defaults config))
    (cfg_capacities config) ;;;
  print H (newline ++ u "=== CREATING WORKSPACES ===") ;;;
  provision_workspaces config JNull (cfg_workspaces config) ;;;
  print H (newline ++ u "=== SUSPENDING CAPACITIES ===") ;;;
  sleep H 20 ;;;
  for_each H
    (fun capacity_config =>
       suspend_capacity H (cap_name capacity_config)
         (cfg_subscription_id config)
         (resource_group_of config capacity_config) ;;;
       ret H tt)
    (cfg_capacities config) ;;;
  print H (newline ++ check_mark ++ u " Done").

End Script.

End Simple.

(* ===================================================================== *)
(** ** The script [config/scripts/sync_dev_workspaces_from_main.py] *)
(* ===================================================================== *)

Module SyncDev.

Section Script.

Variable H : Host.

Notation "x <- m ;; k" := (bind H m (fun x => k))
  (at level 61, m at next level, right associativity).
Notation "m ;;; k" := (bind H m (fun _ => k))
  (at level 61, right associativity).

Definition placeholder : str := u "{{SOLUTION_VERSION}}".

(** The condition of the list comprehension of lines 46-49:
    ['-dev-' in ws.get('name', '') and ws.get('connect_to_git_folder')]. *)
Definition is_dev_with_git (ws : WorkspaceConfig) : bool :=
  contains (u "-dev-") (ws_name ws)
  && match ws_connect_to_git_folder ws with
     | Some folder => nonempty folder
     | None => false
     end.

(** Lines 65-81, the body of the loop. *)
Definition sync_workspace (solution_version : str)
  (workspace_config : WorkspaceConfig) : M H unit :=
  let workspace_name :=
    replace placeholder solution_version (ws_name workspace_config) in
  print H (u "--- Syncing " ++ workspace_name ++ u " ---") ;;;
  workspace_id <- get_workspace_id H workspace_name ;;
  match workspace_id with
  | Some i =>
      if nonempty i then
        success <- update_workspace_from_git H i workspace_name ;;
        if negb success then
          print H (u "  " ++ warn_mark ++ u " Failed to update "
                     ++ workspace_name ++ u " from Git")
        else ret H tt
      else
        print H (u "  " ++ warn_mark ++ u " Workspace not found: "
                   ++ workspace_name)
  | None =>
      print H (u "  " ++ warn_mark ++ u " Workspace not found: "
                 ++ workspace_name)
  end.

(** [main], from the configuration on: [solution_version] and
    [workspaces_config] are the two entries it reads, the first a string. *)
Definition main (solution_version : str)
  (workspaces_config : list WorkspaceConfig) : M H unit :=
  let dev_workspaces := filter is_dev_with_git workspaces_config in
  match dev_workspaces with
  | [] =>
      print H (warn_mark
                 ++ u " No dev workspaces configured with Git integration found")
  | _ :: _ =>
      print H (u "=== AUTHENTICATING ===") ;;;
      authenticated <- auth H ;;
      if negb authenticated then
        print H (newline ++ cross_mark
                   ++ u " Authentication failed. Cannot proceed with workspace sync.")
      else
        print H (newline ++ u "=== SYNCING DEV WORKSPACES FROM MAIN ===") ;;;
        print H (u "Solution version: " ++ solution_version) ;;;
        print H (u "Workspaces to sync: "
                   ++ fmt H (JInt (Z.of_nat (length dev_workspaces)))
                   ++ newline) ;;;
        for_each H (sync_workspace solution_version) dev_workspaces ;;;
        print H (newline ++ check_mark ++ u " Dev workspace sync complete")
  end.

End Script.

End SyncDev.

(* ===================================================================== *)
(** ** The script [config/scripts/create_feature_workspaces.py] *)
(* ===================================================================== *)

Module Feature.

(** [capacity_map.get(workspace_type)] of lines 34-41, for a
    [solution_version] that is a string. *)
Definition get_capacity_for_workspace_type (workspace_type : str)
  (solution_version : str) : option str :=
  let capacity_map :=
    [ (u "processing", u "fc" ++ solution_version ++ u "devengineering");
      (u "datastores", u "fc" ++ solution_version ++ u "devengineering");
      (u "consumption", u "fc" ++ solution_version ++ u "devconsumption") ] in
  match find (fun kv => str_eqb (fst kv) workspace_type) capacity_map with
  | Some kv => Some (snd kv)
  | None => None
  end.

End Feature.

(* ===================================================================== *)
(** ** A concrete host, to run the operations on examples *)
(* ===================================================================== *)

(** The theorems below hold for every host.  The examples run on this
    one: the world is the list of the results the next child processes
    will give (a process that is not scripted fails with exit code 1 and
    no output), and the decoder reads the fragment of JSON without
    fractions, exponents and [\u] escapes (on a text outside the
    fragment it answers [None]; no example uses one). *)
Module Ref.

Definition quote : N := 34%N.

(** A quoted ASCII literal of a JSON text. *)
Definition q (s : string) : str := quote :: u s ++ [quote].

Definition is_json_ws (c : N) : bool :=
  ((c =? 32) || (c =? 9) || (c =? 10) || (c =? 13))%N.

Fixpoint skip_ws (s : str) : str :=
  match s with
  | c :: s' => if is_json_ws c then skip_ws s' else s
  | [] => []
  end.

Definition is_digit (c : N) : bool := ((48 <=? c) && (c <=? 57))%N.

(** The digits at the head of [s], as a number, their count, and the
    rest. *)
Fixpoint digits (s : str) (acc : Z) (count : nat) : Z * nat * str :=
  match s with
  | c :: s' =>
      if is_digit c then digits s' (10 * acc + Z.of_N (c - 48)) (S count)
      else (acc, count, s)
  | [] => (acc, count, [])
  end.

Definition starts_fraction (s : str) : bool :=
  match s with
  | c :: _ => ((c =? 46) || (c =? 101) || (c =? 69))%N
  | [] => false
  end.

Definition leading_zero (s : str) : bool :=
  match s with
  | c :: _ => (c =? 48)%N
  | [] => false
  end.

Definition parse_nat (s : str) : option (Z * str) :=
  match digits s 0 O with
  | (_, O, _) => None
  | (z, S k, rest) =>
      if (leading_zero s && negb (Nat.eqb k 0)) || starts_fraction rest
      then None else Some (z, rest)
  end.

Definition parse_int (s : str) : option (json * str) :=
  match s with
  | 45%N :: s' =>
      match parse_nat s' with
      | Some (z, rest) => Some (JInt (- z), rest)
      | None => None
      end
  | _ =>
      match parse_nat s with
      | Some (z, rest) => Some (JInt z, rest)
      | None => None
      end
  end.

Definition unescape (c : N) : option N :=
  if ((c =? 34) || (c =? 92) || (c =? 47))%N then Some c
  else if (c =? 98)%N then Some 8%N
  else if (c =? 102)%N then Some 12%N
  else if (c =? 110)%N then Some 10%N
  else if (c =? 114)%N then Some 13%N
  else if (c =? 116)%N then Some 9%N
  else None.

(** The characters of a string up to its closing quote. *)
Fixpoint parse_chars (s : str) : option (str * str) :=
  match s with
  | [] => None
  | c :: s' =>
      if (c =? 34)%N then Some ([], s')
      else if (c <? 32)%N then None
      else if (c =? 92)%N then
        match s' with
        | e :: s'' =>
            match unescape e, parse_chars s'' with
            | Some d, Some (t, rest) => Some (d :: t, rest)
            | _, _ => None
            end
        | [] => None
        end
      else
        match parse_chars s' with
        | Some (t, rest) => Some (c :: t, rest)
        | None => None
        end
  end.

Fixpoint parse_value (fuel : nat) (s : str) : option (json * str) :=
  match fuel with
  | O => None
  | S fuel' =>
      match skip_ws s with
      | 110%N :: 117%N :: 108%N :: 108%N :: rest => Some (JNull, rest)
      | 116%N :: 114%N :: 117%N :: 101%N :: rest => Some (JBool true, rest)
      | 102%N :: 97%N :: 108%N :: 115%N :: 101%N :: rest =>
          Some (JBool false, rest)
      | 34%N :: rest =>
          match parse_chars rest with
          | Some (t, rest') => Some (JStr t, rest')
          | None => None
          end
      | 91%N :: rest =>
          match skip_ws rest with
          | 93%N :: rest' => Some (JArr [], rest')
          | _ => parse_elems fuel' rest []
          end
      | 123%N :: rest =>
          match skip_ws rest with
          | 125%N :: rest' => Some (JObj [], rest')
          | _ => parse_members fuel' rest []
          end
      | other => parse_int other
      end
  end

with parse_elems (fuel : nat) (s : str) (acc : list json)
  : option (json * str) :=
  match fuel with
  | O => None
  | S fuel' =>
      match parse_value fuel' s with
      | Some (v, rest) =>
          match skip_ws rest with
          | 44%N :: rest' => parse_elems fuel' rest' (v :: acc)
          | 93%N :: rest' => Some (JArr (rev (v :: acc)), rest')
          | _ => None
          end
      | None => None
      end
  end

with parse_members (fuel : nat) (s : str) (acc : list (str * json))
  : option (json * str) :=
  match fuel with
  | O => None
  | S fuel' =>
      match skip_ws s with
      | 34%N :: rest =>
          match parse_chars rest with
          | Some (k, rest1) =>
              match skip_ws rest1 with
              | 58%N :: rest2 =>
                  match parse_value fuel' rest2 with
                  | Some (v, rest3) =>
                      match skip_ws rest3 with
                      | 44%N :: rest4 =>
                          parse_members fuel' rest4 ((k, v) :: acc)
                      | 125%N :: rest4 =>
                          Some (JObj (rev ((k, v) :: acc)), rest4)
                      | _ => None
                      end
                  | None => None
                  end
              | _ => None
              end
          | None => None
          end
      | _ => None
      end
  end.

(** [json.loads] on the fragment. *)
Definition json_loads (s : str) : option json :=
  match parse_value (2 * length s + 2) s with
  | Some (v, rest) =>
      match skip_ws rest with
      | [] => Some v
      | _ => None
      end
  | None => None
  end.

(** A whole number in decimal. *)
Definition decimal (z : Z) : str :=
  u (NilZero.string_of_int (Z.to_int z)).

Definition escape_char (c : N) : str :=
  if ((c =? 34) || (c =? 92))%N then [92%N; c] else [c].

Definition quoted (s : str) : str :=
  quote :: flat_map escape_char s ++ [quote].

Definition join (sep : str) (l : list str) : str :=
  match l with
  | [] => []
  | x :: rest => x ++ flat_map (fun y => sep ++ y) rest
  end.

(** [json.dumps] on values without floats whose strings are printable
    ASCII. *)
Fixpoint json_dumps (v : json) : str :=
  match v with
  | JNull => u "null"
  | JBool b => if b then u "true" else u "false"
  | JInt z => decimal z
  | JFloat _ => u "NaN"
  | JStr s => quoted s
  | JArr l => u "[" ++ join (u ", ") (map json_dumps l) ++ u "]"
  | JObj kv =>
      u "{"
        ++ join (u ", ")
             (map (fun p => quoted (fst p) ++ u ": " ++ json_dumps (snd p)) kv)
        ++ u "}"
  end.

(** [repr] on the same values. *)
Fixpoint repr (v : json) : str :=
  match v with
  | JNull => u "None"
  | JBool b => if b then u "True" else u "False"
  | JInt z => decimal z
  | JFloat _ => u "nan"
  | JStr s => u "'" ++ s ++ u "'"
  | JArr l => u "[" ++ join (u ", ") (map repr l) ++ u "]"
  | JObj kv =>
      u "{"
        ++ join (u ", ")
             (map (fun p => u "'" ++ fst p ++ u "': " ++ repr (snd p)) kv)
        ++ u "}"
  end.

(** [str()] *)
Definition fmt (v : json) : str :=
  match v with
  | JStr s => s
  | _ => repr v
  end.

(** The result of a process that was not scripted. *)
Definition failed_process : CompletedProcess := mkCP 1 [] [].

Definition exec (cmd : list str) (w : list CompletedProcess)
  : CompletedProcess * list CompletedProcess :=
  match w with
  | cp :: rest => (cp, rest)
  | [] => (failed_process, [])
  end.

Definition host : Host :=
  mkHost (list CompletedProcess) exec (fun _ w => w)
         json_loads json_dumps fmt (u "fab") (fun _ => None).

(** A process that exits with code 0 and prints [out]. *)
Definition prints (out : str) : CompletedProcess := mkCP 0 out [].

(** The envelope [{"status_code": code}]. *)
Definition envelope (code : string) : str :=
  u "{" ++ q "status_code" ++ u ": " ++ u code ++ u "}".

(** A host whose commands print an envelope with status 200 and nothing
    in turn: its world counts the commands run. *)
Definition quiet_exec (cmd : list str) (n : nat) : CompletedProcess * nat :=
  (if Nat.even n then prints (envelope "200") else prints [], S n).

Definition quiet : Host :=
  mkHost nat quiet_exec (fun _ n => n)
         json_loads json_dumps fmt (u "fab") (fun _ => None).

(** A host whose every command prints an envelope with status 200, with
    the variables of the login set. *)
Definition accepting : Host :=
  mkHost unit (fun _ _ => (prints (envelope "200"), tt)) (fun _ w => w)
         json_loads json_dumps fmt (u "fab") (fun _ => Some (u "secret")).

(** The values of the examples. *)
Definition fc01 : CapacityConfig := mkCapacity (u "fc01") None None None None.
Definition no_defaults : CapacityDefaults := mkDefaults None None None None.
Definition sub : str := u "sub-1".
Definition rg : str := u "rg-1".
Definition ws1 : str := u "0f8fad5b-d9cb-469f-a165-70867728950e".
Definition dev : WorkspaceConfig :=
  mkWorkspace (u "av01-dev") (u "fc01") None None.
Definition eng_admin : Permission := mkPermission (u "Eng") (u "Admin").
Definition groups : list (str * str) := [(u "Eng", u "g1")].

(** A repository and two connections: one with the name computed for
    the repository, one named [test_connection]. *)
Definition org_repo : GitConfig :=
  mkGit (Some (u "org")) (Some (u "repo")) (Some (u "GitHub")) (Some (u "main")).

Definition own_connection : json :=
  JObj [(u "displayName", JStr (u "GitHub-org-repo")); (u "id", JStr (u "c1"))].

Definition test_connection : json :=
  JObj [(u "displayName", JStr (u "test_connection")); (u "id", JStr (u "c2"))].

Definition connection_text (name id : string) : str :=
  u "{" ++ q "displayName" ++ u ": " ++ q name ++ u ", " ++ q "id" ++ u ": "
    ++ q id ++ u "}".

(** The listing of the connections: an envelope with status 200 whose
    [text.value] is the list of the given texts. *)
Definition listing (connections : str) : str :=
  u "{" ++ q "status_code" ++ u ": 200, " ++ q "text" ++ u ": {" ++ q "value"
    ++ u ": [" ++ connections ++ u "]}}".

Definition both_connections : str :=
  listing (connection_text "GitHub-org-repo" "c1" ++ u ", "
             ++ connection_text "test_connection" "c2").

Definition own_connection_only : str :=
  listing (connection_text "GitHub-org-repo" "c1").

(** [{"status_code": 200, "text": {"remoteCommitHash": "abc123"}}] *)
Definition bound_status : str :=
  u "{" ++ q "status_code" ++ u ": 200, " ++ q "text" ++ u ": {"
    ++ q "remoteCommitHash" ++ u ": " ++ q "abc123" ++ u "}}".

(** A dev workspace bound to a folder of the repository, named with the
    placeholder of the version, and one named without it. *)
Definition dev_processing : WorkspaceConfig :=
  mkWorkspace (u "{{SOLUTION_VERSION}}-dev-processing") (u "fc01") None
    (Some (u "solution/processing/")).

Definition dev_datastores : WorkspaceConfig :=
  mkWorkspace (u "av01-dev-datastores") (u "fc01") None
    (Some (u "solution/datastores/")).


(** The scripted host with the three variables of the login set. *)
Definition logged : Host :=
  mkHost (list CompletedProcess) exec (fun _ w => w)
         json_loads json_dumps fmt (u "fab") (fun _ => Some (u "secret")).

Definition small_config : Config :=
  mkConfig sub no_defaults groups None [fc01] [dev].

(** [{"status_code": 200, "text": {"value": [{"principal": {"id": "g1"},
    "role": "Admin"}]}}] *)
Definition roles_listing : str :=
  u "{" ++ q "status_code" ++ u ": 200, " ++ q "text" ++ u ": {"
    ++ q "value" ++ u ": [{" ++ q "principal" ++ u ": {" ++ q "id" ++ u ": "
    ++ q "g1" ++ u "}, " ++ q "role" ++ u ": " ++ q "Admin" ++ u "}]}}".

(** [{"status_code": 400, "text": {"errorCode":
    "WorkspaceGitConnectionNotInitialized"}}] *)
Definition not_initialized_answer : str :=
  u "{" ++ q "status_code" ++ u ": 400, " ++ q "text" ++ u ": {"
    ++ q "errorCode" ++ u ": " ++ q "WorkspaceGitConnectionNotInitialized"
    ++ u "}}".

End Ref.

(* ===================================================================== *)
(** ** Vocabulary of the statements *)
(* ===================================================================== *)

Section Vocabulary.

Variable H : Host.

(** What [call_azure_api] returns for the output of a process. *)
Definition envelope_of (cp : CompletedProcess) : json * json :=
  match decode_envelope H (stdout cp) with
  | Ok p => p
  | Raise _ => (JInt 0, JObj [])
  end.

(** The command line of a call to the Azure API without a body. *)
Definition azure_cmd (endpoint method : str) : list str :=
  [fab H; u "api"; endpoint; u "-X"; method; u "-A"; u "azure"].

Definition suspend_cmd (capacity_name subscription_id resource_group : str)
  : list str :=
  azure_cmd (suspend_url subscription_id resource_group capacity_name)
            (u "post").

(** The world in which the attempt number [i] (from 0) of a retry of
    [cmd] every [pause] seconds runs, when none before it succeeded. *)
Fixpoint world_at (cmd : list str) (pause : Z) (i : nat) (w : World H)
  : World H :=
  match i with
  | O => w
  | S i' => world_at cmd pause i' (elapse H pause (snd (exec H cmd w)))
  end.

(** Whether the attempt number [i] returns status 200 or 202. *)
Definition attempt_ok (cmd : list str) (i : nat) (w : World H) : bool :=
  py_in_ints (fst (envelope_of (fst (exec H cmd (world_at cmd 60 i w)))))
             [200; 202].

(** The events of [k] attempts that failed. *)
Definition failed_attempts (cmd : list str) (k : nat) : list Event :=
  concat (repeat [ECmd cmd; ESleep 60] k).

(** The commands among the events. *)
Definition commands (t : list Event) : list (list str) :=
  flat_map (fun e => match e with ECmd c => [c] | _ => [] end) t.

(** The sleeps among the events. *)
Definition sleeps (t : list Event) : list Z :=
  flat_map (fun e => match e with ESleep z => [z] | _ => [] end) t.

(** What [get_workspace_id] returns for the result of its query. *)
Definition id_from (response : CompletedProcess) : option str :=
  if Z.eqb (returncode response) 0 && nonempty (strip (stdout response))
  then Some (strip (stdout response))
  else re_search_uuid (lower (stdout response)).

(** The status code in the envelope printed by a process. *)
Definition status_code_of (out : str) : Res json :=
  match loads H out with
  | Ok j => py_get j (u "status_code") JNull
  | Raise e => Raise e
  end.

(** The error code in the text of the envelope printed by a process. *)
Definition error_code_of (out : str) : Res json :=
  match loads H out with
  | Ok j =>
      match py_get j (u "text") (JObj []) with
      | Ok text => py_get text (u "errorCode") JNull
      | Raise e => Raise e
      end
  | Raise e => Raise e
  end.

(** An operation returns a value: no exception leaves it. *)
Definition returns {A} (m : M H A) (w : World H) : Prop :=
  exists a w' t, m w = (Ok a, w', t).

(** The result of an operation is a value that satisfies [P] or an
    exception that satisfies [E]. *)
Definition yields {A} (P : A -> Prop) (E : Exn -> Prop) (m : M H A)
  (w : World H) : Prop :=
  match fst (fst (m w)) with
  | Ok a => P a
  | Raise e => E e
  end.

(** The shape of an entry of the list of role assignments that the dict
    comprehension of [get_workspace_role_assignments] can read: a dict
    whose [principal], when there is one, is a dict whose [id], when
    there is one, can be a key. *)
Definition assignment_shaped (a : json) : bool :=
  match a with
  | JObj akv =>
      match dict_find (u "principal") akv with
      | None => true
      | Some (JObj pkv) =>
          match dict_find (u "id") pkv with
          | None => true
          | Some k => hashable k
          end
      | Some _ => false
      end
  | _ => false
  end.

(** The envelope of the command-line tool: a dict whose [text], when
    there is one, is a dict whose [value], when there is one, is a list
    of entries of that shape. *)
Definition envelope_shaped (j : json) : bool :=
  match j with
  | JObj kv =>
      match dict_find (u "text") kv with
      | None => true
      | Some (JObj tkv) =>
          match dict_find (u "value") tkv with
          | None => true
          | Some (JArr l) => forallb assignment_shaped l
          | Some _ => false
          end
      | Some _ => false
      end
  | _ => false
  end.

(** An output that is not JSON (the empty output among them), or is an
    envelope. *)
Definition tame (out : str) : bool :=
  match json_loads H out with
  | None => true
  | Some j => envelope_shaped j
  end.

(** The arguments [call_azure_api] adds for a body. *)
Definition body_args (body : option json) : list str :=
  match body with
  | Some b => if truthy b then [u "-i"; json_dumps H b] else []
  | None => []
  end.

Definition ls_cmd (workspace_name : str) : list str :=
  [fab H; u "ls"; workspace_name ++ u ".Workspace"].

End Vocabulary.


(** The commands an operation runs from a world. *)
Definition commands_of {H A} (m : M H A) (w : World H) : list (list str) :=
  commands (snd (m w)).

(** Whether a command line is a query of the CLI ([fab get ...]). *)
Definition is_id_query (cmd : list str) : bool :=
  match cmd with
  | _ :: verb :: _ => str_eqb verb (u "get")
  | _ => false
  end.

(** Conditions on what an operation yields. *)
Definition any {A} (a : A) : Prop := True.
Definition no_exception (e : Exn) : Prop := False.
Definition decode_error (e : Exn) : Prop := e = JSONDecodeError.

(** Whether the principal of a desired pair is absent from the dict of
    the existing assignments. *)
Definition needs_assignment (security_groups : list (str * str))
  (existing : list (json * json)) (p : Permission) : bool :=
  match existing_role_of (sg_get security_groups (group p)) existing with
  | None => true
  | Some _ => false
  end.

(** The [displayName] and the [id] of a connection of the listing, as
    [conn.get] reads them. *)
Definition display_name_of (conn : json) : json :=
  match conn with
  | JObj kv => match dict_find (u "displayName") kv with
               | Some v => v
               | None => JNull
               end
  | _ => JNull
  end.

Definition connection_id_of (conn : json) : json :=
  match conn with
  | JObj kv => match dict_find (u "id") kv with
               | Some v => v
               | None => JNull
               end
  | _ => JNull
  end.

(** A dict whose display name is not [name]. *)
Definition other_connection (name : str) (conn : json) : Prop :=
  (exists kv, conn = JObj kv) /\ py_eq_str (display_name_of conn) name = false.

(** The name and the address the code computes for a repository. *)
Definition connection_name_of (git_config : GitConfig) : str :=
  u "GitHub-" ++ fstr (organization git_config) ++ u "-"
    ++ fstr (repository git_config).

Definition github_url_of (git_config : GitConfig) : str :=
  u "https://github.com/" ++ fstr (organization git_config) ++ u "/"
    ++ fstr (repository git_config).

(** The output of the listing of the connections decodes to a dict with
    status 200 whose [text.value] is the list [conns]. *)
Definition lists_connections (loads : str -> option json) (out : str)
  (conns : list json) : Prop :=
  exists kv tkv,
    loads out = Some (JObj kv)
    /\ py_eq_int match dict_find (u "status_code") kv with
                 | Some v => v
                 | None => JNull
                 end 200 = true
    /\ dict_find (u "text") kv = Some (JObj tkv)
    /\ dict_find (u "value") tkv = Some (JArr conns).

(** [d.get(k)] on the pairs of a dict. *)
Definition field (k : string) (kv : list (str * json)) : json :=
  match dict_find (u k) kv with
  | Some v => v
  | None => JNull
  end.

(** The [text] of an envelope, the empty dict when there is none. *)
Definition text_of (kv : list (str * json)) : json :=
  match dict_find (u "text") kv with
  | Some v => v
  | None => JObj []
  end.

(** Whether the text of a Git status shows a binding: a connection state
    or a remote commit hash that is not empty. *)
Definition binding_shown (tkv : list (str * json)) : bool :=
  truthy (field "gitConnectionState" tkv)
  || truthy (field "remoteCommitHash" tkv).

(** *** What an operation needs of the outputs it decodes *)












(** A decoded status whose envelope has the shape above. *)
Definition shaped_status (st : json * json) : Prop :=
  envelope_shaped (fst st) = true.



(** [n] characters, each of [[0-9a-f]]. *)
Definition hex_group (n : nat) (g : str) : Prop :=
  length g = n /\ forallb is_hex g = true.

(** Five groups of 8, 4, 4, 4 and 12 hexadecimal digits, with hyphens
    between them. *)
Definition uuid_shaped (m : str) : Prop :=
  exists g1 g2 g3 g4 g5,
    m = g1 ++ hyphen :: g2 ++ hyphen :: g3 ++ hyphen :: g4 ++ hyphen :: g5
    /\ hex_group 8 g1 /\ hex_group 4 g2 /\ hex_group 4 g3
    /\ hex_group 4 g4 /\ hex_group 12 g5.

(* ===================================================================== *)
(** ** Reasoning about operations *)
(* ===================================================================== *)

Lemma bind_ok H A B (m : M H A) (f : A -> M H B) w a w1 t1 :
  m w = (Ok a, w1, t1) ->
  bind H m f w = (fst (fst (f a w1)), snd (fst (f a w1)), t1 ++ snd (f a w1)).
Proof.
  intros E. unfold bind. rewrite E.
  destruct (f a w1) as [[r w2] t2]. reflexivity.
Qed.

Lemma bind_raise H A B (m : M H A) (f : A -> M H B) w e w1 t1 :
  m w = (Raise e, w1, t1) -> bind H m f w = (Raise e, w1, t1).
Proof. intros E. unfold bind. rewrite E. reflexivity. Qed.

Lemma bind_lift_ok H A B (a : A) (f : A -> M H B) w :
  bind H (lift H (Ok a)) f w = f a w.
Proof. unfold bind, lift. destruct (f a w) as [[r w2] t2]. reflexivity. Qed.

Lemma bind_lift_raise H A B e (f : A -> M H B) w :
  bind H (lift H (Raise e)) f w = (Raise e, w, []).
Proof. reflexivity. Qed.

Lemma bind_ret H A B (a : A) (f : A -> M H B) w :
  bind H (ret H a) f w = f a w.
Proof. unfold bind, ret. destruct (f a w) as [[r w2] t2]. reflexivity. Qed.

Lemma run_command_run H cmd w :
  run_command H cmd w
  = (Ok (fst (exec H cmd w)), snd (exec H cmd w), [ECmd cmd]).
Proof. unfold run_command. destruct (exec H cmd w). reflexivity. Qed.

Lemma workspace_exists_run H workspace_name w :
  workspace_exists H workspace_name w
  = (Ok (Z.eqb (returncode (fst (exec H (ls_cmd H workspace_name) w))) 0),
     snd (exec H (ls_cmd H workspace_name) w),
     [ECmd (ls_cmd H workspace_name)]).
Proof.
  unfold workspace_exists.
  erewrite bind_ok by apply run_command_run. reflexivity.
Qed.

Lemma call_azure_api_no_body H endpoint method w :
  call_azure_api H endpoint method None w
  = (Ok (envelope_of H (fst (exec H (azure_cmd H endpoint method) w))),
     snd (exec H (azure_cmd H endpoint method) w),
     [ECmd (azure_cmd H endpoint method)]).
Proof.
  unfold call_azure_api, bind, run_command, envelope_of, azure_cmd.
  destruct (exec H _ w) as [cp w']. cbn [fst snd].
  destruct (decode_envelope H (stdout cp)); reflexivity.
Qed.

(* --------------------------------------------------------------------- *)
(** *** Capacity *)
(* --------------------------------------------------------------------- *)

Section Capacity.

Variable H : Host.
Variables capacity_name subscription_id resource_group : str.

Let cmd := suspend_cmd H capacity_name subscription_id resource_group.

Lemma world_at_succ pause i w :
  world_at H cmd pause (S i) w
  = elapse H pause (snd (exec H cmd (world_at H cmd pause i w))).
Proof.
  revert w. induction i as [|i IH]; intros w; [reflexivity|].
  change (world_at H cmd pause (S (S i)) w)
    with (world_at H cmd pause (S i) (elapse H pause (snd (exec H cmd w)))).
  rewrite IH. reflexivity.
Qed.

Lemma suspend_loop_spec n : forall w,
  exists k, (k <= n)%nat
    /\ (forall i, (i < k)%nat -> attempt_ok H cmd i w = false)
    /\ ((k < n)%nat ->
        attempt_ok H cmd k w = true
        /\ suspend_loop H n capacity_name subscription_id resource_group w
           = (Ok true, snd (exec H cmd (world_at H cmd 60 k w)),
              failed_attempts cmd k
                ++ [ECmd cmd;
                    EPrint (check_mark ++ u " Suspended " ++ capacity_name)]))
    /\ (k = n ->
        suspend_loop H n capacity_name subscription_id resource_group w
        = (Ok false, world_at H cmd 60 n w,
           failed_attempts cmd n
             ++ [EPrint (cross_mark ++ u " Failed to suspend "
                           ++ capacity_name)])).
Proof.
  induction n as [|n IH]; intros w.
  - exists O. split; [lia|]. split; [intros i Hi; lia|].
    split; [intros Hlt; lia|]. intros _. reflexivity.
  - destruct (attempt_ok H cmd 0 w) eqn:E0.
    + exists O. split; [lia|]. split; [intros i Hi; lia|].
      split; [intros _; split|intros Heq; discriminate].
      * exact E0.
      * cbn [suspend_loop].
        erewrite bind_ok by apply call_azure_api_no_body.
        unfold attempt_ok in E0. cbn [world_at] in E0.
        fold (suspend_cmd H capacity_name subscription_id resource_group).
        fold cmd. rewrite E0. reflexivity.
    + destruct (IH (elapse H 60 (snd (exec H cmd w))))
        as (k & Hk & Hfail & Hok & Hend).
      assert (Hstep :
        suspend_loop H (S n) capacity_name subscription_id resource_group w
        = (fst (fst (suspend_loop H n capacity_name subscription_id
                       resource_group (elapse H 60 (snd (exec H cmd w))))),
           snd (fst (suspend_loop H n capacity_name subscription_id
                       resource_group (elapse H 60 (snd (exec H cmd w))))),
           [ECmd cmd; ESleep 60]
             ++ snd (suspend_loop H n capacity_name subscription_id
                       resource_group (elapse H 60 (snd (exec H cmd w)))))).
      { cbn [suspend_loop].
        erewrite bind_ok by apply call_azure_api_no_body.
        unfold attempt_ok in E0. cbn [world_at] in E0.
        fold (suspend_cmd H capacity_name subscription_id resource_group).
        fold cmd. rewrite E0.
        erewrite (bind_ok H _ _ (sleep H 60)) by reflexivity.
        reflexivity. }
      exists (S k). split; [lia|]. split; [|split].
      * intros i Hi. destruct i as [|i]; [exact E0|].
        unfold attempt_ok. cbn [world_at]. apply Hfail. lia.
      * intros Hlt. destruct Hok as [Hk1 Hk2]; [lia|]. split.
        -- unfold attempt_ok. cbn [world_at]. exact Hk1.
        -- rewrite Hstep, Hk2. reflexivity.
      * intros Heq. rewrite Hstep, Hend by lia. reflexivity.
Qed.

(** C1. [suspend_capacity] never raises and makes at most 5 attempts: for
    the first attempt [k] that returns 200 or 202, if there is one among
    the first five, it returns [True] right after it, having slept 60
    after each of the [k] attempts before; when all five fail it returns
    [False] after five attempts, each followed by a sleep of 60. *)
Theorem suspend_capacity_retries (w : World H) :
  exists k, (k <= 5)%nat
    /\ (forall i, (i < k)%nat -> attempt_ok H cmd i w = false)
    /\ ((k < 5)%nat ->
        attempt_ok H cmd k w = true
        /\ suspend_capacity H capacity_name subscription_id resource_group w
           = (Ok true, snd (exec H cmd (world_at H cmd 60 k w)),
              failed_attempts cmd k
                ++ [ECmd cmd;
                    EPrint (check_mark ++ u " Suspended " ++ capacity_name)]))
    /\ (k = 5%nat ->
        suspend_capacity H capacity_name subscription_id resource_group w
        = (Ok false, world_at H cmd 60 5 w,
           failed_attempts cmd 5
             ++ [EPrint (cross_mark ++ u " Failed to suspend "
                           ++ capacity_name)])).
Proof. apply suspend_loop_spec. Qed.

End Capacity.

Section CreateCapacity.

Variable H : Host.
Variable capacity_config : CapacityConfig.
Variables subscription_id resource_group : str.
Variable defaults : CapacityDefaults.

Let exists_cmd :=
  azure_cmd H (capacity_url subscription_id resource_group
                 (cap_name capacity_config) ++ api_version) (u "get").
Let resume_cmd :=
  azure_cmd H (resume_url subscription_id resource_group
                 (cap_name capacity_config)) (u "post").

Lemma capacity_exists_run w :
  capacity_exists H (cap_name capacity_config) subscription_id resource_group w
  = (Ok (py_eq_int (fst (envelope_of H (fst (exec H exists_cmd w)))) 200),
     snd (exec H exists_cmd w), [ECmd exists_cmd]).
Proof.
  unfold capacity_exists.
  erewrite bind_ok by apply call_azure_api_no_body. reflexivity.
Qed.

(** C5. When the existence check of [create_capacity] returns status 200,
    the function prints that the capacity exists, issues the resume POST
    and returns: the existence GET and the resume POST are its only
    commands, there is no create PUT and no sleep. *)
Theorem create_capacity_resumes_existing (w : World H) :
  py_eq_int (fst (envelope_of H (fst (exec H exists_cmd w)))) 200 = true ->
  create_capacity H capacity_config subscription_id resource_group defaults w
  = (Ok tt, snd (exec H resume_cmd (snd (exec H exists_cmd w))),
     [ECmd exists_cmd;
      EPrint (check_mark ++ u " " ++ cap_name capacity_config ++ u " exists");
      ECmd resume_cmd]).
Proof.
  intros E. unfold create_capacity.
  erewrite bind_ok by apply capacity_exists_run.
  rewrite E.
  erewrite (bind_ok H _ _ (print H _)) by reflexivity.
  erewrite bind_ok by apply call_azure_api_no_body.
  reflexivity.
Qed.

End CreateCapacity.








(* --------------------------------------------------------------------- *)
(** *** Workspace *)
(* --------------------------------------------------------------------- *)

Lemma eat_hex_spec n : forall s r,
  eat_hex n s = Some r <-> exists g, s = g ++ r /\ hex_group n g.
Proof.
  unfold hex_group. induction n as [|n IH]; intros s r; cbn [eat_hex].
  - split.
    + intros E. injection E as <-. exists []. repeat split.
    + intros (g & -> & Hl & _). destruct g; [reflexivity|discriminate].
  - destruct s as [|c s].
    + split; [discriminate|].
      intros (g & E & Hl & _). destruct g; discriminate.
    + destruct (is_hex c) eqn:Ec.
      * rewrite IH. split.
        -- intros (g & -> & Hl & Hh). exists (c :: g).
           cbn. rewrite Ec, Hh, Hl. repeat split.
        -- intros (g & E & Hl & Hh). destruct g as [|d g]; [discriminate|].
           injection E as <- ->. cbn in Hl, Hh.
           apply andb_prop in Hh. exists g. repeat split; [lia|tauto].
      * split; [discriminate|].
        intros (g & E & Hl & Hh). destruct g as [|d g]; [discriminate|].
        injection E as <- ->. cbn in Hh. rewrite Ec in Hh. discriminate.
Qed.

Lemma eat_group_spec n s r :
  eat_group n s = Some r <-> exists g, s = hyphen :: g ++ r /\ hex_group n g.
Proof.
  unfold eat_group. destruct s as [|c s].
  - split; [discriminate|]. intros (g & E & _). discriminate.
  - destruct (N.eqb_spec c hyphen) as [->|Hc].
    + rewrite eat_hex_spec. split.
      * intros (g & -> & Hg). exists g. split; [reflexivity|exact Hg].
      * intros (g & E & Hg). injection E as ->. exists g.
        split; [reflexivity|exact Hg].
    + split; [discriminate|]. intros (g & E & _). injection E as -> _.
      contradiction.
Qed.

Lemma uuid_shaped_length m : uuid_shaped m -> length m = 36%nat.
Proof.
  intros (g1 & g2 & g3 & g4 & g5 & -> & [L1 _] & [L2 _] & [L3 _] & [L4 _]
            & [L5 _]).
  repeat (rewrite length_app || cbn [length]). lia.
Qed.

Lemma uuid_at_spec s :
  uuid_at s = true <-> exists m r, s = m ++ r /\ uuid_shaped m.
Proof.
  unfold uuid_at. split.
  - destruct (eat_hex 8 s) as [s1|] eqn:E1; [|discriminate].
    destruct (eat_group 4 s1) as [s2|] eqn:E2; [|discriminate].
    destruct (eat_group 4 s2) as [s3|] eqn:E3; [|discriminate].
    destruct (eat_group 4 s3) as [s4|] eqn:E4; [|discriminate].
    destruct (eat_group 12 s4) as [s5|] eqn:E5; [|discriminate].
    intros _.
    apply eat_hex_spec in E1 as (g1 & -> & H1).
    apply eat_group_spec in E2 as (g2 & -> & H2).
    apply eat_group_spec in E3 as (g3 & -> & H3).
    apply eat_group_spec in E4 as (g4 & -> & H4).
    apply eat_group_spec in E5 as (g5 & -> & H5).
    exists (g1 ++ hyphen :: g2 ++ hyphen :: g3 ++ hyphen :: g4 ++ hyphen :: g5),
           s5.
    split.
    + repeat (rewrite <- app_assoc; cbn [app]). reflexivity.
    + exists g1, g2, g3, g4, g5. tauto.
  - intros (m & r & -> & g1 & g2 & g3 & g4 & g5 & -> & H1 & H2 & H3 & H4 & H5).
    assert (E1 : eat_hex 8
                   ((g1 ++ hyphen :: g2 ++ hyphen :: g3 ++ hyphen :: g4
                        ++ hyphen :: g5) ++ r)
                 = Some (hyphen :: g2 ++ hyphen :: g3 ++ hyphen :: g4
                           ++ hyphen :: g5 ++ r)).
    { apply eat_hex_spec. exists g1. split; [|exact H1].
      repeat (rewrite <- app_assoc; cbn [app]). reflexivity. }
    rewrite E1.
    assert (E2 : eat_group 4 (hyphen :: g2 ++ hyphen :: g3 ++ hyphen :: g4
                                ++ hyphen :: g5 ++ r)
                 = Some (hyphen :: g3 ++ hyphen :: g4 ++ hyphen :: g5 ++ r)).
    { apply eat_group_spec. exists g2. split; [reflexivity|exact H2]. }
    rewrite E2.
    assert (E3 : eat_group 4 (hyphen :: g3 ++ hyphen :: g4 ++ hyphen :: g5 ++ r)
                 = Some (hyphen :: g4 ++ hyphen :: g5 ++ r)).
    { apply eat_group_spec. exists g3. split; [reflexivity|exact H3]. }
    rewrite E3.
    assert (E4 : eat_group 4 (hyphen :: g4 ++ hyphen :: g5 ++ r)
                 = Some (hyphen :: g5 ++ r)).
    { apply eat_group_spec. exists g4. split; [reflexivity|exact H4]. }
    rewrite E4.
    assert (E5 : eat_group 12 (hyphen :: g5 ++ r) = Some r).
    { apply eat_group_spec. exists g5. split; [reflexivity|exact H5]. }
    rewrite E5. reflexivity.
Qed.

Lemma firstn_prefix {A} (m r : list A) : firstn (length m) (m ++ r) = m.
Proof.
  induction m as [|a m IH]; [reflexivity|]. cbn. rewrite IH. reflexivity.
Qed.

Lemma re_search_uuid_none s :
  re_search_uuid s = None ->
  forall pre m post, s = pre ++ m ++ post -> ~ uuid_shaped m.
Proof.
  induction s as [|c s IH]; intros E pre m post Es Hm.
  - apply uuid_shaped_length in Hm.
    destruct pre; [|discriminate]. destruct m; discriminate.
  - cbn [re_search_uuid] in E.
    destruct (uuid_at (c :: s)) eqn:Ea; [discriminate|].
    destruct pre as [|d pre].
    + assert (uuid_at (c :: s) = true) as C; [|congruence].
      apply uuid_at_spec. exists m, post. split; [exact Es|exact Hm].
    + injection Es as -> Es. exact (IH E pre m post Es Hm).
Qed.

Lemma re_search_uuid_some s : forall m,
  re_search_uuid s = Some m ->
  uuid_shaped m
  /\ exists pre post,
       s = pre ++ m ++ post
       /\ forall pre' m' post',
            s = pre' ++ m' ++ post' -> uuid_shaped m' ->
            (length pre <= length pre')%nat.
Proof.
  induction s as [|c s IH]; intros m E; [discriminate|].
  cbn [re_search_uuid] in E.
  destruct (uuid_at (c :: s)) eqn:Ea.
  - apply uuid_at_spec in Ea as (m0 & r & Es & Hm0).
    assert (Em : firstn 36 (c :: s) = m0).
    { rewrite Es, <- (uuid_shaped_length m0 Hm0). apply firstn_prefix. }
    rewrite Em in E. injection E as <-.
    split; [exact Hm0|]. exists [], r. split; [exact Es|].
    intros. cbn. lia.
  - destruct (IH m E) as (Hm & pre & post & -> & Hleft).
    split; [exact Hm|]. exists (c :: pre), post. split; [reflexivity|].
    intros pre' m' post' Es Hm'. destruct pre' as [|d pre'].
    + assert (uuid_at (c :: pre ++ m ++ post) = true) as C; [|congruence].
      apply uuid_at_spec. exists m', post'. split; [exact Es|exact Hm'].
    + injection Es as -> Es. cbn. specialize (Hleft pre' m' post' Es Hm'). lia.
Qed.

Lemma nonempty_false s : nonempty s = false <-> s = [].
Proof. destruct s; split; intros E; try reflexivity; discriminate. Qed.

Lemma get_workspace_id_run H workspace_name w :
  get_workspace_id H workspace_name w
  = (Ok (id_from (fst (exec H (get_id_cmd H workspace_name) w))),
     snd (exec H (get_id_cmd H workspace_name) w),
     [ECmd (get_id_cmd H workspace_name)]).
Proof.
  unfold get_workspace_id, bind, run_command, id_from.
  destruct (exec H _ w) as [cp w']. cbn [fst snd].
  destruct (Z.eqb (returncode cp) 0); cbn [andb]; [|reflexivity].
  destruct (nonempty (strip (stdout cp))); reflexivity.
Qed.

Section Workspace.

Variable H : Host.
Variable workspace_name : str.
Variable w : World H.

Let response := fst (exec H (get_id_cmd H workspace_name) w).

(** C8. [get_workspace_id] runs the structured query, once.  When the
    query exits with code 0 and its trimmed output is not empty, that
    output is the id.  Otherwise the id is the leftmost substring of the
    lower-cased raw output that has the shape 8-4-4-4-12 of hexadecimal
    digits.  The result is [None] exactly when the query gave no value
    and the output has no such substring. *)
Theorem get_workspace_id_resolution :
  get_workspace_id H workspace_name w
  = (Ok (id_from response), snd (exec H (get_id_cmd H workspace_name) w),
     [ECmd (get_id_cmd H workspace_name)])
  /\ (returncode response = 0 /\ strip (stdout response) <> [] ->
      id_from response = Some (strip (stdout response)))
  /\ (returncode response <> 0 \/ strip (stdout response) = [] ->
      id_from response = re_search_uuid (lower (stdout response)))
  /\ (forall m,
        re_search_uuid (lower (stdout response)) = Some m ->
        uuid_shaped m
        /\ exists pre post,
             lower (stdout response) = pre ++ m ++ post
             /\ forall pre' m' post',
                  lower (stdout response) = pre' ++ m' ++ post' ->
                  uuid_shaped m' -> (length pre <= length pre')%nat)
  /\ (id_from response = None <->
      (returncode response <> 0 \/ strip (stdout response) = [])
      /\ forall pre m post,
           lower (stdout response) = pre ++ m ++ post -> ~ uuid_shaped m).
Proof.
  assert (Hyes : returncode response = 0 /\ strip (stdout response) <> [] ->
                 id_from response = Some (strip (stdout response))).
  { intros [E0 En]. unfold id_from. rewrite E0. cbn.
    destruct (strip (stdout response)); [contradiction|reflexivity]. }
  assert (Hno : returncode response <> 0 \/ strip (stdout response) = [] ->
                id_from response = re_search_uuid (lower (stdout response))).
  { intros [E0 | En]; unfold id_from.
    - apply Z.eqb_neq in E0. rewrite E0. reflexivity.
    - destruct (Z.eqb (returncode response) 0); cbn [andb]; [|reflexivity].
      apply nonempty_false in En.
      destruct (nonempty (strip (stdout response))); [discriminate|reflexivity]. }
  split; [apply get_workspace_id_run|].
  split; [exact Hyes|]. split; [exact Hno|].
  split; [intros m; apply re_search_uuid_some|].
  split.
  - intros E.
    assert (Hc : returncode response <> 0 \/ strip (stdout response) = []).
    { destruct (Z.eq_dec (returncode response) 0) as [E0|E0]; [|left; exact E0].
      destruct (strip (stdout response)) eqn:Es; [right; reflexivity|].
      rewrite Hyes in E; [discriminate|].
      split; [exact E0|]. discriminate. }
    split; [exact Hc|].
    rewrite (Hno Hc) in E. apply re_search_uuid_none. exact E.
  - intros [Hc Hnone]. rewrite (Hno Hc).
    destruct (re_search_uuid (lower (stdout response))) as [m|] eqn:E;
      [|reflexivity].
    apply re_search_uuid_some in E as (Hm & pre & post & Es & _).
    exfalso. exact (Hnone pre m post Es Hm).
Qed.

Variable workspace_config : WorkspaceConfig.

Let ls := ls_cmd H (ws_name workspace_config).
Let get_id := get_id_cmd H (ws_name workspace_config).
Let create := create_cmd H workspace_config.

(** C7. When the existence check of [create_workspace] succeeds, the
    function prints that the workspace exists and returns what
    [get_workspace_id] resolves; the listing and the id query are its only
    commands, so no create command is issued. *)
Theorem create_workspace_existing :
  returncode (fst (exec H ls w)) = 0 ->
  create_workspace H workspace_config w
  = (Ok (id_from (fst (exec H get_id (snd (exec H ls w))))),
     snd (exec H get_id (snd (exec H ls w))),
     [ECmd ls;
      EPrint (check_mark ++ u " " ++ ws_name workspace_config ++ u " exists");
      ECmd get_id]).
Proof.
  intros E. unfold create_workspace.
  erewrite bind_ok by apply workspace_exists_run.
  fold ls. rewrite E. cbn [Z.eqb].
  erewrite (bind_ok H _ _ (print H _)) by reflexivity.
  rewrite get_workspace_id_run. reflexivity.
Qed.

(** C10. When the workspace does not exist and the create command exits
    with a non-zero code, [create_workspace] prints the failure and the
    two outputs of the command and returns [None]: it raises nothing,
    sleeps for nothing and runs no id query. *)
Theorem create_workspace_create_fails :
  returncode (fst (exec H ls w)) <> 0 ->
  returncode (fst (exec H create (snd (exec H ls w)))) <> 0 ->
  create_workspace H workspace_config w
  = (Ok None, snd (exec H create (snd (exec H ls w))),
     [ECmd ls; ECmd create;
      EPrint (cross_mark ++ u " Failed to create "
                ++ ws_name workspace_config);
      EPrint (u "  stdout: "
                ++ stdout (fst (exec H create (snd (exec H ls w)))));
      EPrint (u "  stderr: "
                ++ stderr (fst (exec H create (snd (exec H ls w)))))]).
Proof.
  intros E1 E2. unfold create_workspace.
  erewrite bind_ok by apply workspace_exists_run.
  fold ls. apply Z.eqb_neq in E1. rewrite E1.
  erewrite bind_ok by apply run_command_run.
  fold create. apply Z.eqb_neq in E2. rewrite E2. reflexivity.
Qed.

End Workspace.

(* --------------------------------------------------------------------- *)
(** *** Permissions *)
(* --------------------------------------------------------------------- *)

Section Permissions.

Variable H : Host.
Variable workspace_id : str.
Variable security_groups : list (str * str).

Lemma post_assignment_run group_id p w :
  exists r lines,
    post_assignment H workspace_id group_id p w
    = (r, snd (exec H (assign_cmd H workspace_id group_id p) w),
       ECmd (assign_cmd H workspace_id group_id p) :: map EPrint lines).
Proof.
  unfold post_assignment.
  erewrite bind_ok by apply run_command_run.
  set (cp := fst (exec H (assign_cmd H workspace_id group_id p) w)).
  set (w1 := snd (exec H (assign_cmd H workspace_id group_id p) w)).
  destruct (negb (nonempty (strip (stdout cp)))).
  - eexists (Ok tt), [_; _]. reflexivity.
  - destruct (loads H (stdout cp)) as [response_json|e].
    + destruct (py_get response_json (u "status_code") JNull) as [sc|e].
      * unfold lift, bind.
        destruct (py_in_ints sc [200; 201]).
        -- eexists (Ok tt), [_]. reflexivity.
        -- destruct (py_get response_json (u "text") (JObj [])) as [text|e].
           ++ eexists (Ok tt), [_; _; _]. reflexivity.
           ++ eexists (Raise e), [_; _]. reflexivity.
      * exists (Raise e), []. reflexivity.
    + eexists (Ok tt), [_; _; _]. reflexivity.
Qed.


End Permissions.

Section Idempotence.

Variable H : Host.
Variable workspace_id : str.
Variable security_groups : list (str * str).

Lemma get_workspace_role_assignments_run w :
  exists r,
    get_workspace_role_assignments H workspace_id w
    = (r, snd (exec H (list_roles_cmd H workspace_id) w),
       [ECmd (list_roles_cmd H workspace_id)]).
Proof.
  unfold get_workspace_role_assignments.
  erewrite bind_ok by apply run_command_run.
  set (cp := fst (exec H (list_roles_cmd H workspace_id) w)).
  destruct (negb (Z.eqb (returncode cp) 0)); [eexists; reflexivity|].
  destruct (decode_assignments H (stdout cp)) as [[ps|]|[]];
    eexists; reflexivity.
Qed.



End Idempotence.

(* --------------------------------------------------------------------- *)
(** *** Git integration *)
(* --------------------------------------------------------------------- *)

Lemma decode_status_ok H out j sc w :
  loads H out = Ok j -> py_get j (u "status_code") JNull = Ok sc ->
  decode_status H out w = (Ok (j, sc), w, []).
Proof.
  intros L G. unfold decode_status.
  rewrite L, bind_lift_ok, G, bind_lift_ok. reflexivity.
Qed.

Lemma decode_status_raise H out e w :
  status_code_of H out = Raise e -> decode_status H out w = (Raise e, w, []).
Proof.
  unfold status_code_of, decode_status. intros S.
  destruct (loads H out) as [j|e'].
  - rewrite bind_lift_ok, S. reflexivity.
  - injection S as ->. reflexivity.
Qed.

(* --------------------------------------------------------------------- *)
(** *** Exceptions *)
(* --------------------------------------------------------------------- *)

Section Returns.

Variable H : Host.

Lemma returns_ret A (a : A) w : returns H (ret H a) w.
Proof. exists a, w, []. reflexivity. Qed.

Lemma returns_print line w : returns H (print H line) w.
Proof. exists tt, w, [EPrint line]. reflexivity. Qed.

Lemma returns_sleep secs w : returns H (sleep H secs) w.
Proof. exists tt, (elapse H secs w), [ESleep secs]. reflexivity. Qed.

Lemma returns_bind A B (m : M H A) (f : A -> M H B) w :
  returns H m w -> (forall a w', returns H (f a) w') ->
  returns H (bind H m f) w.
Proof.
  intros (a & w1 & t1 & E) Hf.
  destruct (Hf a w1) as (b & w2 & t2 & E2).
  exists b, w2, (t1 ++ t2). unfold bind. rewrite E, E2. reflexivity.
Qed.

(** What follows a command may use that its output is one the host can
    give. *)
Lemma returns_after_command B cmd (f : CompletedProcess -> M H B) w :
  (forall w0 w', returns H (f (fst (exec H cmd w0))) w') ->
  returns H (bind H (run_command H cmd) f) w.
Proof.
  intros Hf.
  destruct (Hf w (snd (exec H cmd w))) as (b & w2 & t2 & E2).
  exists b, w2, ([ECmd cmd] ++ t2).
  erewrite bind_ok by apply run_command_run. rewrite E2. reflexivity.
Qed.

Lemma returns_call_azure_api endpoint method body w :
  returns H (call_azure_api H endpoint method body) w.
Proof.
  unfold call_azure_api. apply returns_after_command. intros w0 w'.
  destruct (decode_envelope H _); apply returns_ret.
Qed.

Lemma returns_capacity_exists capacity_name subscription_id resource_group w :
  returns H (capacity_exists H capacity_name subscription_id resource_group) w.
Proof.
  apply returns_bind; [apply returns_call_azure_api|].
  intros; apply returns_ret.
Qed.

Lemma returns_create_capacity capacity_config subscription_id resource_group
  defaults w :
  returns H (create_capacity H capacity_config subscription_id resource_group
               defaults) w.
Proof.
  apply returns_bind; [apply returns_capacity_exists|].
  intros [|] w1.
  - apply returns_bind; [apply returns_print|]. intros _ w2.
    apply returns_bind; [apply returns_call_azure_api|]. intros _ w3.
    apply returns_ret.
  - apply returns_bind; [apply returns_call_azure_api|]. intros p w2.
    destruct (py_in_ints (fst p) [200; 201]); [|apply returns_ret].
    apply returns_bind; [apply returns_print|]. intros _ w3.
    apply returns_sleep.
Qed.

Lemma returns_suspend_loop n capacity_name subscription_id resource_group :
  forall w,
    returns H (suspend_loop H n capacity_name subscription_id resource_group) w.
Proof.
  induction n as [|n IH]; intros w; cbn [suspend_loop].
  - apply returns_bind; [apply returns_print|]. intros; apply returns_ret.
  - apply returns_bind; [apply returns_call_azure_api|]. intros p w1.
    destruct (py_in_ints (fst p) [200; 202]).
    + apply returns_bind; [apply returns_print|]. intros; apply returns_ret.
    + apply returns_bind; [apply returns_sleep|]. intros _ w2. apply IH.
Qed.

Lemma returns_get_workspace_id workspace_name w :
  returns H (get_workspace_id H workspace_name) w.
Proof.
  eexists _, _, _. apply get_workspace_id_run.
Qed.

Lemma returns_workspace_exists workspace_name w :
  returns H (workspace_exists H workspace_name) w.
Proof.
  eexists _, _, _. apply workspace_exists_run.
Qed.

Lemma returns_create_workspace workspace_config w :
  returns H (create_workspace H workspace_config) w.
Proof.
  apply returns_bind; [apply returns_workspace_exists|].
  intros [|] w1.
  - apply returns_bind; [apply returns_print|]. intros _ w2.
    apply returns_get_workspace_id.
  - apply returns_after_command. intros w0 w2.
    destruct (negb (Z.eqb (returncode (fst (exec H _ w0))) 0)).
    + repeat (apply returns_bind; [apply returns_print|]; intros _ ?).
      apply returns_ret.
    + apply returns_bind; [apply returns_print|]. intros _ w3.
      apply returns_bind; [apply returns_sleep|]. intros _ w4.
      apply returns_bind; [apply returns_get_workspace_id|].
      intros [i|] w5; [apply returns_ret|].
      apply returns_bind; [apply returns_print|]. intros; apply returns_ret.
Qed.

End Returns.

Section Yields.

Variable H : Host.

Lemma yields_returns A (m : M H A) w :
  yields H any no_exception m w -> returns H m w.
Proof.
  unfold yields, returns. destruct (m w) as [[[a|e] w1] t1]; cbn.
  - intros _. exists a, w1, t1. reflexivity.
  - intros [].
Qed.

Lemma returns_yields A (m : M H A) w (E : Exn -> Prop) :
  returns H m w -> yields H any E m w.
Proof.
  intros (a & w1 & t1 & Em). unfold yields. rewrite Em. exact I.
Qed.

Lemma yields_bind A B (P : A -> Prop) (Q : B -> Prop) (E : Exn -> Prop)
  (m : M H A) (f : A -> M H B) w :
  yields H P E m w ->
  (forall a w', P a -> yields H Q E (f a) w') ->
  yields H Q E (bind H m f) w.
Proof.
  unfold yields, bind. destruct (m w) as [[[a|e] w1] t1]; cbn.
  - intros Pa Hf. specialize (Hf a w1 Pa).
    destruct (f a w1) as [[r2 w2] t2]. exact Hf.
  - intros Ee _. exact Ee.
Qed.

Lemma yields_weaken A (P Q : A -> Prop) (E E' : Exn -> Prop) (m : M H A) w :
  (forall a, P a -> Q a) -> (forall e, E e -> E' e) ->
  yields H P E m w -> yields H Q E' m w.
Proof.
  unfold yields. intros HP HE. destruct (fst (fst (m w))); auto.
Qed.

Lemma yields_try A (P : A -> Prop) (E : Exn -> Prop) (m k : M H A) w :
  yields H P decode_error m w ->
  (forall w', yields H P E k w') ->
  yields H P E (try_except H m (on_decode_error H k)) w.
Proof.
  unfold yields, try_except. destruct (m w) as [[[a|e] w1] t1]; cbn.
  - intros Pa _. exact Pa.
  - intros -> Hk. cbn. specialize (Hk w1).
    destruct (k w1) as [[r2 w2] t2]. exact Hk.
Qed.

Lemma yields_lift A (P : A -> Prop) (E : Exn -> Prop) (r : Res A) w :
  match r with Ok a => P a | Raise e => E e end ->
  yields H P E (lift H r) w.
Proof. intros Hr. exact Hr. Qed.

Lemma yields_ret A (P : A -> Prop) (E : Exn -> Prop) (a : A) w :
  P a -> yields H P E (ret H a) w.
Proof. intros Pa. exact Pa. Qed.

Lemma yields_print (E : Exn -> Prop) line w :
  yields H any E (print H line) w.
Proof. exact I. Qed.

End Yields.

Section Tame.

Variable H : Host.

(** Every output of every command is not JSON or is an envelope. *)
Hypothesis Htame : forall cmd w, tame H (stdout (fst (exec H cmd w))) = true.

Lemma returns_lift A (a : A) w : returns H (lift H (Ok a)) w.
Proof. exists a, w, []. reflexivity. Qed.

Lemma yields_run_command (E : Exn -> Prop) cmd w :
  yields H (fun cp => tame H (stdout cp) = true) E (run_command H cmd) w.
Proof. unfold yields. rewrite run_command_run. apply Htame. Qed.

Lemma tame_loads out :
  tame H out = true ->
  match loads H out with
  | Ok j => envelope_shaped j = true
  | Raise e => e = JSONDecodeError
  end.
Proof.
  unfold tame, loads. destruct (json_loads H out); [tauto|reflexivity].
Qed.

Lemma shaped_text j :
  envelope_shaped j = true ->
  exists tkv,
    py_get j (u "text") (JObj []) = Ok (JObj tkv)
    /\ match dict_find (u "value") tkv with
       | None => True
       | Some (JArr l) => forallb assignment_shaped l = true
       | Some _ => False
       end.
Proof.
  destruct j as [| | | | | |kv]; try discriminate. cbn [envelope_shaped py_get].
  destruct (dict_find (u "text") kv) as [[| | | | | |tkv]|]; try discriminate.
  - intros Hs. exists tkv. split; [reflexivity|].
    destruct (dict_find (u "value") tkv) as [[]|]; try discriminate; auto.
  - intros _. exists []. split; [reflexivity|exact I].
Qed.

Lemma role_pairs_shaped l :
  forallb assignment_shaped l = true ->
  match role_pairs l with
  | Ok _ => True
  | Raise e => e = KeyError
  end.
Proof.
  induction l as [|a l IH]; [intros; exact I|].
  cbn [forallb]. intros Hs. apply andb_prop in Hs as [Ha Hl].
  specialize (IH Hl). cbn [role_pairs].
  destruct a as [| | | | | |akv]; try discriminate. cbn [py_index].
  cbn [assignment_shaped] in Ha.
  destruct (dict_find (u "principal") akv) as [[| | | | | |pkv]|];
    try discriminate; [|reflexivity].
  cbn [py_index].
  destruct (dict_find (u "id") pkv) as [k|]; [|reflexivity].
  destruct (dict_find (u "role") akv) as [v|]; [|reflexivity].
  rewrite Ha. destruct (role_pairs l); [exact I|exact IH].
Qed.

Lemma decode_assignments_tame out :
  tame H out = true ->
  match decode_assignments H out with
  | Ok _ => True
  | Raise e => e = JSONDecodeError \/ e = KeyError
  end.
Proof.
  intros Ht. apply tame_loads in Ht. unfold decode_assignments.
  destruct (loads H out) as [j|e]; [|left; exact Ht].
  destruct (shaped_text j Ht) as (tkv & Et & Hv).
  destruct j as [| | | | | |kv]; try discriminate.
  cbn [py_get] in *.
  destruct (py_eq_int _ 200); [|exact I].
  injection Et as Et. rewrite Et. cbn [py_get].
  destruct (dict_find (u "value") tkv) as [[| | | | |l|]|]; try contradiction.
  - cbn [py_iter]. apply role_pairs_shaped in Hv.
    destruct (role_pairs l); [exact I|right; exact Hv].
  - exact I.
Qed.

Lemma returns_get_workspace_role_assignments workspace_id w :
  returns H (get_workspace_role_assignments H workspace_id) w.
Proof.
  apply returns_after_command. intros w0 w'.
  destruct (negb _); [apply returns_ret|].
  pose proof (decode_assignments_tame _ (Htame (list_roles_cmd H workspace_id) w0))
    as Hd.
  destruct (decode_assignments H _) as [[ps|]|e]; try apply returns_ret.
  destruct Hd as [-> | ->]; apply returns_ret.
Qed.

Lemma returns_post_assignment workspace_id group_id p w :
  returns H (post_assignment H workspace_id group_id p) w.
Proof.
  apply returns_after_command. intros w0 w'.
  destruct (negb _).
  - apply returns_bind; [apply returns_print|]. intros; apply returns_print.
  - pose proof (tame_loads _ (Htame (assign_cmd H workspace_id group_id p) w0))
      as Hl.
    destruct (loads H _) as [j|e].
    + destruct j as [| | | | | |kv]; try discriminate.
      apply returns_bind; [cbn [py_get]; apply returns_lift|].
      intros sc w1.
      destruct (py_in_ints sc [200; 201]); [apply returns_print|].
      apply returns_bind; [apply returns_print|]. intros _ w2.
      apply returns_bind; [apply returns_print|]. intros _ w3.
      apply returns_bind; [cbn [py_get]; apply returns_lift|].
      intros; apply returns_print.
    + repeat (apply returns_bind; [apply returns_print|]; intros _ ?).
      apply returns_print.
Qed.

Lemma returns_assign_permissions workspace_id permissions security_groups w :
  returns H (assign_permissions H workspace_id permissions security_groups) w.
Proof.
  apply returns_bind; [apply returns_sleep|]. intros _ w1.
  apply returns_bind; [apply returns_get_workspace_role_assignments|].
  intros existing w2. revert w2.
  induction permissions as [|p ps IH]; intros w2; [apply returns_ret|].
  cbn [for_each]. apply returns_bind; [|intros _ w3; apply IH].
  unfold assign_one.
  destruct (existing_role_of _ existing) as [r|];
    [|apply returns_post_assignment].
  destruct (py_eq_str r (role p)); apply returns_print.
Qed.

Lemma already_connected_tame out :
  tame H out = true ->
  match already_connected H out with
  | Ok _ => True
  | Raise e => e = JSONDecodeError
  end.
Proof.
  intros Ht. apply tame_loads in Ht. unfold already_connected.
  destruct (loads H out) as [j|e]; [|exact Ht].
  destruct (shaped_text j Ht) as (tkv & Et & _).
  destruct j as [| | | | | |kv]; try discriminate.
  rewrite Et. cbn [py_get].
  destruct (py_eq_int _ 200); [|exact I].
  destruct (truthy _); exact I.
Qed.

Lemma returns_connect_workspace_to_git workspace_id workspace_name
  directory_name git_config connection_id w :
  returns H (connect_workspace_to_git H workspace_id workspace_name
               directory_name git_config connection_id) w.
Proof.
  apply returns_after_command. intros w0 w'.
  apply returns_bind.
  - destruct (nonempty _); [|apply returns_ret].
    apply yields_returns, yields_try; [|intros; exact I].
    apply yields_lift.
    pose proof (already_connected_tame _ (Htame (git_status_cmd H workspace_id) w0))
      as Ha.
    destruct (already_connected H _); [exact I|exact Ha].
  - intros [|] w1.
    + apply returns_bind; [apply returns_print|]. intros; apply returns_ret.
    + apply returns_after_command. intros w2 w3.
      destruct (negb _).
      * apply returns_bind; [apply returns_print|]. intros; apply returns_ret.
      * match goal with
        | |- context [loads H (stdout (fst (exec H ?c w2)))] =>
            pose proof (tame_loads _ (Htame c w2)) as Hl
        end.
        destruct (loads H _) as [j|e].
        -- destruct j as [| | | | | |kv]; try discriminate.
           apply returns_bind; [cbn [py_get]; apply returns_lift|].
           intros sc w4. destruct (py_in_ints sc [200; 201]).
           ++ apply returns_bind; [apply returns_print|].
              intros; apply returns_ret.
           ++ apply returns_bind; [apply returns_print|]. intros _ w5.
              apply returns_bind; [apply returns_print|]. intros _ w6.
              apply returns_bind; [cbn [py_get]; apply returns_lift|].
              intros text w7.
              apply returns_bind; [apply returns_print|].
              intros; apply returns_ret.
        -- apply returns_bind; [apply returns_print|].
           intros; apply returns_ret.
Qed.

Lemma decode_status_soft out w :
  tame H out = true ->
  yields H shaped_status decode_error (decode_status H out) w.
Proof.
  intros Ht. apply tame_loads in Ht. unfold decode_status, yields.
  destruct (loads H out) as [j|e]; [|exact Ht].
  rewrite bind_lift_ok.
  destruct j as [| | | | | |kv]; try discriminate.
  cbn [py_get]. rewrite bind_lift_ok. exact Ht.
Qed.

Lemma initialize_if_needed_soft workspace_id st w :
  shaped_status st ->
  yields H shaped_status decode_error
         (initialize_if_needed H workspace_id st) w.
Proof.
  intros Hs. unfold initialize_if_needed.
  destruct (py_eq_int (snd st) 400); [|exact Hs].
  destruct (shaped_text _ Hs) as (tkv & Et & _).
  unfold yields. rewrite Et, bind_lift_ok. cbn [py_get]. rewrite bind_lift_ok.
  destruct (py_eq_str _ not_initialized); [|exact Hs].
  erewrite (bind_ok H _ _ (print H _)) by reflexivity.
  erewrite bind_ok by apply run_command_run.
  erewrite bind_ok by apply run_command_run.
  cbn [fst snd]. apply decode_status_soft. apply Htame.
Qed.

Lemma returns_remote_hash_of st w :
  shaped_status st -> returns H (remote_hash_of H st) w.
Proof.
  intros Hs. unfold remote_hash_of.
  destruct (shaped_text _ Hs) as (tkv & Et & _). rewrite Et.
  destruct (negb (py_eq_int (snd st) 200)).
  - apply returns_bind; [apply returns_lift|]. intros error_text w1.
    apply returns_bind; [apply returns_print|]. intros _ w2.
    apply returns_bind; [apply returns_print|]. intros; apply returns_ret.
  - unfold returns. rewrite bind_lift_ok. cbn [py_get]. rewrite bind_lift_ok.
    destruct (negb (truthy _)); eexists _, _, _; reflexivity.
Qed.

Lemma read_remote_hash_soft workspace_id out w :
  tame H out = true ->
  yields H any decode_error (read_remote_hash H workspace_id out) w.
Proof.
  intros Ht. unfold read_remote_hash.
  apply (yields_bind H _ _ shaped_status); [apply decode_status_soft, Ht|].
  intros st w1 Hs.
  apply (yields_bind H _ _ shaped_status);
    [apply initialize_if_needed_soft, Hs|].
  intros st2 w2 Hs2. apply returns_yields, returns_remote_hash_of, Hs2.
Qed.

Lemma returns_pull_from_git workspace_id workspace_name remote_commit_hash w :
  returns H (pull_from_git H workspace_id workspace_name remote_commit_hash) w.
Proof.
  apply returns_after_command. intros w0 w'.
  destruct (negb _); [apply returns_ret|].
  apply returns_bind.
  - apply yields_returns, yields_try; [|intros; exact I].
    match goal with
    | |- context [loads H (stdout (fst (exec H ?c w0)))] =>
        pose proof (tame_loads _ (Htame c w0)) as Hl
    end.
    unfold yields. destruct (loads H _) as [j|e]; [|exact Hl].
    rewrite bind_lift_ok.
    destruct j as [| | | | | |kv]; try discriminate.
    cbn [py_get]. rewrite bind_lift_ok. exact I.
  - intros [|] w1;
      (apply returns_bind; [apply returns_print|]; intros; apply returns_ret).
Qed.

Lemma returns_update_workspace_from_git workspace_id workspace_name w :
  returns H (update_workspace_from_git H workspace_id workspace_name) w.
Proof.
  apply returns_after_command. intros w0 w'.
  destruct (negb _).
  - apply returns_bind; [apply returns_print|]. intros; apply returns_ret.
  - apply returns_bind.
    + apply yields_returns, yields_try.
      * apply read_remote_hash_soft, Htame.
      * intros w1. apply (returns_yields H).
        apply returns_bind; [apply returns_print|]. intros; apply returns_ret.
    + intros [h|] w1; [apply returns_pull_from_git|apply returns_ret].
Qed.

End Tame.

Lemma main_stops_without_login H config w client_id client_secret tenant_id :
  getenv H (u "SPN_CLIENT_ID") = Some client_id ->
  getenv H (u "SPN_CLIENT_SECRET") = Some client_secret ->
  getenv H (u "AZURE_TENANT_ID") = Some tenant_id ->
  returncode (fst (exec H (auth_cmd H client_id client_secret tenant_id) w))
  <> 0 ->
  main H config w
  = (Ok tt, snd (exec H (auth_cmd H client_id client_secret tenant_id) w),
     [EPrint (u "=== AUTHENTICATING ===");
      ECmd (auth_cmd H client_id client_secret tenant_id);
      EPrint (cross_mark ++ u " Authentication failed");
      EPrint (u "  stdout: "
                ++ stdout (fst (exec H (auth_cmd H client_id client_secret
                                          tenant_id) w)));
      EPrint (u "  stderr: "
                ++ stderr (fst (exec H (auth_cmd H client_id client_secret
                                          tenant_id) w)));
      EPrint (newline ++ cross_mark
                ++ u " Authentication failed. Cannot proceed.")]).
Proof.
  intros E1 E2 E3 Hrc. unfold main.
  erewrite (bind_ok H _ _ (print H _)) by reflexivity.
  assert (Ea : auth H w
               = (Ok false,
                  snd (exec H (auth_cmd H client_id client_secret tenant_id) w),
                  [ECmd (auth_cmd H client_id client_secret tenant_id);
                   EPrint (cross_mark ++ u " Authentication failed");
                   EPrint (u "  stdout: "
                             ++ stdout (fst (exec H (auth_cmd H client_id
                                                       client_secret
                                                       tenant_id) w)));
                   EPrint (u "  stderr: "
                             ++ stderr (fst (exec H (auth_cmd H client_id
                                                       client_secret
                                                       tenant_id) w)))])).
  { unfold auth. rewrite E1, E2, E3.
    erewrite bind_ok by apply run_command_run.
    apply Z.eqb_neq in Hrc. rewrite Hrc. reflexivity. }
  erewrite bind_ok by exact Ea. reflexivity.
Qed.

(* ===================================================================== *)
(** ** The statements at work on the concrete host *)
(* ===================================================================== *)

(** Witness of C5: the capacity [fc01] exists. *)
Lemma create_capacity_resumes_existing_witness :
  py_eq_int (fst (envelope_of Ref.host (Ref.prints (Ref.envelope "200")))) 200
  = true
  /\ create_capacity Ref.host Ref.fc01 Ref.sub Ref.rg Ref.no_defaults
       [Ref.prints (Ref.envelope "200"); Ref.prints (Ref.envelope "202")]
     = (Ok tt, [],
        [ECmd (azure_cmd Ref.host
                 (capacity_url Ref.sub Ref.rg (u "fc01") ++ api_version)
                 (u "get"));
         EPrint (check_mark ++ u " fc01 exists");
         ECmd (azure_cmd Ref.host (resume_url Ref.sub Ref.rg (u "fc01"))
                 (u "post"))]).
Proof.
  split; [reflexivity|].
  apply create_capacity_resumes_existing. reflexivity.
Defined.

(** Witness of C7: the workspace [av01-dev] exists, and the query prints
    its id between blanks. *)
Lemma create_workspace_existing_witness :
  returncode (Ref.prints []) = 0
  /\ create_workspace Ref.host Ref.dev
       [Ref.prints []; Ref.prints (u "  " ++ Ref.ws1 ++ [10%N])]
     = (Ok (Some Ref.ws1), [],
        [ECmd (ls_cmd Ref.host (u "av01-dev"));
         EPrint (check_mark ++ u " av01-dev exists");
         ECmd (get_id_cmd Ref.host (u "av01-dev"))]).
Proof.
  split; [reflexivity|].
  apply create_workspace_existing. reflexivity.
Defined.

(** Witness of C10: the listing and the create command both fail. *)
Lemma create_workspace_create_fails_witness :
  returncode Ref.failed_process <> 0
  /\ create_workspace Ref.host Ref.dev
       [Ref.failed_process; mkCP 1 [] (u "capacity not found")]
     = (Ok None, [],
        [ECmd (ls_cmd Ref.host (u "av01-dev"));
         ECmd (create_cmd Ref.host Ref.dev);
         EPrint (cross_mark ++ u " Failed to create av01-dev");
         EPrint (u "  stdout: ");
         EPrint (u "  stderr: capacity not found")]).
Proof.
  split; [cbn; lia|].
  apply create_workspace_create_fails; cbn; lia.
Defined.



(** In [fabric_core], [get_or_create_git_connection] decodes the listing
    of the connections outside any [try]: an empty output raises. *)
Example get_or_create_git_connection_raises :
  fst (fst (get_or_create_git_connection Ref.host Ref.ws1
              (mkGit (Some (u "org")) (Some (u "repo")) None None)
              [Ref.prints []]))
  = Raise JSONDecodeError.
Proof. vm_compute. reflexivity. Qed.

(** [suspend_capacity] when the third attempt is accepted with status
    202: two sleeps, three calls, [True]. *)
Example suspend_capacity_third_attempt :
  fst (fst (suspend_capacity Ref.host (u "fc01") Ref.sub Ref.rg
              [Ref.prints (Ref.envelope "409"); Ref.prints [];
               Ref.prints (Ref.envelope "202")]))
  = Ok true
  /\ sleeps (snd (suspend_capacity Ref.host (u "fc01") Ref.sub Ref.rg
                    [Ref.prints (Ref.envelope "409"); Ref.prints [];
                     Ref.prints (Ref.envelope "202")]))
     = [60; 60]
  /\ length (commands
               (snd (suspend_capacity Ref.host (u "fc01") Ref.sub Ref.rg
                       [Ref.prints (Ref.envelope "409"); Ref.prints [];
                        Ref.prints (Ref.envelope "202")])))
     = 3%nat.
Proof. repeat split; vm_compute; reflexivity. Qed.

(** [suspend_capacity] when no attempt is accepted: five calls, five
    sleeps, [False]. *)
Example suspend_capacity_exhausted :
  fst (fst (suspend_capacity Ref.host (u "fc01") Ref.sub Ref.rg []))
  = Ok false
  /\ sleeps (snd (suspend_capacity Ref.host (u "fc01") Ref.sub Ref.rg []))
     = [60; 60; 60; 60; 60]
  /\ length (commands
               (snd (suspend_capacity Ref.host (u "fc01") Ref.sub Ref.rg [])))
     = 5%nat.
Proof. repeat split; vm_compute; reflexivity. Qed.

(** [get_workspace_id] when the query fails but its output holds the id in
    capitals, and when it holds none. *)
Example get_workspace_id_falls_back :
  fst (fst (get_workspace_id Ref.host (u "av01-dev")
              [mkCP 1 (u "id: 0F8FAD5B-D9CB-469F-A165-70867728950E ?") []]))
  = Ok (Some Ref.ws1)
  /\ fst (fst (get_workspace_id Ref.host (u "av01-dev")
                 [mkCP 1 (u "not found") []]))
     = Ok None.
Proof. split; vm_compute; reflexivity. Qed.

(** [assign_permissions] of [fabric_core] when the principal holds
    another role: the mismatch is printed and nothing is posted. *)
Example assign_permissions_mismatch :
  commands
    (snd (assign_permissions Ref.host Ref.ws1
            [mkPermission (u "Eng") (u "Member")] Ref.groups
            [Ref.prints Ref.roles_listing]))
  = [list_roles_cmd Ref.host Ref.ws1].
Proof. vm_compute. reflexivity. Qed.

(* ===================================================================== *)
(** ** Further properties of the operations *)
(* ===================================================================== *)

Lemma commands_app (a b : list Event) :
  commands (a ++ b) = commands a ++ commands b.
Proof. unfold commands. apply flat_map_app. Qed.

Lemma commands_prints (lines : list str) : commands (map EPrint lines) = [].
Proof. induction lines as [|l ls IH]; [reflexivity|exact IH]. Qed.

Lemma sleeps_app (a b : list Event) : sleeps (a ++ b) = sleeps a ++ sleeps b.
Proof. unfold sleeps. apply flat_map_app. Qed.

Lemma sleeps_prints (lines : list str) : sleeps (map EPrint lines) = [].
Proof. induction lines as [|l ls IH]; [reflexivity|exact IH]. Qed.

Lemma call_azure_api_run H endpoint method body w :
  call_azure_api H endpoint method body w
  = (Ok (envelope_of H
           (fst (exec H (azure_cmd H endpoint method ++ body_args H body) w))),
     snd (exec H (azure_cmd H endpoint method ++ body_args H body) w),
     [ECmd (azure_cmd H endpoint method ++ body_args H body)]).
Proof.
  unfold call_azure_api, body_args, azure_cmd.
  destruct body as [b|].
  - destruct (truthy b).
    + erewrite bind_ok by apply run_command_run. unfold envelope_of.
      destruct (decode_envelope H _); reflexivity.
    + rewrite app_nil_r.
      erewrite bind_ok by apply run_command_run. unfold envelope_of.
      destruct (decode_envelope H _); reflexivity.
  - rewrite app_nil_r.
    erewrite bind_ok by apply run_command_run. unfold envelope_of.
    destruct (decode_envelope H _); reflexivity.
Qed.

(** X1. [call_azure_api] runs one command, with [-i] and the body only
    for a body that is not empty, and never raises.  When the output of
    the command does not decode to a dict it returns [(0, {})]; when it
    does, it returns the [status_code] of the dict, or 0, and its [text],
    or the empty dict. *)
Theorem call_azure_api_decodes (H : Host) (endpoint method : str)
  (body : option json) (w : World H) :
  call_azure_api H endpoint method body w
  = (Ok (envelope_of H
           (fst (exec H (azure_cmd H endpoint method ++ body_args H body) w))),
     snd (exec H (azure_cmd H endpoint method ++ body_args H body) w),
     [ECmd (azure_cmd H endpoint method ++ body_args H body)])
  /\ (forall cp,
        (forall kv, json_loads H (stdout cp) <> Some (JObj kv)) ->
        envelope_of H cp = (JInt 0, JObj []))
  /\ (forall cp kv,
        json_loads H (stdout cp) = Some (JObj kv) ->
        envelope_of H cp
        = (match dict_find (u "status_code") kv with
           | Some v => v
           | None => JInt 0
           end,
           match dict_find (u "text") kv with
           | Some v => v
           | None => JObj []
           end)).
Proof.
  split; [apply call_azure_api_run|]. split.
  - intros cp Hno. unfold envelope_of, decode_envelope, loads.
    destruct (json_loads H (stdout cp)) as [j|]; [|reflexivity].
    destruct j; try reflexivity. exfalso. exact (Hno kv eq_refl).
  - intros cp kv E. unfold envelope_of, decode_envelope, loads.
    rewrite E. reflexivity.
Qed.

Section CreateAbsent.

Variable H : Host.
Variable capacity_config : CapacityConfig.
Variables subscription_id resource_group : str.
Variable defaults : CapacityDefaults.
Variable w : World H.

Let exists_cmd :=
  azure_cmd H (capacity_url subscription_id resource_group
                 (cap_name capacity_config) ++ api_version) (u "get").
Let put_cmd :=
  azure_cmd H (capacity_url subscription_id resource_group
                 (cap_name capacity_config) ++ api_version) (u "put")
    ++ [u "-i"; json_dumps H (capacity_request_body capacity_config defaults)].
Let answer := fst (exec H put_cmd (snd (exec H exists_cmd w))).
Let after_put := snd (exec H put_cmd (snd (exec H exists_cmd w))).

(** X2. When the existence check of [create_capacity] does not return
    status 200, the function issues the PUT with the request body and no
    resume call.  On status 200 or 201 of the PUT it prints that the
    capacity is created and sleeps 40; on any other answer it returns at
    once, silently.  It never raises. *)
Theorem create_capacity_creates_absent :
  py_eq_int (fst (envelope_of H (fst (exec H exists_cmd w)))) 200 = false ->
  create_capacity H capacity_config subscription_id resource_group defaults w
  = if py_in_ints (fst (envelope_of H answer)) [200; 201]
    then (Ok tt, elapse H 40 after_put,
          [ECmd exists_cmd; ECmd put_cmd;
           EPrint (check_mark ++ u " Created " ++ cap_name capacity_config);
           ESleep 40])
    else (Ok tt, after_put, [ECmd exists_cmd; ECmd put_cmd]).
Proof.
  intros E. unfold create_capacity.
  erewrite bind_ok by apply capacity_exists_run.
  fold exists_cmd. rewrite E.
  erewrite bind_ok by apply call_azure_api_run.
  change (azure_cmd H
            (capacity_url subscription_id resource_group
               (cap_name capacity_config) ++ api_version) (u "put")
            ++ body_args H (Some (capacity_request_body capacity_config
                                    defaults)))
    with put_cmd.
  fold answer. fold after_put.
  destruct (py_in_ints (fst (envelope_of H answer)) [200; 201]); reflexivity.
Qed.

End CreateAbsent.

(** Witness of X2: the capacity is absent and the PUT is answered with
    201. *)
Lemma create_capacity_creates_absent_witness :
  sleeps (snd (create_capacity Ref.host Ref.fc01 Ref.sub Ref.rg Ref.no_defaults
                 [Ref.prints (Ref.envelope "404");
                  Ref.prints (Ref.envelope "201")]))
  = [40].
Proof.
  rewrite (create_capacity_creates_absent Ref.host Ref.fc01 Ref.sub Ref.rg
             Ref.no_defaults
             [Ref.prints (Ref.envelope "404"); Ref.prints (Ref.envelope "201")]
             eq_refl).
  vm_compute. reflexivity.
Defined.

Section CreateWorkspace.

Variable H : Host.
Variable workspace_config : WorkspaceConfig.
Variable w : World H.

Let ls := ls_cmd H (ws_name workspace_config).
Let get_id := get_id_cmd H (ws_name workspace_config).
Let create := create_cmd H workspace_config.
Let after_create := snd (exec H create (snd (exec H ls w))).
Let answer := fst (exec H get_id (elapse H 5 after_create)).

(** X3. When the workspace does not exist and the create command exits
    with code 0, [create_workspace] prints that it is created, sleeps 5,
    runs the id query once and returns what it resolves; when nothing is
    resolved it prints a warning and returns [None].  It never raises. *)
Theorem create_workspace_created :
  returncode (fst (exec H ls w)) <> 0 ->
  returncode (fst (exec H create (snd (exec H ls w)))) = 0 ->
  create_workspace H workspace_config w
  = (Ok (id_from answer), snd (exec H get_id (elapse H 5 after_create)),
     [ECmd ls; ECmd create;
      EPrint (check_mark ++ u " Created " ++ ws_name workspace_config);
      ESleep 5; ECmd get_id]
       ++ match id_from answer with
          | Some _ => []
          | None =>
              [EPrint (u "  " ++ warn_mark
                         ++ u " Warning: Workspace created but ID could not be retrieved")]
          end).
Proof.
  intros E1 E2. unfold create_workspace.
  erewrite bind_ok by apply workspace_exists_run.
  fold ls. apply Z.eqb_neq in E1. rewrite E1.
  erewrite bind_ok by apply run_command_run.
  fold create. rewrite E2. cbn [Z.eqb negb].
  erewrite (bind_ok H _ _ (print H _)) by reflexivity.
  erewrite (bind_ok H _ _ (sleep H 5)) by reflexivity.
  erewrite bind_ok by apply get_workspace_id_run.
  fold get_id. fold after_create. fold answer.
  destruct (id_from answer); reflexivity.
Qed.

(** X4. The single-file script's [create_workspace] does not look at the
    exit code of the create command: whenever the workspace does not
    exist it prints that it is created, sleeps 5 and runs the id query,
    also when the create command failed. *)
Theorem simple_create_workspace_ignores_exit_code :
  returncode (fst (exec H ls w)) <> 0 ->
  Simple.create_workspace H workspace_config w
  = (Ok (id_from answer), snd (exec H get_id (elapse H 5 after_create)),
     [ECmd ls; ECmd create;
      EPrint (check_mark ++ u " Created " ++ ws_name workspace_config);
      ESleep 5; ECmd get_id]).
Proof.
  intros E1. unfold Simple.create_workspace.
  erewrite bind_ok by apply workspace_exists_run.
  fold ls. apply Z.eqb_neq in E1. rewrite E1.
  erewrite bind_ok by apply run_command_run.
  erewrite (bind_ok H _ _ (print H _)) by reflexivity.
  erewrite (bind_ok H _ _ (sleep H 5)) by reflexivity.
  rewrite get_workspace_id_run. reflexivity.
Qed.

End CreateWorkspace.

(** Witness of X3: the create command succeeds and the id query prints
    nothing. *)
Lemma create_workspace_created_witness :
  returncode Ref.failed_process <> 0
  /\ create_workspace Ref.host Ref.dev
       [Ref.failed_process; Ref.prints []; Ref.prints []]
     = (Ok None, [],
        [ECmd (ls_cmd Ref.host (u "av01-dev"));
         ECmd (create_cmd Ref.host Ref.dev);
         EPrint (check_mark ++ u " Created av01-dev");
         ESleep 5;
         ECmd (get_id_cmd Ref.host (u "av01-dev"));
         EPrint (u "  " ++ warn_mark
                   ++ u " Warning: Workspace created but ID could not be retrieved")]).
Proof.
  split; [cbn; lia|].
  apply (create_workspace_created Ref.host Ref.dev
           [Ref.failed_process; Ref.prints []; Ref.prints []]).
  - cbn. lia.
  - reflexivity.
Defined.

(** Witness of X4: the create command fails, and the script goes on. *)
Lemma simple_create_workspace_ignores_exit_code_witness :
  returncode Ref.failed_process <> 0
  /\ Simple.create_workspace Ref.host Ref.dev
       [Ref.failed_process; Ref.failed_process; Ref.failed_process]
     = (Ok None, [],
        [ECmd (ls_cmd Ref.host (u "av01-dev"));
         ECmd (create_cmd Ref.host Ref.dev);
         EPrint (check_mark ++ u " Created av01-dev");
         ESleep 5;
         ECmd (get_id_cmd Ref.host (u "av01-dev"))]).
Proof.
  split; [cbn; lia|].
  apply (simple_create_workspace_ignores_exit_code Ref.host Ref.dev
           [Ref.failed_process; Ref.failed_process; Ref.failed_process]).
  cbn. lia.
Defined.

Section RoleAssignments.

Variable H : Host.
Variable workspace_id : str.
Variable w : World H.

Let answer := fst (exec H (list_roles_cmd H workspace_id) w).

(** X5. [get_workspace_role_assignments] returns the empty dict, without
    raising, when the query exits with a non-zero code (its output is
    then not decoded), when its output is not JSON, and when it is a dict
    whose [status_code] is not 200. *)
Theorem role_assignments_empty_on_failure :
  returncode answer <> 0
  \/ json_loads H (stdout answer) = None
  \/ (exists kv,
        json_loads H (stdout answer) = Some (JObj kv)
        /\ py_eq_int match dict_find (u "status_code") kv with
                     | Some v => v
                     | None => JNull
                     end 200 = false) ->
  get_workspace_role_assignments H workspace_id w
  = (Ok [], snd (exec H (list_roles_cmd H workspace_id) w),
     [ECmd (list_roles_cmd H workspace_id)]).
Proof.
  intros Hc. unfold get_workspace_role_assignments.
  erewrite bind_ok by apply run_command_run. fold answer.
  destruct (Z.eqb_spec (returncode answer) 0) as [E0|E0]; [|reflexivity].
  cbn [negb]. destruct Hc as [Hc|[Hc|(kv & Hl & Hs)]]; [contradiction| |].
  - unfold decode_assignments, loads. rewrite Hc. reflexivity.
  - unfold decode_assignments, loads. rewrite Hl. cbn [py_get].
    rewrite Hs. reflexivity.
Qed.

End RoleAssignments.

(** Witness of X5: the query fails with the listing on its output. *)
Lemma role_assignments_empty_on_failure_witness :
  get_workspace_role_assignments Ref.host Ref.ws1 [mkCP 1 Ref.roles_listing []]
  = (Ok [], [], [ECmd (list_roles_cmd Ref.host Ref.ws1)]).
Proof.
  apply (role_assignments_empty_on_failure Ref.host Ref.ws1
           [mkCP 1 Ref.roles_listing []]).
  left. cbn. lia.
Defined.

(** X6. In the dict that the comprehension of
    [get_workspace_role_assignments] builds from a list of assignments, a
    principal has a role exactly when an assignment of the list names
    it, and the role found is the role of such an assignment. *)
Theorem existing_role_of_listing (l : list json) (ps : list (json * json))
  (group_id : option str) :
  role_pairs l = Ok ps ->
  (forall r,
     existing_role_of group_id ps = Some r ->
     exists a principal k,
       In a l /\ py_index a (u "principal") = Ok principal
       /\ py_index principal (u "id") = Ok k /\ key_is group_id k = true
       /\ py_index a (u "role") = Ok r)
  /\ ((exists a principal k,
         In a l /\ py_index a (u "principal") = Ok principal
         /\ py_index principal (u "id") = Ok k /\ key_is group_id k = true) ->
      existing_role_of group_id ps <> None).
Proof.
  revert ps. induction l as [|a l IH]; intros ps E.
  - injection E as <-. split; [discriminate|].
    intros (a & _ & _ & [] & _).
  - cbn [role_pairs] in E.
    destruct (py_index a (u "principal")) as [principal|] eqn:Ep;
      [|discriminate].
    destruct (py_index principal (u "id")) as [k|] eqn:Ek; [|discriminate].
    destruct (py_index a (u "role")) as [v|] eqn:Ev; [|discriminate].
    destruct (hashable k); [|discriminate].
    destruct (role_pairs l) as [ps'|]; [|discriminate].
    injection E as <-. destruct (IH ps' eq_refl) as [IH1 IH2].
    cbn [existing_role_of]. split.
    + intros r Er.
      destruct (existing_role_of group_id ps') as [r'|] eqn:Er'.
      * injection Er as <-.
        destruct (IH1 r' eq_refl) as (a' & p' & k' & Hin & H1 & H2 & H3 & H4).
        exists a', p', k'. repeat split; try assumption. right. exact Hin.
      * destruct (key_is group_id k) eqn:Ekey; [|discriminate].
        injection Er as <-. exists a, principal, k.
        repeat split; try assumption. left. reflexivity.
    + intros (a' & p' & k' & [<-|Hin] & H1 & H2 & H3).
      * rewrite Ep in H1. injection H1 as <-.
        rewrite Ek in H2. injection H2 as <-. rewrite H3.
        destruct (existing_role_of group_id ps'); discriminate.
      * assert (Hne : existing_role_of group_id ps' <> None).
        { apply IH2. exists a', p', k'. repeat split; assumption. }
        destruct (existing_role_of group_id ps'); [discriminate|contradiction].
Qed.

(** Witness of X6: the listing of the examples. *)
Lemma existing_role_of_listing_witness :
  existing_role_of (Some (u "g1")) [(JStr (u "g1"), JStr (u "Admin"))] <> None.
Proof.
  apply (existing_role_of_listing
           [JObj [(u "principal", JObj [(u "id", JStr (u "g1"))]);
                  (u "role", JStr (u "Admin"))]]
           [(JStr (u "g1"), JStr (u "Admin"))] (Some (u "g1")) eq_refl).
  exists (JObj [(u "principal", JObj [(u "id", JStr (u "g1"))]);
                (u "role", JStr (u "Admin"))]),
         (JObj [(u "id", JStr (u "g1"))]), (JStr (u "g1")).
  repeat split; try reflexivity. left. reflexivity.
Defined.

Section Deltas.

Variable H : Host.
Hypothesis Htame : forall cmd w, tame H (stdout (fst (exec H cmd w))) = true.
Variable workspace_id : str.
Variable security_groups : list (str * str).

Lemma for_each_deltas (existing : list (json * json)) permissions :
  forall w,
    exists w' t,
      for_each H (assign_one H workspace_id security_groups existing)
               permissions w
      = (Ok tt, w', t)
      /\ commands t
         = map (fun p => assign_cmd H workspace_id
                           (sg_get security_groups (group p)) p)
               (filter (needs_assignment security_groups existing) permissions)
      /\ sleeps t = [].
Proof.
  induction permissions as [|p ps IH]; intros w.
  - exists w, []. repeat split.
  - cbn [for_each filter]. unfold needs_assignment at 1.
    assert (Hone : exists w1 t1,
               assign_one H workspace_id security_groups existing p w
               = (Ok tt, w1, t1)
               /\ commands t1
                  = (if match existing_role_of
                                 (sg_get security_groups (group p)) existing
                           with None => true | Some _ => false end
                     then [assign_cmd H workspace_id
                             (sg_get security_groups (group p)) p]
                     else [])
               /\ sleeps t1 = []).
    { unfold assign_one.
      destruct (existing_role_of (sg_get security_groups (group p)) existing)
        as [r|].
      - exists w. destruct (py_eq_str r (role p)); eexists; repeat split.
      - destruct (post_assignment_run H workspace_id
                    (sg_get security_groups (group p)) p w) as (r & lines & E).
        destruct (returns_post_assignment H Htame workspace_id
                    (sg_get security_groups (group p)) p w)
          as ([] & w1' & t1' & E').
        rewrite E in E'. injection E' as -> _ _.
        eexists _, _. split; [exact E|]. split.
        + cbn. rewrite commands_prints. reflexivity.
        + cbn. rewrite sleeps_prints. reflexivity. }
    destruct Hone as (w1 & t1 & E1 & C1 & S1).
    destruct (IH w1) as (w2 & t2 & E2 & C2 & S2).
    exists w2, (t1 ++ t2). split; [|split].
    + erewrite bind_ok by exact E1. rewrite E2. reflexivity.
    + rewrite commands_app, C1, C2.
      destruct (existing_role_of (sg_get security_groups (group p)) existing);
        reflexivity.
    + rewrite sleeps_app, S1, S2. reflexivity.
Qed.

(** X7. When every output is empty, not JSON, or an envelope of the
    expected shape, [assign_permissions] returns, having slept 10 once;
    its commands are the query of the existing assignments followed by
    one role-assignment call for each desired pair whose principal is
    absent from the dict that the query gave, in the order of the list,
    and by nothing else. *)
Theorem assign_permissions_applies_deltas (permissions : list Permission)
  (w : World H) :
  exists existing,
    fst (fst (get_workspace_role_assignments H workspace_id (elapse H 10 w)))
    = Ok existing
    /\ fst (fst (assign_permissions H workspace_id permissions security_groups
                   w))
       = Ok tt
    /\ commands (snd (assign_permissions H workspace_id permissions
                        security_groups w))
       = list_roles_cmd H workspace_id
           :: map (fun p => assign_cmd H workspace_id
                              (sg_get security_groups (group p)) p)
                  (filter (needs_assignment security_groups existing)
                          permissions)
    /\ sleeps (snd (assign_permissions H workspace_id permissions
                      security_groups w))
       = [10].
Proof.
  destruct (get_workspace_role_assignments_run H workspace_id (elapse H 10 w))
    as [r Er].
  destruct (returns_get_workspace_role_assignments H Htame workspace_id
              (elapse H 10 w)) as (existing & w1 & t1 & Er').
  rewrite Er in Er'. injection Er' as -> _ _.
  exists existing. rewrite Er. split; [reflexivity|].
  destruct (for_each_deltas existing permissions
              (snd (exec H (list_roles_cmd H workspace_id) (elapse H 10 w))))
    as (w2 & t2 & E2 & C2 & S2).
  unfold assign_permissions.
  erewrite (bind_ok H _ _ (sleep H 10)) by reflexivity.
  erewrite bind_ok by exact Er.
  rewrite E2. cbn [fst snd]. split; [reflexivity|]. split.
  - rewrite !commands_app, C2. reflexivity.
  - rewrite !sleeps_app, S2. reflexivity.
Qed.

End Deltas.

Lemma quiet_is_tame cmd w :
  tame Ref.quiet (stdout (fst (exec Ref.quiet cmd w))) = true.
Proof.
  unfold exec, Ref.quiet, Ref.quiet_exec. cbn [fst].
  destruct (Nat.even w); vm_compute; reflexivity.
Qed.

Lemma accepting_is_tame cmd w :
  tame Ref.accepting (stdout (fst (exec Ref.accepting cmd w))) = true.
Proof. vm_compute. reflexivity. Qed.

(** Witness of X7: on the host whose commands print an envelope and
    nothing in turn. *)
Lemma assign_permissions_applies_deltas_witness :
  exists existing,
    fst (fst (get_workspace_role_assignments Ref.quiet Ref.ws1
                (elapse Ref.quiet 10 0%nat)))
    = Ok existing
    /\ fst (fst (assign_permissions Ref.quiet Ref.ws1 [Ref.eng_admin]
                   Ref.groups 0%nat))
       = Ok tt
    /\ commands (snd (assign_permissions Ref.quiet Ref.ws1 [Ref.eng_admin]
                        Ref.groups 0%nat))
       = list_roles_cmd Ref.quiet Ref.ws1
           :: map (fun p => assign_cmd Ref.quiet Ref.ws1
                              (sg_get Ref.groups (group p)) p)
                  (filter (needs_assignment Ref.groups existing)
                          [Ref.eng_admin])
    /\ sleeps (snd (assign_permissions Ref.quiet Ref.ws1 [Ref.eng_admin]
                      Ref.groups 0%nat))
       = [10].
Proof.
  apply (assign_permissions_applies_deltas Ref.quiet quiet_is_tame Ref.ws1
           Ref.groups [Ref.eng_admin] 0%nat).
Defined.

Section SimplePermissions.

Variable H : Host.
Hypothesis Hdict :
  forall cmd w, exists kv,
    json_loads H (stdout (fst (exec H cmd w))) = Some (JObj kv).
Variable workspace_id : str.
Variable security_groups : list (str * str).

Lemma simple_for_each_posts permissions :
  forall w,
    exists w' t,
      for_each H (Simple.assign_one H workspace_id security_groups)
               permissions w
      = (Ok tt, w', t)
      /\ commands t
         = map (fun p => assign_cmd H workspace_id
                           (sg_get security_groups (group p)) p)
               permissions
      /\ sleeps t = [].
Proof.
  induction permissions as [|p ps IH]; intros w.
  - exists w, []. repeat split.
  - cbn [for_each map].
    assert (Hone : exists w1 t1,
               Simple.assign_one H workspace_id security_groups p w
               = (Ok tt, w1, t1)
               /\ commands t1
                  = [assign_cmd H workspace_id
                       (sg_get security_groups (group p)) p]
               /\ sleeps t1 = []).
    { unfold Simple.assign_one.
      erewrite bind_ok by apply run_command_run.
      destruct (Hdict (assign_cmd H workspace_id
                         (sg_get security_groups (group p)) p) w)
        as [kv Ekv].
      unfold loads. rewrite Ekv, bind_lift_ok. cbn [py_get].
      rewrite bind_lift_ok.
      destruct (py_in_ints _ [200; 201]); eexists _, _; repeat split. }
    destruct Hone as (w1 & t1 & E1 & C1 & S1).
    destruct (IH w1) as (w2 & t2 & E2 & C2 & S2).
    exists w2, (t1 ++ t2). split; [|split].
    + erewrite bind_ok by exact E1. rewrite E2. reflexivity.
    + rewrite commands_app, C1, C2. reflexivity.
    + rewrite sleeps_app, S1, S2. reflexivity.
Qed.

(** X8. When every response decodes to a dict, the single-file script's
    [assign_permissions] sleeps 10 and issues one role-assignment call
    for every desired pair, in the order of the list, whatever roles the
    principals hold: it runs no query of the existing assignments. *)
Theorem simple_assign_permissions_posts_all (permissions : list Permission)
  (w : World H) :
  fst (fst (Simple.assign_permissions H workspace_id permissions
              security_groups w))
  = Ok tt
  /\ commands (snd (Simple.assign_permissions H workspace_id permissions
                      security_groups w))
     = map (fun p => assign_cmd H workspace_id
                       (sg_get security_groups (group p)) p)
           permissions
  /\ sleeps (snd (Simple.assign_permissions H workspace_id permissions
                    security_groups w))
     = [10].
Proof.
  destruct (simple_for_each_posts permissions (elapse H 10 w))
    as (w2 & t2 & E2 & C2 & S2).
  unfold Simple.assign_permissions.
  erewrite (bind_ok H _ _ (sleep H 10)) by reflexivity.
  rewrite E2. cbn [fst snd]. split; [reflexivity|]. split.
  - rewrite commands_app, C2. reflexivity.
  - rewrite sleeps_app, S2. reflexivity.
Qed.

End SimplePermissions.

Lemma accepting_prints_dicts cmd w :
  exists kv,
    json_loads Ref.accepting (stdout (fst (exec Ref.accepting cmd w)))
    = Some (JObj kv).
Proof. eexists. vm_compute. reflexivity. Qed.

(** Witness of X8: on the host whose commands print an envelope with
    status 200. *)
Lemma simple_assign_permissions_posts_all_witness :
  fst (fst (Simple.assign_permissions Ref.accepting Ref.ws1
              [Ref.eng_admin; Ref.eng_admin] Ref.groups tt))
  = Ok tt
  /\ commands (snd (Simple.assign_permissions Ref.accepting Ref.ws1
                      [Ref.eng_admin; Ref.eng_admin] Ref.groups tt))
     = map (fun p => assign_cmd Ref.accepting Ref.ws1
                       (sg_get Ref.groups (group p)) p)
           [Ref.eng_admin; Ref.eng_admin]
  /\ sleeps (snd (Simple.assign_permissions Ref.accepting Ref.ws1
                    [Ref.eng_admin; Ref.eng_admin] Ref.groups tt))
     = [10].
Proof.
  apply (simple_assign_permissions_posts_all Ref.accepting
           accepting_prints_dicts Ref.ws1 Ref.groups
           [Ref.eng_admin; Ref.eng_admin] tt).
Defined.

(* --------------------------------------------------------------------- *)
(** *** Connections *)
(* --------------------------------------------------------------------- *)

Lemma find_connection_none name conns :
  Forall (other_connection name) conns ->
  find_connection name conns = Ok None.
Proof.
  induction 1 as [|conn conns [[kv ->] Hn] _ IH]; [reflexivity|].
  cbn [find_connection py_get]. cbn [display_name_of] in Hn.
  rewrite Hn. exact IH.
Qed.

Lemma find_connection_first name pre conn post :
  Forall (other_connection name) pre ->
  (exists kv, conn = JObj kv) ->
  py_eq_str (display_name_of conn) name = true ->
  find_connection name (pre ++ conn :: post) = Ok (Some (connection_id_of conn)).
Proof.
  intros Hpre [ckv ->] Hc.
  induction Hpre as [|c cs [[kv ->] Hn] _ IH].
  - cbn [app find_connection py_get]. cbn [display_name_of] in Hc.
    rewrite Hc. reflexivity.
  - cbn [app find_connection py_get]. cbn [display_name_of] in Hn.
    rewrite Hn. exact IH.
Qed.

Lemma create_connection_run H connection_name git_config w :
  exists r lines,
    create_connection H connection_name git_config w
    = (r,
       snd (exec H (create_connection_cmd H
                      (connection_body H connection_name
                         (github_url_of git_config))) w),
       ECmd (create_connection_cmd H
               (connection_body H connection_name (github_url_of git_config)))
         :: map EPrint lines).
Proof.
  unfold create_connection. fold (github_url_of git_config).
  erewrite bind_ok by apply run_command_run.
  destruct (loads H _) as [j|e].
  - rewrite bind_lift_ok.
    destruct (py_get j (u "status_code") JNull) as [sc|e].
    + rewrite bind_lift_ok. destruct (py_in_ints sc [200; 201]).
      * destruct (py_get j (u "text") (JObj [])) as [text|e].
        -- rewrite bind_lift_ok.
           destruct (py_get text (u "id") JNull) as [i|e].
           ++ rewrite bind_lift_ok. eexists _, [_]. reflexivity.
           ++ eexists _, []. reflexivity.
        -- eexists _, []. reflexivity.
      * eexists _, []. reflexivity.
    + eexists _, []. reflexivity.
  - eexists _, []. reflexivity.
Qed.

Section Connections.

Variable H : Host.
Variable workspace_id : str.
Variable git_config : GitConfig.
Variable w : World H.

Let answer := fst (exec H (list_connections_cmd H) w).
Let listed := snd (exec H (list_connections_cmd H) w).

(** X9. When the listing of the connections has a connection whose
    display name is [test_connection], [get_or_create_git_connection] of
    [fabric_core] returns the id of the first such connection; the
    listing is its only command. *)
Theorem test_connection_reused (pre post : list json) (conn : json) :
  lists_connections (json_loads H) (stdout answer) (pre ++ conn :: post) ->
  Forall (other_connection (u "test_connection")) pre ->
  (exists kv, conn = JObj kv) ->
  py_eq_str (display_name_of conn) (u "test_connection") = true ->
  get_or_create_git_connection H workspace_id git_config w
  = (Ok (connection_id_of conn), listed,
     [ECmd (list_connections_cmd H); EPrint (u "using a test connection")]).
Proof.
  intros (kv & tkv & Hl & Hs & Ht & Hv) Hpre Hd Hc.
  pose proof (find_connection_first _ pre conn post Hpre Hd Hc) as Hf.
  subst answer listed.
  unfold get_or_create_git_connection, bind, lift, ret, print, run_command,
    loads.
  destruct (exec H (list_connections_cmd H) w) as [cp w1].
  cbn [fst snd] in *. rewrite Hl. cbn [py_get]. rewrite Hs, Ht.
  cbn [py_get]. rewrite Hv. cbn [py_iter]. rewrite Hf. reflexivity.
Qed.

(** X10. [get_or_create_git_connection] of [fabric_core] reuses no other
    connection: when no connection of the listing is named
    [test_connection], also when one has the name computed from the owner
    and the repository, the second command is the POST that creates a
    connection with the computed name, and the first two events are the
    only commands. *)
Theorem computed_name_not_reused (conns : list json) :
  lists_connections (json_loads H) (stdout answer) conns ->
  Forall (other_connection (u "test_connection")) conns ->
  exists r lines,
    get_or_create_git_connection H workspace_id git_config w
    = (r,
       snd (exec H (create_connection_cmd H
                      (connection_body H (connection_name_of git_config)
                         (github_url_of git_config))) listed),
       ECmd (list_connections_cmd H)
         :: ECmd (create_connection_cmd H
                    (connection_body H (connection_name_of git_config)
                       (github_url_of git_config)))
         :: map EPrint lines).
Proof.
  intros (kv & tkv & Hl & Hs & Ht & Hv) Hall.
  pose proof (find_connection_none _ conns Hall) as Hf.
  subst answer listed.
  unfold get_or_create_git_connection, bind, lift, ret, print, run_command,
    loads.
  fold (connection_name_of git_config).
  destruct (exec H (list_connections_cmd H) w) as [cp w1].
  cbn [fst snd] in *. rewrite Hl. cbn [py_get]. rewrite Hs, Ht.
  cbn [py_get]. rewrite Hv. cbn [py_iter]. rewrite Hf.
  destruct (create_connection_run H (connection_name_of git_config)
              git_config w1) as (r & lines & E).
  rewrite E. exists r, lines. reflexivity.
Qed.

(** X11. The single-file script's [get_or_create_git_connection] reuses
    the first connection of the listing whose display name is the name
    computed from the owner and the repository, with the listing as its
    only command. *)
Theorem simple_computed_name_reused (pre post : list json) (conn : json) :
  lists_connections (json_loads H) (stdout answer) (pre ++ conn :: post) ->
  Forall (other_connection (connection_name_of git_config)) pre ->
  (exists kv, conn = JObj kv) ->
  py_eq_str (display_name_of conn) (connection_name_of git_config) = true ->
  Simple.get_or_create_git_connection H workspace_id git_config w
  = (Ok (connection_id_of conn), listed,
     [ECmd (list_connections_cmd H);
      EPrint (check_mark ++ u " Using existing connection: "
                ++ connection_name_of git_config)]).
Proof.
  intros (kv & tkv & Hl & Hs & Ht & Hv) Hpre Hd Hc.
  pose proof (find_connection_first _ pre conn post Hpre Hd Hc) as Hf.
  subst answer listed.
  unfold Simple.get_or_create_git_connection, bind, lift, ret, print,
    run_command, loads.
  fold (connection_name_of git_config).
  destruct (exec H (list_connections_cmd H) w) as [cp w1].
  cbn [fst snd] in *. rewrite Hl. cbn [py_get]. rewrite Hs, Ht.
  cbn [py_get]. rewrite Hv. cbn [py_iter]. rewrite Hf. reflexivity.
Qed.

End Connections.

Lemma both_connections_listed :
  lists_connections (json_loads Ref.host) Ref.both_connections
                    ([Ref.own_connection] ++ Ref.test_connection :: []).
Proof. eexists _, _. repeat split; vm_compute; reflexivity. Qed.

Lemma own_connection_listed :
  lists_connections (json_loads Ref.host) Ref.own_connection_only
                    [Ref.own_connection].
Proof. eexists _, _. repeat split; vm_compute; reflexivity. Qed.

(** Witness of X9: the second connection of the listing is the test
    connection. *)
Lemma test_connection_reused_witness :
  get_or_create_git_connection Ref.host Ref.ws1 Ref.org_repo
    [Ref.prints Ref.both_connections]
  = (Ok (JStr (u "c2")), [],
     [ECmd (list_connections_cmd Ref.host);
      EPrint (u "using a test connection")]).
Proof.
  apply (test_connection_reused Ref.host Ref.ws1 Ref.org_repo
           [Ref.prints Ref.both_connections] [Ref.own_connection] []
           Ref.test_connection both_connections_listed).
  - constructor; [|constructor].
    split; [eexists; reflexivity|vm_compute; reflexivity].
  - eexists. reflexivity.
  - vm_compute. reflexivity.
Defined.

(** Witness of X10: the only connection of the listing has the computed
    name, and a connection is created all the same. *)
Lemma computed_name_not_reused_witness :
  exists r lines,
    get_or_create_git_connection Ref.host Ref.ws1 Ref.org_repo
      [Ref.prints Ref.own_connection_only; Ref.prints (Ref.envelope "201")]
    = (r, [],
       ECmd (list_connections_cmd Ref.host)
         :: ECmd (create_connection_cmd Ref.host
                    (connection_body Ref.host (u "GitHub-org-repo")
                       (u "https://github.com/org/repo")))
         :: map EPrint lines).
Proof.
  apply (computed_name_not_reused Ref.host Ref.ws1 Ref.org_repo
           [Ref.prints Ref.own_connection_only;
            Ref.prints (Ref.envelope "201")]
           [Ref.own_connection] own_connection_listed).
  constructor; [|constructor].
  split; [eexists; reflexivity|vm_compute; reflexivity].
Defined.

(** Witness of X11: the script reuses the connection with the computed
    name. *)
Lemma simple_computed_name_reused_witness :
  Simple.get_or_create_git_connection Ref.host Ref.ws1 Ref.org_repo
    [Ref.prints Ref.own_connection_only]
  = (Ok (JStr (u "c1")), [],
     [ECmd (list_connections_cmd Ref.host);
      EPrint (check_mark ++ u " Using existing connection: GitHub-org-repo")]).
Proof.
  apply (simple_computed_name_reused Ref.host Ref.ws1 Ref.org_repo
           [Ref.prints Ref.own_connection_only] [] [] Ref.own_connection
           own_connection_listed).
  - constructor.
  - eexists. reflexivity.
  - vm_compute. reflexivity.
Defined.

(* --------------------------------------------------------------------- *)
(** *** Binding a workspace to the repository *)
(* --------------------------------------------------------------------- *)

Lemma already_connected_unbound H out :
  json_loads H out = None
  \/ (exists kv,
        json_loads H out = Some (JObj kv)
        /\ (py_eq_int (field "status_code" kv) 200 = false
            \/ exists tkv, text_of kv = JObj tkv /\ binding_shown tkv = false)) ->
  already_connected H out = Ok false
  \/ already_connected H out = Raise JSONDecodeError.
Proof.
  unfold already_connected, loads.
  intros [Hc|(kv & Hl & Hc)].
  - rewrite Hc. right. reflexivity.
  - rewrite Hl. cbn [py_get]. unfold field, text_of, binding_shown in Hc.
    left. destruct Hc as [Hc|(tkv & Ht & Hb)].
    + rewrite Hc. reflexivity.
    + destruct (py_eq_int _ 200); [|reflexivity].
      rewrite Ht. cbn [py_get]. unfold field in Hb.
      apply orb_false_elim in Hb as [Hb1 Hb2].
      rewrite Hb1, Hb2. reflexivity.
Qed.

Lemma unbound_block H out w :
  strip out = []
  \/ already_connected H out = Ok false
  \/ already_connected H out = Raise JSONDecodeError ->
  (if nonempty (strip out)
   then try_except H (lift H (already_connected H out))
                   (on_decode_error H (ret H false))
   else ret H false) w
  = (Ok false, w, []).
Proof.
  intros [Hc|Hc].
  - rewrite Hc. reflexivity.
  - destruct (nonempty (strip out)); [|reflexivity].
    unfold try_except, lift. destruct Hc as [-> | ->]; reflexivity.
Qed.

Section Connect.

Variable H : Host.
Variables workspace_id workspace_name directory_name : str.
Variable git_config : GitConfig.
Variable connection_id : json.
Variable w : World H.

Let status := git_status_cmd H workspace_id.
Let connect :=
  git_connect_cmd H workspace_id
    (connect_body directory_name git_config connection_id).
Let answer := fst (exec H status w).
Let reply := fst (exec H connect (snd (exec H status w))).

(** X12. When the Git status of the workspace is a dict with status 200
    whose text shows a connection state or a remote commit hash,
    [connect_workspace_to_git] returns [True] with the status query as
    its only command: the workspace is not bound again. *)
Theorem connect_skips_bound_workspace (kv tkv : list (str * json)) :
  strip (stdout answer) <> [] ->
  json_loads H (stdout answer) = Some (JObj kv) ->
  py_eq_int (field "status_code" kv) 200 = true ->
  text_of kv = JObj tkv ->
  binding_shown tkv = true ->
  connect_workspace_to_git H workspace_id workspace_name directory_name
    git_config connection_id w
  = (Ok true, snd (exec H status w),
     [ECmd status;
      EPrint (check_mark ++ u " " ++ workspace_name
                ++ u " already connected to Git")]).
Proof.
  intros Hne Hl Hs Ht Hb. subst answer.
  unfold connect_workspace_to_git, try_except, already_connected, bind, lift,
    ret, print, run_command, loads.
  fold status.
  destruct (exec H status w) as [cp w1]. cbn [fst snd] in *.
  destruct (strip (stdout cp)) as [|c0 s0]; [contradiction|].
  cbn [nonempty]. rewrite Hl. cbn [py_get].
  unfold field in Hs. rewrite Hs.
  unfold text_of in Ht. rewrite Ht. cbn [py_get].
  unfold binding_shown, field in Hb.
  destruct (truthy match dict_find (u "gitConnectionState") tkv with
                   | Some v => v
                   | None => JNull
                   end).
  - reflexivity.
  - cbn [orb] in Hb. rewrite Hb. reflexivity.
Qed.

(** X13. When the Git status of the workspace is empty, is not JSON, has
    a status other than 200, or shows no binding,
    [connect_workspace_to_git] issues the connect call, and nothing else
    after the status query.  It returns [False] when the response to the
    call is empty or is not JSON, and otherwise, for a response that is a
    dict, [True] exactly when its status is 200 or 201. *)
Theorem connect_binds_unbound_workspace :
  strip (stdout answer) = []
  \/ json_loads H (stdout answer) = None
  \/ (exists kv,
        json_loads H (stdout answer) = Some (JObj kv)
        /\ (py_eq_int (field "status_code" kv) 200 = false
            \/ exists tkv, text_of kv = JObj tkv /\ binding_shown tkv = false)) ->
  exists r lines,
    connect_workspace_to_git H workspace_id workspace_name directory_name
      git_config connection_id w
    = (r, snd (exec H connect (snd (exec H status w))),
       ECmd status :: ECmd connect :: map EPrint lines)
    /\ (strip (stdout reply) = [] \/ json_loads H (stdout reply) = None ->
        r = Ok false)
    /\ (forall kv,
          strip (stdout reply) <> [] ->
          json_loads H (stdout reply) = Some (JObj kv) ->
          r = Ok (py_in_ints (field "status_code" kv) [200; 201])).
Proof.
  intros Hc.
  assert (Hblock : strip (stdout answer) = []
                   \/ already_connected H (stdout answer) = Ok false
                   \/ already_connected H (stdout answer)
                      = Raise JSONDecodeError).
  { destruct Hc as [Hc|Hc]; [left; exact Hc|right].
    apply already_connected_unbound. exact Hc. }
  unfold connect_workspace_to_git.
  erewrite bind_ok by apply run_command_run. fold status. fold answer.
  erewrite bind_ok by (apply unbound_block; exact Hblock).
  cbn beta iota.
  erewrite bind_ok by apply run_command_run. fold connect. fold reply.
  unfold loads.
  destruct (strip (stdout reply)) as [|c0 s0] eqn:Es.
  - eexists _, [_]. split; [reflexivity|]. split; [reflexivity|].
    intros kv C. contradiction.
  - cbn [nonempty negb].
    destruct (json_loads H (stdout reply)) as [j|] eqn:El.
    + cbn beta iota.
      destruct j as [| | | | | |kv];
        try (eexists _, []; split; [reflexivity|];
             split; [intros [C|C]; discriminate|intros kv _ C; discriminate]).
      cbn [py_get]. rewrite bind_lift_ok.
      fold (field "status_code" kv).
      destruct (py_in_ints (field "status_code" kv) [200; 201]) eqn:Ei.
      * eexists _, [_]. split; [reflexivity|].
        split; [intros [C|C]; discriminate|].
        intros kv' _ C. injection C as <-. rewrite Ei. reflexivity.
      * eexists _, [_; _; _]. split; [reflexivity|].
        split; [intros [C|C]; discriminate|].
        intros kv' _ C. injection C as <-. rewrite Ei. reflexivity.
    + eexists _, [_]. split; [reflexivity|]. split; [reflexivity|].
      intros kv _ C. discriminate.
Qed.

(** X14. The single-file script's [connect_workspace_to_git] issues the
    connect call as its only command, without a look at the status of
    the workspace.  It raises [JSONDecodeError] when the response is not
    JSON, and for a response that is a dict it returns [True] exactly
    when its status is 200 or 201. *)
Theorem simple_connect_always_binds :
  exists r lines,
    Simple.connect_workspace_to_git H workspace_id workspace_name
      directory_name git_config connection_id w
    = (r, snd (exec H connect w), ECmd connect :: map EPrint lines)
    /\ (json_loads H (stdout (fst (exec H connect w))) = None ->
        r = Raise JSONDecodeError)
    /\ (forall kv,
          json_loads H (stdout (fst (exec H connect w))) = Some (JObj kv) ->
          r = Ok (py_in_ints (field "status_code" kv) [200; 201])).
Proof.
  unfold Simple.connect_workspace_to_git.
  erewrite bind_ok by apply run_command_run. fold connect.
  unfold loads.
  destruct (json_loads H (stdout (fst (exec H connect w)))) as [j|].
  - rewrite bind_lift_ok.
    destruct j as [| | | | | |kv];
      try (eexists _, []; split; [reflexivity|];
           split; [discriminate|intros kv C; discriminate]).
    cbn [py_get]. rewrite bind_lift_ok. fold (field "status_code" kv).
    destruct (py_in_ints (field "status_code" kv) [200; 201]) eqn:Ei.
    + eexists _, [_]. split; [reflexivity|]. split; [discriminate|].
      intros kv' C. injection C as <-. rewrite Ei. reflexivity.
    + eexists _, []. split; [reflexivity|]. split; [discriminate|].
      intros kv' C. injection C as <-. rewrite Ei. reflexivity.
  - eexists _, []. split; [reflexivity|]. split; [reflexivity|].
    intros kv C. discriminate.
Qed.

End Connect.

(** Witness of X12: the status shows a remote commit hash. *)
Lemma connect_skips_bound_workspace_witness :
  connect_workspace_to_git Ref.host Ref.ws1 (u "av01-dev") (u "solution/")
    Ref.org_repo (JStr (u "c1")) [Ref.prints Ref.bound_status]
  = (Ok true, [],
     [ECmd (git_status_cmd Ref.host Ref.ws1);
      EPrint (check_mark ++ u " av01-dev already connected to Git")]).
Proof.
  apply (connect_skips_bound_workspace Ref.host Ref.ws1 (u "av01-dev")
           (u "solution/") Ref.org_repo (JStr (u "c1"))
           [Ref.prints Ref.bound_status]
           [(u "status_code", JInt 200);
            (u "text", JObj [(u "remoteCommitHash", JStr (u "abc123"))])]
           [(u "remoteCommitHash", JStr (u "abc123"))]).
  - vm_compute. discriminate.
  - vm_compute. reflexivity.
  - reflexivity.
  - reflexivity.
  - reflexivity.
Defined.

(** Witness of X13: the status query prints nothing and the connect call
    is answered with 201. *)
Lemma connect_binds_unbound_workspace_witness :
  exists r lines,
    connect_workspace_to_git Ref.host Ref.ws1 (u "av01-dev") (u "solution/")
      Ref.org_repo (JStr (u "c1")) [Ref.prints []; Ref.prints (Ref.envelope "201")]
    = (r, [],
       ECmd (git_status_cmd Ref.host Ref.ws1)
         :: ECmd (git_connect_cmd Ref.host Ref.ws1
                    (connect_body (u "solution/") Ref.org_repo (JStr (u "c1"))))
         :: map EPrint lines)
    /\ (strip (stdout (Ref.prints (Ref.envelope "201"))) = []
        \/ json_loads Ref.host (stdout (Ref.prints (Ref.envelope "201"))) = None ->
        r = Ok false)
    /\ (forall kv,
          strip (stdout (Ref.prints (Ref.envelope "201"))) <> [] ->
          json_loads Ref.host (stdout (Ref.prints (Ref.envelope "201")))
          = Some (JObj kv) ->
          r = Ok (py_in_ints (field "status_code" kv) [200; 201])).
Proof.
  apply (connect_binds_unbound_workspace Ref.host Ref.ws1 (u "av01-dev")
           (u "solution/") Ref.org_repo (JStr (u "c1"))
           [Ref.prints []; Ref.prints (Ref.envelope "201")]).
  left. reflexivity.
Defined.

(* --------------------------------------------------------------------- *)
(** *** Pulling from the repository *)
(* --------------------------------------------------------------------- *)

Lemma py_eq_int_200_not_400 sc :
  py_eq_int sc 200 = true -> py_eq_int sc 400 = false.
Proof.
  destruct sc as [|b|z|[q|]| | |]; cbn [py_eq_int]; try discriminate.
  - destruct b; discriminate.
  - intros E. apply Z.eqb_eq in E. subst z. reflexivity.
  - intros E. apply Qeq_bool_iff in E.
    destruct (Qeq_bool q (inject_Z 400)) eqn:E4; [|reflexivity].
    apply Qeq_bool_iff in E4. rewrite E in E4. discriminate E4.
Qed.

Section Pull.

Variable H : Host.
Variables workspace_id workspace_name : str.
Variable w : World H.

Let status := git_status_cmd H workspace_id.
Let answer := fst (exec H status w).

(** X15. When the status query prints nothing but blanks,
    [update_workspace_from_git] returns [False] with the status query as
    its only command and one printed line; the output is not decoded. *)
Theorem update_stops_on_empty_status :
  strip (stdout answer) = [] ->
  update_workspace_from_git H workspace_id workspace_name w
  = (Ok false, snd (exec H status w),
     [ECmd status;
      EPrint (u "  " ++ warn_mark ++ u " Failed to get Git status")]).
Proof.
  intros E. unfold update_workspace_from_git.
  erewrite bind_ok by apply run_command_run. fold status. fold answer.
  rewrite E. reflexivity.
Qed.

Lemma read_remote_hash_ready kv tkv w1 :
  json_loads H (stdout answer) = Some (JObj kv) ->
  py_eq_int (field "status_code" kv) 200 = true ->
  text_of kv = JObj tkv ->
  read_remote_hash H workspace_id (stdout answer) w1
  = if truthy (field "remoteCommitHash" tkv)
    then (Ok (Some (field "remoteCommitHash" tkv)), w1, [])
    else (Ok None, w1,
          [EPrint (u "  " ++ warn_mark
                     ++ u " No remoteCommitHash found in status")]).
Proof.
  intros Hl Hs Ht. unfold read_remote_hash.
  erewrite bind_ok.
  2:{ apply decode_status_ok; [unfold loads; rewrite Hl; reflexivity|].
      reflexivity. }
  cbn [fst snd]. fold (field "status_code" kv).
  unfold initialize_if_needed. cbn [fst snd].
  rewrite (py_eq_int_200_not_400 _ Hs), bind_ret.
  unfold remote_hash_of. cbn [fst snd]. rewrite Hs. cbn [negb py_get].
  fold (text_of kv). rewrite Ht, bind_lift_ok. cbn [py_get].
  fold (field "remoteCommitHash" tkv). rewrite bind_lift_ok.
  destruct (truthy (field "remoteCommitHash" tkv)); reflexivity.
Qed.

(** X16. When the status is a dict with status 200 whose text has no
    remote commit hash, or an empty one, [update_workspace_from_git]
    returns [False] with the status query as its only command: no
    initialize call and no update call are issued. *)
Theorem update_needs_remote_hash (kv tkv : list (str * json)) :
  strip (stdout answer) <> [] ->
  json_loads H (stdout answer) = Some (JObj kv) ->
  py_eq_int (field "status_code" kv) 200 = true ->
  text_of kv = JObj tkv ->
  truthy (field "remoteCommitHash" tkv) = false ->
  update_workspace_from_git H workspace_id workspace_name w
  = (Ok false, snd (exec H status w),
     [ECmd status;
      EPrint (u "  " ++ warn_mark
                ++ u " No remoteCommitHash found in status")]).
Proof.
  intros Hne Hl Hs Ht Hh. unfold update_workspace_from_git.
  erewrite bind_ok by apply run_command_run. fold status. fold answer.
  destruct (strip (stdout answer)) as [|c0 s0] eqn:Es; [contradiction|].
  cbn [nonempty negb].
  erewrite bind_ok.
  2:{ unfold try_except.
      rewrite (read_remote_hash_ready kv tkv _ Hl Hs Ht), Hh. reflexivity. }
  reflexivity.
Qed.

(** X17. When the status is a dict with status 200 whose text has a
    remote commit hash, [update_workspace_from_git] issues the update
    call carrying that hash, and nothing else after the status query.
    An empty response to the call is a success without a printed line; a
    response that is not JSON is a failure; a response that is a dict is
    a success exactly when its status is 200, 201 or 202. *)
Theorem update_pulls_at_remote_hash (kv tkv : list (str * json)) :
  strip (stdout answer) <> [] ->
  json_loads H (stdout answer) = Some (JObj kv) ->
  py_eq_int (field "status_code" kv) 200 = true ->
  text_of kv = JObj tkv ->
  truthy (field "remoteCommitHash" tkv) = true ->
  exists r lines,
    update_workspace_from_git H workspace_id workspace_name w
    = (r,
       snd (exec H (git_update_cmd H workspace_id
                      (field "remoteCommitHash" tkv))
              (snd (exec H status w))),
       ECmd status
         :: ECmd (git_update_cmd H workspace_id (field "remoteCommitHash" tkv))
         :: map EPrint lines)
    /\ (forall reply,
          reply = fst (exec H (git_update_cmd H workspace_id
                                 (field "remoteCommitHash" tkv))
                         (snd (exec H status w))) ->
          (strip (stdout reply) = [] -> r = Ok true /\ lines = [])
          /\ (strip (stdout reply) <> [] ->
              json_loads H (stdout reply) = None -> r = Ok false)
          /\ (forall kv',
                strip (stdout reply) <> [] ->
                json_loads H (stdout reply) = Some (JObj kv') ->
                r = Ok (py_in_ints (field "status_code" kv') [200; 201; 202]))).
Proof.
  intros Hne Hl Hs Ht Hh. unfold update_workspace_from_git.
  erewrite bind_ok by apply run_command_run. fold status. fold answer.
  destruct (strip (stdout answer)) as [|c0 s0] eqn:Es; [contradiction|].
  cbn [nonempty negb].
  erewrite bind_ok.
  2:{ unfold try_except.
      rewrite (read_remote_hash_ready kv tkv _ Hl Hs Ht), Hh. reflexivity. }
  cbn beta iota. unfold pull_from_git.
  erewrite bind_ok by apply run_command_run.
  set (reply := fst (exec H (git_update_cmd H workspace_id
                               (field "remoteCommitHash" tkv))
                       (snd (exec H status w)))).
  destruct (strip (stdout reply)) as [|c1 s1] eqn:Er.
  - eexists _, []. split; [reflexivity|].
    intros reply' ->. fold reply. rewrite Er.
    split; [intros _; split; reflexivity|].
    split; [intros C; contradiction|intros kv' C; contradiction].
  - cbn [nonempty negb].
    unfold bind, try_except, lift, loads, ret, print, on_decode_error.
    destruct (json_loads H (stdout reply)) as [j|] eqn:El.
    + destruct j as [| | | | | |kv'];
        try (cbn; eexists _, []; split; [reflexivity|];
             intros reply' ->; fold reply; rewrite Er, El;
             split; [discriminate|];
             split; [discriminate|intros kv2 _ C; discriminate]).
      cbn [py_get fst snd app]. fold (field "status_code" kv').
      destruct (py_in_ints (field "status_code" kv') [200; 201; 202]) eqn:Ei;
        cbn [fst snd app];
        (eexists _, [_]; split; [reflexivity|];
         intros reply' ->; fold reply; rewrite Er, El;
         split; [discriminate|]; split; [discriminate|];
         intros kv2 _ C; injection C as <-; rewrite Ei; reflexivity).
    + cbn [fst snd app].
      eexists _, [_]. split; [reflexivity|].
      intros reply' ->. fold reply. rewrite Er, El.
      split; [discriminate|]. split; [reflexivity|].
      intros kv2 _ C. discriminate.
Qed.

End Pull.

(** Witness of X15: the status query prints nothing. *)
Lemma update_stops_on_empty_status_witness :
  update_workspace_from_git Ref.host Ref.ws1 (u "av01-dev") [Ref.prints []]
  = (Ok false, [],
     [ECmd (git_status_cmd Ref.host Ref.ws1);
      EPrint (u "  " ++ warn_mark ++ u " Failed to get Git status")]).
Proof.
  apply (update_stops_on_empty_status Ref.host Ref.ws1 (u "av01-dev")
           [Ref.prints []]).
  reflexivity.
Defined.

(** Witness of X16: the status is the envelope [{"status_code": 200}], which
    has no text. *)
Lemma update_needs_remote_hash_witness :
  update_workspace_from_git Ref.host Ref.ws1 (u "av01-dev")
    [Ref.prints (Ref.envelope "200")]
  = (Ok false, [],
     [ECmd (git_status_cmd Ref.host Ref.ws1);
      EPrint (u "  " ++ warn_mark
                ++ u " No remoteCommitHash found in status")]).
Proof.
  apply (update_needs_remote_hash Ref.host Ref.ws1 (u "av01-dev")
           [Ref.prints (Ref.envelope "200")]
           [(u "status_code", JInt 200)] []).
  - vm_compute. discriminate.
  - vm_compute. reflexivity.
  - reflexivity.
  - reflexivity.
  - reflexivity.
Defined.

(** Witness of X17: the status carries the hash [abc123] and the update
    call is answered with 202. *)
Lemma update_pulls_at_remote_hash_witness :
  exists r lines,
    update_workspace_from_git Ref.host Ref.ws1 (u "av01-dev")
      [Ref.prints Ref.bound_status; Ref.prints (Ref.envelope "202")]
    = (r, [],
       ECmd (git_status_cmd Ref.host Ref.ws1)
         :: ECmd (git_update_cmd Ref.host Ref.ws1 (JStr (u "abc123")))
         :: map EPrint lines)
    /\ r = Ok true.
Proof.
  destruct (update_pulls_at_remote_hash Ref.host Ref.ws1 (u "av01-dev")
              [Ref.prints Ref.bound_status; Ref.prints (Ref.envelope "202")]
              [(u "status_code", JInt 200);
               (u "text", JObj [(u "remoteCommitHash", JStr (u "abc123"))])]
              [(u "remoteCommitHash", JStr (u "abc123"))])
    as (r & lines & E & C).
  - vm_compute. discriminate.
  - vm_compute. reflexivity.
  - reflexivity.
  - reflexivity.
  - reflexivity.
  - exists r, lines. split; [exact E|].
    destruct (C _ eq_refl) as (_ & _ & C3).
    apply (C3 [(u "status_code", JInt 202)]).
    + vm_compute. discriminate.
    + vm_compute. reflexivity.
Defined.

(* --------------------------------------------------------------------- *)
(** *** The whole run of [main] *)
(* --------------------------------------------------------------------- *)

Section WholeRun.

Variable H : Host.
Hypothesis Htame : forall cmd w, tame H (stdout (fst (exec H cmd w))) = true.

Lemma returns_for_each A (body : A -> M H unit) l :
  (forall x w, returns H (body x) w) ->
  forall w, returns H (for_each H body l) w.
Proof.
  intros Hb. induction l as [|x l IH]; intros w; [apply returns_ret|].
  cbn [for_each]. apply returns_bind; [apply Hb|]. intros _ w1. apply IH.
Qed.

Lemma returns_provision_workspace config connection workspace_config w :
  cfg_github config = None
  \/ ws_connect_to_git_folder workspace_config = None ->
  returns H (provision_workspace H config connection workspace_config) w.
Proof.
  intros Hfree. unfold provision_workspace.
  apply returns_bind; [apply returns_create_workspace|].
  intros workspace_id w1. apply returns_bind.
  - destruct (ws_permissions workspace_config) as [permissions|];
      [|apply returns_ret].
    destruct workspace_id as [i|]; [|apply returns_ret].
    destruct (nonempty i); [|apply returns_ret].
    apply returns_assign_permissions, Htame.
  - intros _ w2. destruct Hfree as [-> | ->].
    + destruct (ws_connect_to_git_folder workspace_config) as [folder|];
        [|apply returns_ret].
      destruct workspace_id as [i|]; apply returns_ret.
    + apply returns_ret.
Qed.

Lemma returns_provision_workspaces config l :
  (cfg_github config = None
   \/ forall ws, In ws l -> ws_connect_to_git_folder ws = None) ->
  forall connection w,
    returns H (provision_workspaces H config connection l) w.
Proof.
  induction l as [|ws l IH]; intros Hfree connection w; [apply returns_ret|].
  cbn [provision_workspaces]. apply returns_bind.
  - apply returns_provision_workspace.
    destruct Hfree as [E|E]; [left; exact E|right; apply E; left; reflexivity].
  - intros c w1. apply IH.
    destruct Hfree as [E|E]; [left; exact E|].
    right. intros ws' Hin. apply E. right. exact Hin.
Qed.

(** X18. With the three variables of the login set and outputs that are
    empty, not JSON or envelopes of the expected shape, [main] ends
    without an exception, whatever the exit codes, provided the
    configuration has no [github] entry or no workspace has a
    [connect_to_git_folder]; the first thing it does is to print the
    banner and run the login with the three values. *)
Theorem main_ends_without_git config w client_id client_secret tenant_id :
  getenv H (u "SPN_CLIENT_ID") = Some client_id ->
  getenv H (u "SPN_CLIENT_SECRET") = Some client_secret ->
  getenv H (u "AZURE_TENANT_ID") = Some tenant_id ->
  (cfg_github config = None
   \/ forall ws, In ws (cfg_workspaces config) ->
                 ws_connect_to_git_folder ws = None) ->
  exists w' t,
    main H config w
    = (Ok tt, w',
       EPrint (u "=== AUTHENTICATING ===")
         :: ECmd (auth_cmd H client_id client_secret tenant_id) :: t).
Proof.
  intros E1 E2 E3 Hfree.
  destruct (Z.eq_dec
              (returncode
                 (fst (exec H (auth_cmd H client_id client_secret tenant_id)
                         w))) 0) as [Hrc|Hrc].
  - unfold main.
    erewrite (bind_ok H _ _ (print H _)) by reflexivity.
    assert (Ea : auth H w
                 = (Ok true,
                    snd (exec H (auth_cmd H client_id client_secret tenant_id)
                           w),
                    [ECmd (auth_cmd H client_id client_secret tenant_id);
                     EPrint (check_mark ++ u " Authenticated successfully")])).
    { unfold auth. rewrite E1, E2, E3.
      erewrite bind_ok by apply run_command_run.
      rewrite Hrc. reflexivity. }
    erewrite bind_ok by exact Ea. cbn [negb].
    match goal with
    | |- context [(fst (fst (?m ?w0)), _, _)] =>
        assert (R : returns H m w0)
    end.
    { apply returns_bind; [apply returns_print|]. intros _ w1.
      apply returns_bind.
      { apply returns_for_each. intros c w2. apply returns_create_capacity. }
      intros _ w2. apply returns_bind; [apply returns_print|]. intros _ w3.
      apply returns_bind; [apply returns_provision_workspaces, Hfree|].
      intros _ w4. apply returns_bind; [apply returns_print|]. intros _ w5.
      apply returns_bind; [apply returns_sleep|]. intros _ w6.
      apply returns_bind; [|intros; apply returns_print].
      apply returns_for_each. intros c w7.
      apply returns_bind; [apply returns_suspend_loop|].
      intros; apply returns_ret. }
    destruct R as ([] & w' & t & R). rewrite R. cbn [fst snd app].
    eexists _, _. reflexivity.
  - rewrite (main_stops_without_login H config w _ _ _ E1 E2 E3 Hrc).
    eexists _, _. reflexivity.
Qed.

End WholeRun.

(** Witness of X18: the configuration of the examples, which has no
    [github] entry, on the host whose commands all print an envelope with
    status 200. *)
Lemma main_ends_without_git_witness :
  exists w' t,
    main Ref.accepting Ref.small_config tt
    = (Ok tt, w',
       EPrint (u "=== AUTHENTICATING ===")
         :: ECmd (auth_cmd Ref.accepting (u "secret") (u "secret")
                    (u "secret")) :: t).
Proof.
  apply (main_ends_without_git Ref.accepting accepting_is_tame
           Ref.small_config tt).
  - reflexivity.
  - reflexivity.
  - reflexivity.
  - left. reflexivity.
Defined.

(* --------------------------------------------------------------------- *)
(** *** The commands of a pull, on every path *)
(* --------------------------------------------------------------------- *)

Lemma commands_of_bind H A B (m : M H A) (f : A -> M H B) w :
  commands_of (bind H m f) w
  = commands_of m w
      ++ match fst (fst (m w)) with
         | Ok a => commands_of (f a) (snd (fst (m w)))
         | Raise _ => []
         end.
Proof.
  unfold commands_of, bind. destruct (m w) as [[[a|e] w1] t1]; cbn [fst snd].
  - destruct (f a w1) as [[r w2] t2]. cbn [snd]. apply commands_app.
  - symmetry. apply app_nil_r.
Qed.

Lemma commands_of_try H A (m : M H A) h w :
  commands_of (try_except H m h) w
  = commands_of m w
      ++ match fst (fst (m w)) with
         | Ok _ => []
         | Raise e => match h e with
                      | Some k => commands_of k (snd (fst (m w)))
                      | None => []
                      end
         end.
Proof.
  unfold commands_of, try_except.
  destruct (m w) as [[[a|e] w1] t1]; cbn [fst snd].
  - symmetry. apply app_nil_r.
  - destruct (h e) as [k|]; [|symmetry; apply app_nil_r].
    destruct (k w1) as [[r w2] t2]. cbn [snd]. apply commands_app.
Qed.

Lemma decode_status_pure H out w :
  exists r, decode_status H out w = (r, w, []).
Proof.
  unfold decode_status, bind, lift, ret.
  destruct (loads H out) as [j|e]; [|eexists; reflexivity].
  destruct (py_get j (u "status_code") JNull); eexists; reflexivity.
Qed.

Lemma remote_hash_of_commands H st w :
  commands_of (remote_hash_of H st) w = [].
Proof.
  unfold commands_of, remote_hash_of, bind, lift, print, ret.
  destruct (negb (py_eq_int (snd st) 200)).
  - destruct (py_get (fst st) (u "text") (JObj [])); reflexivity.
  - destruct (py_get (fst st) (u "text") (JObj [])) as [text|];
      [|reflexivity].
    destruct (py_get text (u "remoteCommitHash") JNull) as [h|];
      [|reflexivity].
    destruct (negb (truthy h)); reflexivity.
Qed.

Lemma initialize_if_needed_commands H workspace_id st w :
  commands_of (initialize_if_needed H workspace_id st) w = []
  \/ commands_of (initialize_if_needed H workspace_id st) w
     = [git_init_cmd H workspace_id; git_status_cmd H workspace_id].
Proof.
  unfold initialize_if_needed, commands_of.
  destruct (py_eq_int (snd st) 400); [|left; reflexivity].
  destruct (py_get (fst st) (u "text") (JObj [])) as [text|e];
    [|left; rewrite bind_lift_raise; reflexivity].
  rewrite bind_lift_ok.
  destruct (py_get text (u "errorCode") JNull) as [code|e];
    [|left; rewrite bind_lift_raise; reflexivity].
  rewrite bind_lift_ok.
  destruct (py_eq_str code (not_initialized)); [|left; reflexivity].
  right.
  erewrite (bind_ok H _ _ (print H _)) by reflexivity.
  erewrite bind_ok by apply run_command_run. cbn beta iota.
  erewrite bind_ok by apply run_command_run. cbn beta iota.
  match goal with
  | |- context [decode_status H ?o ?w0] =>
      destruct (decode_status_pure H o w0) as (r & ->)
  end.
  reflexivity.
Qed.

Lemma read_remote_hash_commands H workspace_id out w :
  commands_of (read_remote_hash H workspace_id out) w = []
  \/ commands_of (read_remote_hash H workspace_id out) w
     = [git_init_cmd H workspace_id; git_status_cmd H workspace_id].
Proof.
  unfold read_remote_hash. rewrite commands_of_bind.
  destruct (decode_status_pure H out w) as (r & E).
  unfold commands_of at 1 3. rewrite E. cbn [fst snd commands flat_map app].
  destruct r as [st|e]; [|left; reflexivity].
  rewrite commands_of_bind.
  destruct (fst (fst (initialize_if_needed H workspace_id st w))) as [st'|e].
  - rewrite remote_hash_of_commands, app_nil_r.
    apply initialize_if_needed_commands.
  - rewrite app_nil_r. apply initialize_if_needed_commands.
Qed.

Lemma pull_from_git_commands H workspace_id workspace_name h w :
  commands_of (pull_from_git H workspace_id workspace_name h) w
  = [git_update_cmd H workspace_id h].
Proof.
  unfold commands_of, pull_from_git, bind at 1, run_command.
  destruct (exec H (git_update_cmd H workspace_id h) w) as [cp w1].
  destruct (negb (nonempty (strip (stdout cp)))); [reflexivity|].
  unfold bind, try_except, lift, ret, print, on_decode_error.
  destruct (loads H (stdout cp)) as [j|[| | |]]; try reflexivity.
  destruct (py_get j (u "status_code") JNull) as [sc|[| | |]];
    try reflexivity.
  destruct (py_in_ints sc [200; 201; 202]); reflexivity.
Qed.

Lemma update_commands_shape (H : Host) (workspace_id workspace_name : str)
  (w : World H) :
  exists pre post,
    commands (snd (update_workspace_from_git H workspace_id workspace_name w))
    = git_status_cmd H workspace_id :: pre ++ post
    /\ (pre = []
        \/ pre = [git_init_cmd H workspace_id; git_status_cmd H workspace_id])
    /\ (post = []
        \/ exists h, post = [git_update_cmd H workspace_id h]).
Proof.
  change (commands (snd (update_workspace_from_git H workspace_id
                           workspace_name w)))
    with (commands_of (update_workspace_from_git H workspace_id
                         workspace_name) w).
  unfold update_workspace_from_git. rewrite commands_of_bind.
  rewrite run_command_run. cbn [fst snd].
  unfold commands_of at 1. rewrite run_command_run.
  cbn [snd commands flat_map app].
  set (out := stdout (fst (exec H (git_status_cmd H workspace_id) w))).
  set (w1 := snd (exec H (git_status_cmd H workspace_id) w)).
  destruct (negb (nonempty (strip out))).
  - exists [], []. split; [reflexivity|]. split; left; reflexivity.
  - rewrite commands_of_bind, commands_of_try.
    set (tail :=
           match fst (fst (read_remote_hash H workspace_id out w1)) with
           | Ok _ => []
           | Raise e =>
               match on_decode_error H
                       (bind H (print H (u "  " ++ warn_mark
                                          ++ u " Failed to parse Git status"))
                          (fun _ => ret H None)) e with
               | Some k =>
                   commands_of k
                     (snd (fst (read_remote_hash H workspace_id out w1)))
               | None => []
               end
           end).
    assert (Et : tail = []).
    { unfold tail.
      destruct (fst (fst (read_remote_hash H workspace_id out w1)))
        as [a|[| | |]]; reflexivity. }
    rewrite Et, app_nil_r.
    exists (commands_of (read_remote_hash H workspace_id out) w1).
    eexists. split; [reflexivity|].
    split; [apply read_remote_hash_commands|].
    destruct (fst (fst (try_except H _ _ w1))) as [[h|]|e].
    + right. exists h. apply pull_from_git_commands.
    + left. reflexivity.
    + left. reflexivity.
Qed.

(** X19. On every path, and whatever the commands print,
    [update_workspace_from_git] runs one of four sequences of commands:
    the status query alone; the status query and one update call; the
    status query, the initialisation and a second status query; or these
    three followed by one update call.  It runs nothing else. *)
Theorem update_command_sequences (H : Host) (workspace_id workspace_name : str)
  (w : World H) :
  let status := git_status_cmd H workspace_id in
  let init := git_init_cmd H workspace_id in
  let run :=
    commands (snd (update_workspace_from_git H workspace_id workspace_name w))
  in
  run = [status]
  \/ (exists h, run = [status; git_update_cmd H workspace_id h])
  \/ run = [status; init; status]
  \/ (exists h, run = [status; init; status; git_update_cmd H workspace_id h]).
Proof.
  cbv zeta.
  destruct (update_commands_shape H workspace_id workspace_name w)
    as (pre & post & -> & [-> | ->] & [-> | (h & ->)]).
  - left. reflexivity.
  - right. left. exists h. reflexivity.
  - right. right. left. reflexivity.
  - right. right. right. exists h. reflexivity.
Qed.

(* --------------------------------------------------------------------- *)
(** *** The synchronisation of the dev workspaces *)
(* --------------------------------------------------------------------- *)


Lemma commands_of_ret H A (a : A) w : commands_of (ret H a) w = [].
Proof. reflexivity. Qed.





Section Sync.

Variable H : Host.
Variable solution_version : str.
Variable workspaces_config : list WorkspaceConfig.
Variable w : World H.

(** X20. When no workspace of the configuration has [-dev-] in its name
    together with a non-empty [connect_to_git_folder], the
    synchronisation prints one warning and stops: it runs no command, not
    even the login. *)
Theorem sync_nothing_to_do :
  (forall ws, In ws workspaces_config -> SyncDev.is_dev_with_git ws = false) ->
  SyncDev.main H solution_version workspaces_config w
  = (Ok tt, w,
     [EPrint (warn_mark
                ++ u " No dev workspaces configured with Git integration found")]).
Proof.
  intros Hnone. unfold SyncDev.main. cbv zeta.
  assert (E : filter SyncDev.is_dev_with_git workspaces_config = []).
  { induction workspaces_config as [|ws l IH]; [reflexivity|].
    cbn [filter]. rewrite (Hnone ws) by (left; reflexivity).
    apply IH. intros ws' Hin. apply Hnone. right. exact Hin. }
  rewrite E. reflexivity.
Qed.


End Sync.

(** Witness of X20: the configuration of the examples, whose one
    workspace is [av01-dev]. *)
Lemma sync_nothing_to_do_witness :
  SyncDev.main Ref.host (u "av01") [Ref.dev] []
  = (Ok tt, [],
     [EPrint (warn_mark
                ++ u " No dev workspaces configured with Git integration found")]).
Proof.
  apply (sync_nothing_to_do Ref.host (u "av01") [Ref.dev] []).
  intros ws [<- | []]. reflexivity.
Defined.

Section SyncAttempts.

Variable H : Host.
Hypothesis Htame : forall cmd w, tame H (stdout (fst (exec H cmd w))) = true.
Variable solution_version : str.

Let name_of (ws : WorkspaceConfig) : str :=
  replace SyncDev.placeholder solution_version (ws_name ws).

Lemma update_has_no_query workspace_id workspace_name w :
  filter is_id_query
    (commands (snd (update_workspace_from_git H workspace_id workspace_name w)))
  = [].
Proof.
  destruct (update_commands_shape H workspace_id workspace_name w)
    as (pre & post & -> & [-> | ->] & [-> | (h & ->)]); reflexivity.
Qed.

Lemma sync_workspace_attempt ws w :
  exists w' t,
    SyncDev.sync_workspace H solution_version ws w = (Ok tt, w', t)
    /\ filter is_id_query (commands t) = [get_id_cmd H (name_of ws)].
Proof.
  unfold SyncDev.sync_workspace. cbv zeta. fold (name_of ws).
  erewrite (bind_ok H _ _ (print H _)) by reflexivity.
  erewrite bind_ok by apply get_workspace_id_run. cbn beta iota.
  cbn [print fst snd app].
  destruct (id_from _) as [i|];
    [|eexists _, _; split; reflexivity].
  destruct (nonempty i); [|eexists _, _; split; reflexivity].
  set (w1 := snd (exec H (get_id_cmd H (name_of ws)) w)).
  pose proof (update_has_no_query i (name_of ws) w1) as Hq.
  destruct (returns_update_workspace_from_git H Htame i (name_of ws) w1)
    as (a & w2 & t2 & E).
  rewrite E in Hq. cbn [snd] in Hq.
  erewrite bind_ok by exact E. cbn [fst snd].
  destruct a; cbn [negb print ret fst snd];
    (eexists _, _; split; [reflexivity|]);
    match goal with
    | |- filter _ (commands (?e1 :: ?e2 :: ?rest)) = _ =>
        change (e1 :: e2 :: rest) with ([e1; e2] ++ rest)
    end;
    rewrite !commands_app, !filter_app, Hq; reflexivity.
Qed.

Lemma for_each_attempts l :
  forall w,
  exists w' t,
    for_each H (SyncDev.sync_workspace H solution_version) l w = (Ok tt, w', t)
    /\ filter is_id_query (commands t)
       = map (fun ws => get_id_cmd H (name_of ws)) l.
Proof.
  induction l as [|ws l IH]; intros w.
  - exists w, []. split; reflexivity.
  - destruct (sync_workspace_attempt ws w) as (w1 & t1 & E1 & Q1).
    destruct (IH w1) as (w2 & t2 & E2 & Q2).
    exists w2, (t1 ++ t2). split.
    + cbn [for_each]. erewrite bind_ok by exact E1. cbn [fst snd].
      rewrite E2. reflexivity.
    + rewrite commands_app, filter_app, Q1, Q2. reflexivity.
Qed.

(** X22. With the login accepted and outputs that are empty, not JSON or
    envelopes of the expected shape, the synchronisation ends without an
    exception and queries the id of every workspace it selected, once
    each and in the order of the configuration, under the name with the
    placeholder of the version filled in: a workspace that is not found
    or that fails to update does not stop the loop. *)
Theorem sync_attempts_every_dev_workspace workspaces_config w
  client_id client_secret tenant_id :
  getenv H (u "SPN_CLIENT_ID") = Some client_id ->
  getenv H (u "SPN_CLIENT_SECRET") = Some client_secret ->
  getenv H (u "AZURE_TENANT_ID") = Some tenant_id ->
  returncode (fst (exec H (auth_cmd H client_id client_secret tenant_id) w))
  = 0 ->
  fst (fst (SyncDev.main H solution_version workspaces_config w)) = Ok tt
  /\ filter is_id_query
       (commands (snd (SyncDev.main H solution_version workspaces_config w)))
     = map (fun ws =>
              get_id_cmd H
                (replace SyncDev.placeholder solution_version (ws_name ws)))
         (filter SyncDev.is_dev_with_git workspaces_config).
Proof.
  intros E1 E2 E3 Hrc. unfold SyncDev.main. cbv zeta.
  destruct (filter SyncDev.is_dev_with_git workspaces_config) as [|ws l] eqn:Ef;
    [split; reflexivity|].
  erewrite (bind_ok H _ _ (print H _)) by reflexivity.
  assert (Ea : auth H w
               = (Ok true,
                  snd (exec H (auth_cmd H client_id client_secret tenant_id)
                         w),
                  [ECmd (auth_cmd H client_id client_secret tenant_id);
                   EPrint (check_mark ++ u " Authenticated successfully")])).
  { unfold auth. rewrite E1, E2, E3.
    erewrite bind_ok by apply run_command_run.
    rewrite Hrc. reflexivity. }
  erewrite bind_ok by exact Ea. cbn [negb print fst snd].
  erewrite (bind_ok H _ _ (print H _)) by reflexivity.
  erewrite (bind_ok H _ _ (print H _)) by reflexivity.
  erewrite (bind_ok H _ _ (print H _)) by reflexivity.
  cbn [print fst snd].
  destruct (for_each_attempts (ws :: l)
              (snd (exec H (auth_cmd H client_id client_secret tenant_id) w)))
    as (w2 & t2 & E & Q).
  erewrite bind_ok by exact E. cbn [print fst snd].
  split; [reflexivity|].
  rewrite !commands_app, !filter_app, Q.
  change (filter is_id_query
            (commands
               (snd (print H (newline ++ check_mark
                                ++ u " Dev workspace sync complete") w2))))
    with (@nil (list str)).
  rewrite app_nil_r. reflexivity.
Qed.

End SyncAttempts.

(** Witness of X22: two dev workspaces bound to folders and one workspace
    without a folder, on the host whose commands all print an envelope
    with status 200. *)
Lemma sync_attempts_every_dev_workspace_witness :
  fst (fst (SyncDev.main Ref.accepting (u "av01")
              [Ref.dev_processing; Ref.dev; Ref.dev_datastores] tt))
  = Ok tt
  /\ filter is_id_query
       (commands
          (snd (SyncDev.main Ref.accepting (u "av01")
                  [Ref.dev_processing; Ref.dev; Ref.dev_datastores] tt)))
     = [get_id_cmd Ref.accepting (u "av01-dev-processing");
        get_id_cmd Ref.accepting (u "av01-dev-datastores")].
Proof.
  apply (sync_attempts_every_dev_workspace Ref.accepting accepting_is_tame
           (u "av01") [Ref.dev_processing; Ref.dev; Ref.dev_datastores] tt
           (u "secret") (u "secret") (u "secret")).
  - reflexivity.
  - reflexivity.
  - reflexivity.
  - reflexivity.
Defined.

(* --------------------------------------------------------------------- *)
(** *** The name a workspace is synchronised under *)
(* --------------------------------------------------------------------- *)

Lemma startswith_app old rest : startswith old (old ++ rest) = true.
Proof.
  induction old as [|c old IH]; [reflexivity|].
  cbn [startswith app]. rewrite N.eqb_refl. exact IH.
Qed.

Lemma replace_from_skip old new p rest :
  replace_from old new (length p) (p ++ rest) = replace_from old new O rest.
Proof.
  induction p as [|c p IH]; [reflexivity|].
  cbn [length app replace_from]. exact IH.
Qed.

Lemma replace_at_head old new rest :
  old <> [] -> replace old new (old ++ rest) = new ++ replace old new rest.
Proof.
  destruct old as [|c old]; [intros C; contradiction|]. intros _.
  unfold replace.
  change ((c :: old) ++ rest) with (c :: (old ++ rest)).
  cbn [replace_from].
  change (c :: (old ++ rest)) with ((c :: old) ++ rest).
  rewrite startswith_app. cbn [length Nat.pred].
  rewrite replace_from_skip. reflexivity.
Qed.

Lemma replace_absent old new s :
  contains old s = false -> replace old new s = s.
Proof.
  destruct old as [|c old].
  - destruct s; discriminate.
  - unfold replace. induction s as [|d s IH]; [reflexivity|].
    intros E. cbn [contains] in E. apply orb_false_iff in E.
    destruct E as [E1 E2].
    cbn [replace_from]. rewrite E1, (IH E2). reflexivity.
Qed.

Section SyncName.

Variable H : Host.
Variable solution_version : str.
Variable workspace_config : WorkspaceConfig.
Variable w : World H.

(** X23. A workspace whose configured name starts with the placeholder
    [{{SOLUTION_VERSION}}] and has no other occurrence of it is
    synchronised under the name with the version in the place of the
    placeholder: that name is announced and its id queried first. *)
Theorem sync_fills_placeholder (rest : str) :
  ws_name workspace_config = SyncDev.placeholder ++ rest ->
  contains SyncDev.placeholder rest = false ->
  exists t,
    snd (SyncDev.sync_workspace H solution_version workspace_config w)
    = EPrint (u "--- Syncing " ++ (solution_version ++ rest) ++ u " ---")
        :: ECmd (get_id_cmd H (solution_version ++ rest)) :: t.
Proof.
  intros En Hc. unfold SyncDev.sync_workspace. cbv zeta.
  rewrite En, replace_at_head by discriminate.
  rewrite (replace_absent _ _ _ Hc).
  erewrite (bind_ok H _ _ (print H _)) by reflexivity.
  erewrite bind_ok by apply get_workspace_id_run.
  cbn [print fst snd app]. eexists. reflexivity.
Qed.

(** X24. A workspace whose configured name has no occurrence of the
    placeholder is synchronised under that very name. *)
Theorem sync_keeps_plain_name :
  contains SyncDev.placeholder (ws_name workspace_config) = false ->
  exists t,
    snd (SyncDev.sync_workspace H solution_version workspace_config w)
    = EPrint (u "--- Syncing " ++ ws_name workspace_config ++ u " ---")
        :: ECmd (get_id_cmd H (ws_name workspace_config)) :: t.
Proof.
  intros Hc. unfold SyncDev.sync_workspace. cbv zeta.
  rewrite (replace_absent _ _ _ Hc).
  erewrite (bind_ok H _ _ (print H _)) by reflexivity.
  erewrite bind_ok by apply get_workspace_id_run.
  cbn [print fst snd app]. eexists. reflexivity.
Qed.

End SyncName.

(** Witness of X23. *)
Lemma sync_fills_placeholder_witness :
  exists t,
    snd (SyncDev.sync_workspace Ref.host (u "av01") Ref.dev_processing [])
    = EPrint (u "--- Syncing " ++ (u "av01" ++ u "-dev-processing")
                ++ u " ---")
        :: ECmd (get_id_cmd Ref.host (u "av01" ++ u "-dev-processing")) :: t.
Proof.
  apply (sync_fills_placeholder Ref.host (u "av01") Ref.dev_processing []
           (u "-dev-processing")).
  - reflexivity.
  - reflexivity.
Defined.

(** Witness of X24. *)
Lemma sync_keeps_plain_name_witness :
  exists t,
    snd (SyncDev.sync_workspace Ref.host (u "av01") Ref.dev_datastores [])
    = EPrint (u "--- Syncing " ++ u "av01-dev-datastores" ++ u " ---")
        :: ECmd (get_id_cmd Ref.host (u "av01-dev-datastores")) :: t.
Proof.
  apply (sync_keeps_plain_name Ref.host (u "av01") Ref.dev_datastores []).
  reflexivity.
Defined.

(* --------------------------------------------------------------------- *)
(** *** The selection of the dev workspaces *)
(* --------------------------------------------------------------------- *)

Lemma str_eqb_eq a b : str_eqb a b = true <-> a = b.
Proof.
  revert b. induction a as [|x a IH]; intros [|y b]; cbn [str_eqb];
    try (split; [discriminate|discriminate]); [split; reflexivity|].
  rewrite andb_true_iff, N.eqb_eq, IH. split.
  - intros [-> ->]. reflexivity.
  - intros E. injection E as -> ->. split; reflexivity.
Qed.

Lemma startswith_spec prefix s :
  startswith prefix s = true <-> exists b, s = prefix ++ b.
Proof.
  revert s. induction prefix as [|x p IH]; intros s.
  - split; [intros _; exists s; reflexivity|reflexivity].
  - destruct s as [|y s]; cbn [startswith].
    + split; [discriminate|intros (b & E); discriminate].
    + rewrite andb_true_iff, N.eqb_eq, IH. split.
      * intros (-> & b & ->). exists b. reflexivity.
      * intros (b & E). injection E as -> ->.
        split; [reflexivity|exists b; reflexivity].
Qed.

Lemma contains_spec sub s :
  contains sub s = true <-> exists a b, s = a ++ sub ++ b.
Proof.
  induction s as [|c s IH].
  - cbn [contains]. rewrite orb_false_r, startswith_spec. split.
    + intros (b & E). exists [], b. exact E.
    + intros (a & b & E). destruct a as [|x a]; [|discriminate].
      exists b. exact E.
  - cbn [contains]. rewrite orb_true_iff, startswith_spec, IH. split.
    + intros [(b & E) | (a & b & E)].
      * exists [], b. exact E.
      * exists (c :: a), b. rewrite E. reflexivity.
    + intros (a & b & E). destruct a as [|x a].
      * left. exists b. exact E.
      * right. injection E as -> ->. exists a, b. reflexivity.
Qed.

(** X25. The synchronisation selects a workspace exactly when [-dev-]
    occurs in its name and its [connect_to_git_folder] is a non-empty
    string; the workspaces selected are those of the configuration, in
    its order. *)
Theorem dev_workspace_selection (workspaces_config : list WorkspaceConfig)
  (ws : WorkspaceConfig) :
  In ws (filter SyncDev.is_dev_with_git workspaces_config)
  <-> In ws workspaces_config
      /\ (exists a b, ws_name ws = a ++ u "-dev-" ++ b)
      /\ (exists folder,
            ws_connect_to_git_folder ws = Some folder /\ folder <> []).
Proof.
  rewrite filter_In. unfold SyncDev.is_dev_with_git.
  rewrite andb_true_iff, contains_spec.
  split.
  - intros (Hin & Hn & Hf). split; [exact Hin|]. split; [exact Hn|].
    destruct (ws_connect_to_git_folder ws) as [folder|]; [|discriminate].
    exists folder. split; [reflexivity|]. intros ->. discriminate.
  - intros (Hin & Hn & folder & -> & Hne). split; [exact Hin|].
    split; [exact Hn|]. destruct folder; [contradiction|reflexivity].
Qed.

(* --------------------------------------------------------------------- *)
(** *** The capacity of a feature workspace *)
(* --------------------------------------------------------------------- *)

(** X26. [get_capacity_for_workspace_type] knows three workspace types:
    [processing] and [datastores] share the engineering capacity of the
    version, [consumption] has the consumption capacity, and the result
    is [None] exactly for the types other than these three. *)
Theorem capacity_for_workspace_type (workspace_type solution_version : str) :
  (workspace_type = u "processing" \/ workspace_type = u "datastores" ->
   Feature.get_capacity_for_workspace_type workspace_type solution_version
   = Some (u "fc" ++ solution_version ++ u "devengineering"))
  /\ (workspace_type = u "consumption" ->
      Feature.get_capacity_for_workspace_type workspace_type solution_version
      = Some (u "fc" ++ solution_version ++ u "devconsumption"))
  /\ (Feature.get_capacity_for_workspace_type workspace_type solution_version
      = None
      <-> workspace_type <> u "processing"
          /\ workspace_type <> u "datastores"
          /\ workspace_type <> u "consumption").
Proof.
  split; [|split].
  - intros [-> | ->]; reflexivity.
  - intros ->. reflexivity.
  - unfold Feature.get_capacity_for_workspace_type. cbv zeta.
    cbn [find fst snd].
    destruct (str_eqb (u "processing") workspace_type) eqn:E1.
    { apply str_eqb_eq in E1. split; [discriminate|].
      intros (C & _). symmetry in E1. contradiction. }
    destruct (str_eqb (u "datastores") workspace_type) eqn:E2.
    { apply str_eqb_eq in E2. split; [discriminate|].
      intros (_ & C & _). symmetry in E2. contradiction. }
    destruct (str_eqb (u "consumption") workspace_type) eqn:E3.
    { apply str_eqb_eq in E3. split; [discriminate|].
      intros (_ & _ & C). symmetry in E3. contradiction. }
    split; [intros _|reflexivity].
    split; [|split]; intros ->; discriminate.
Qed.

(* --------------------------------------------------------------------- *)
(** *** The single-file script after the login *)
(* --------------------------------------------------------------------- *)

(** X27. The single-file script does not look at the outcome of the
    login: with the three variables set, and whatever the exit code of
    the login command, its [main] goes on to the creation of the
    capacities right after it. *)
Theorem simple_main_ignores_login (H : Host) (config : Config) (w : World H)
  (client_id client_secret tenant_id : str) :
  getenv H (u "SPN_CLIENT_ID") = Some client_id ->
  getenv H (u "SPN_CLIENT_SECRET") = Some client_secret ->
  getenv H (u "AZURE_TENANT_ID") = Some tenant_id ->
  exists r w' t,
    Simple.main H config w
    = (r, w',
       EPrint (u "=== AUTHENTICATING ===")
         :: ECmd (auth_cmd H client_id client_secret tenant_id)
         :: EPrint (newline ++ u "=== CREATING CAPACITIES ===") :: t).
Proof.
  intros E1 E2 E3. unfold Simple.main.
  erewrite (bind_ok H _ _ (print H _)) by reflexivity.
  assert (Ea : Simple.auth H w
               = (Ok tt,
                  snd (exec H (auth_cmd H client_id client_secret tenant_id)
                         w),
                  [ECmd (auth_cmd H client_id client_secret tenant_id)])).
  { unfold Simple.auth. rewrite E1, E2, E3.
    erewrite bind_ok by apply run_command_run. reflexivity. }
  erewrite bind_ok by exact Ea. cbn beta iota.
  erewrite (bind_ok H _ _ (print H _)) by reflexivity.
  cbn [print fst snd app]. eexists _, _, _. reflexivity.
Qed.

(** Witness of X27: the login command fails with exit code 1. *)
Lemma simple_main_ignores_login_witness :
  returncode (fst (exec Ref.logged
                     (auth_cmd Ref.logged (u "secret") (u "secret")
                        (u "secret")) []))
  = 1
  /\ exists r w' t,
       Simple.main Ref.logged Ref.small_config []
       = (r, w',
          EPrint (u "=== AUTHENTICATING ===")
            :: ECmd (auth_cmd Ref.logged (u "secret") (u "secret")
                       (u "secret"))
            :: EPrint (newline ++ u "=== CREATING CAPACITIES ===") :: t).
Proof.
  split; [reflexivity|].
  apply (simple_main_ignores_login Ref.logged Ref.small_config []
           (u "secret") (u "secret") (u "secret")).
  - reflexivity.
  - reflexivity.
  - reflexivity.
Defined.

(* --------------------------------------------------------------------- *)
(** *** The initialisation before a pull *)
(* --------------------------------------------------------------------- *)

Lemma update_is_not_init H workspace_id h :
  git_update_cmd H workspace_id h <> git_init_cmd H workspace_id.
Proof.
  unfold git_update_cmd, git_init_cmd, git_path. intros E.
  injection E as E _. apply app_inv_head in E.
  vm_compute in E. discriminate E.
Qed.

Lemma update_is_not_status H workspace_id h :
  git_update_cmd H workspace_id h <> git_status_cmd H workspace_id.
Proof. unfold git_update_cmd, git_status_cmd. intros E. discriminate E. Qed.

(** The reading of a status that is not followed by an initialisation:
    it runs no command and leaves the world as it is. *)
Lemma second_reading H out w :
  exists r lines,
    bind H (decode_status H out) (remote_hash_of H) w
    = (r, w, map EPrint lines)
    /\ (forall e, status_code_of H out = Raise e -> r = Raise e /\ lines = [])
    /\ (forall sc,
          status_code_of H out = Ok sc -> py_eq_int sc 200 = false ->
          r = Ok None).
Proof.
  destruct (status_code_of H out) as [sc|e] eqn:Es.
  - unfold status_code_of in Es.
    destruct (loads H out) as [j|] eqn:El; [|discriminate Es].
    erewrite bind_ok by (apply decode_status_ok; eassumption).
    cbn [app]. unfold remote_hash_of. cbn [fst snd].
    destruct j as [| | | | | |kv]; try discriminate Es. cbn [py_get].
    destruct (py_eq_int sc 200) eqn:E200; cbn [negb].
    + rewrite bind_lift_ok.
      destruct (match dict_find (u "text") kv with
                | Some v => v
                | None => JObj []
                end) as [| | | | | |tkv]; cbn [py_get];
        try (rewrite bind_lift_raise; cbn [fst snd];
             exists (Raise AttributeError), []; split; [reflexivity|];
             split; [discriminate|]; intros sc' E N; injection E as <-;
             rewrite E200 in N; discriminate N).
      rewrite bind_lift_ok.
      destruct (truthy _) eqn:Eh; cbn [negb fst snd print ret bind].
      * eexists _, []. split; [reflexivity|].
        split; [discriminate|]. intros sc' E N. injection E as <-.
        rewrite E200 in N. discriminate N.
      * eexists _, [_]. split; [reflexivity|].
        split; [discriminate|]. intros sc' E N. injection E as <-.
        rewrite E200 in N. discriminate N.
    + rewrite bind_lift_ok. cbn [fst snd print ret bind app].
      eexists _, [_; _]. split; [reflexivity|].
      split; [discriminate|reflexivity].
  - rewrite (bind_raise H _ _ _ _ _ _ _ _ (decode_status_raise H out e w Es)).
    exists (Raise e), []. split; [reflexivity|].
    split; [|discriminate]. intros e' E. injection E as <-. split; reflexivity.
Qed.

Lemma bind_assoc H A B C (m : M H A) (f : A -> M H B) (g : B -> M H C) w :
  bind H (bind H m f) g w = bind H m (fun a => bind H (f a) g) w.
Proof.
  unfold bind. destruct (m w) as [[[a|e] w1] t1]; [|reflexivity].
  destruct (f a w1) as [[[b|e] w2] t2]; [|reflexivity].
  destruct (g b w2) as [[r w3] t3]. rewrite app_assoc. reflexivity.
Qed.

Section InitOnce.

Variable H : Host.
Variables workspace_id workspace_name : str.
Variable w : World H.

Let status := git_status_cmd H workspace_id.
Let init := git_init_cmd H workspace_id.
Let first_status := fst (exec H status w).
Let after_second :=
  snd (exec H status (snd (exec H init (snd (exec H status w))))).
Let second_status :=
  fst (exec H status (snd (exec H init (snd (exec H status w))))).

(** The reading of the first status when it asks for the
    initialisation: the initialize call, the second status query and the
    reading of its answer. *)
Lemma read_after_init :
  (exists sc, status_code_of H (stdout first_status) = Ok sc
              /\ py_eq_int sc 400 = true) ->
  (exists code, error_code_of H (stdout first_status) = Ok code
                /\ py_eq_str code not_initialized = true) ->
  exists r lines,
    read_remote_hash H workspace_id (stdout first_status)
      (snd (exec H status w))
    = (r, after_second,
       EPrint (u "  " ++ arrow_mark ++ u " Initializing Git connection")
         :: ECmd init :: ECmd status :: map EPrint lines)
    /\ (forall e,
          status_code_of H (stdout second_status) = Raise e ->
          r = Raise e /\ lines = [])
    /\ (forall sc,
          status_code_of H (stdout second_status) = Ok sc ->
          py_eq_int sc 200 = false -> r = Ok None).
Proof.
  intros (sc & Hsc & H400) (code & Hcode & Hni).
  unfold status_code_of in Hsc. unfold error_code_of in Hcode.
  destruct (loads H (stdout first_status)) as [j1|] eqn:El; [|discriminate].
  destruct (py_get j1 (u "text") (JObj [])) as [t1|] eqn:Et; [|discriminate].
  unfold read_remote_hash.
  erewrite bind_ok by (apply decode_status_ok; eassumption).
  cbn [app]. unfold initialize_if_needed. cbn [fst snd].
  rewrite H400, bind_assoc, Et, bind_lift_ok, bind_assoc, Hcode, bind_lift_ok.
  rewrite Hni, bind_assoc.
  erewrite (bind_ok H _ _ (print H _)) by reflexivity. cbn beta iota.
  rewrite bind_assoc.
  erewrite bind_ok by apply run_command_run. cbn beta iota.
  rewrite bind_assoc.
  erewrite bind_ok by apply run_command_run. cbn beta iota.
  fold status init. fold second_status. fold after_second.
  change (fun st : json * json => remote_hash_of H st)
    with (remote_hash_of H).
  destruct (second_reading H (stdout second_status) after_second)
    as (r & lines & E & Hraise & Hother).
  rewrite E. cbn [fst snd app]. exists r, lines.
  split; [reflexivity|]. split; assumption.
Qed.

End InitOnce.

Section GitUpdate.

Variable H : Host.
Variables workspace_id workspace_name : str.
Variable w : World H.

Let status := git_status_cmd H workspace_id.
Let init := git_init_cmd H workspace_id.
Let first_status := fst (exec H status w).
Let after_second :=
  snd (exec H status (snd (exec H init (snd (exec H status w))))).
Let second_status :=
  fst (exec H status (snd (exec H init (snd (exec H status w))))).

(** C9, as the code has it.  When the first status query of
    [update_workspace_from_git] answers status 400 with the error code
    [WorkspaceGitConnectionNotInitialized], the function runs the
    initialize call once and the status query once more, whatever the
    second answer is: its commands are the status query, the initialize
    call and the status query, followed by at most one update call, which
    is neither of the two.  When the second answer is not JSON, or is a
    dict whose status is not 200, the function returns [False] and no
    update call is issued.  When the second answer is JSON but not a
    dict, [AttributeError] leaves the function, and no update call is
    issued either. *)
Theorem update_from_git_initializes_once :
  strip (stdout first_status) <> [] ->
  (exists sc, status_code_of H (stdout first_status) = Ok sc
              /\ py_eq_int sc 400 = true) ->
  (exists code, error_code_of H (stdout first_status) = Ok code
                /\ py_eq_str code not_initialized = true) ->
  exists r w' rest,
    update_workspace_from_git H workspace_id workspace_name w
    = (r, w',
       ECmd status
         :: EPrint (u "  " ++ arrow_mark ++ u " Initializing Git connection")
         :: ECmd init :: ECmd status :: rest)
    /\ (commands rest = []
        \/ exists h, commands rest = [git_update_cmd H workspace_id h])
    /\ (forall h,
          git_update_cmd H workspace_id h <> init
          /\ git_update_cmd H workspace_id h <> status)
    /\ (status_code_of H (stdout second_status) = Raise JSONDecodeError
        \/ (exists sc, status_code_of H (stdout second_status) = Ok sc
                       /\ py_eq_int sc 200 = false) ->
        r = Ok false /\ w' = after_second
        /\ exists lines, rest = map EPrint lines)
    /\ (status_code_of H (stdout second_status) = Raise AttributeError ->
        r = Raise AttributeError /\ w' = after_second /\ rest = []).
Proof.
  intros Hne H400 Hni.
  destruct (read_after_init H workspace_id w H400 Hni)
    as (r & lines & E & Hraise & Hother).
  fold status init first_status in E. fold after_second in E.
  fold status init second_status in Hraise, Hother.
  unfold update_workspace_from_git.
  erewrite bind_ok by apply run_command_run. fold status. fold first_status.
  destruct (strip (stdout first_status)) as [|c0 s0] eqn:Es; [contradiction|].
  cbn [nonempty negb].
  assert (Hnot : forall h,
             git_update_cmd H workspace_id h <> init
             /\ git_update_cmd H workspace_id h <> status).
  { intros h. split;
      [apply update_is_not_init|apply update_is_not_status]. }
  destruct r as [[h|]|e].
  - (* a remote commit hash was read: the update call follows *)
    erewrite bind_ok by (unfold try_except; rewrite E; reflexivity).
    cbn beta iota.
    pose proof (pull_from_git_commands H workspace_id workspace_name h
                  after_second) as Hc.
    unfold commands_of in Hc.
    destruct (pull_from_git H workspace_id workspace_name h after_second)
      as [[r2 w2] t2].
    cbn [fst snd app] in *.
    exists r2, w2, (map EPrint lines ++ t2).
    split; [reflexivity|].
    split; [right; exists h; rewrite commands_app, commands_prints; exact Hc|].
    split; [exact Hnot|]. split.
    + intros [S | (sc & S & N)].
      * destruct (Hraise _ S) as [C _]. discriminate C.
      * pose proof (Hother _ S N) as C. discriminate C.
    + intros S. destruct (Hraise _ S) as [C _]. discriminate C.
  - (* no hash: [False] *)
    erewrite bind_ok by (unfold try_except; rewrite E; reflexivity).
    cbn [ret fst snd app].
    exists (Ok false), after_second, (map EPrint lines).
    split; [rewrite app_nil_r; reflexivity|].
    split; [left; apply commands_prints|].
    split; [exact Hnot|]. split.
    + intros _. split; [reflexivity|]. split; [reflexivity|].
      exists lines. reflexivity.
    + intros S. destruct (Hraise _ S) as [C _]. discriminate C.
  - destruct e.
    + (* the second answer is not JSON: the handler reports it *)
      erewrite bind_ok
        by (unfold try_except; rewrite E; cbn [on_decode_error];
            unfold bind, print, ret; cbn [fst snd app]; reflexivity).
      cbn [ret fst snd app].
      exists (Ok false), after_second,
        (map EPrint
           (lines ++ [u "  " ++ warn_mark ++ u " Failed to parse Git status"])).
      split; [rewrite map_app, app_nil_r; reflexivity|].
      split; [left; apply commands_prints|].
      split; [exact Hnot|]. split.
      * intros _. split; [reflexivity|]. split; [reflexivity|].
        eexists. reflexivity.
      * intros S. destruct (Hraise _ S) as [C _]. discriminate C.
    + erewrite bind_raise
        by (unfold try_except; rewrite E; cbn [on_decode_error]; reflexivity).
      exists (Raise KeyError), after_second, (map EPrint lines).
      split; [reflexivity|]. split; [left; apply commands_prints|].
      split; [exact Hnot|]. split.
      * intros [S | (sc & S & N)].
        -- destruct (Hraise _ S) as [C _]. discriminate C.
        -- pose proof (Hother _ S N) as C. discriminate C.
      * intros S. destruct (Hraise _ S) as [C _]. discriminate C.
    + erewrite bind_raise
        by (unfold try_except; rewrite E; cbn [on_decode_error]; reflexivity).
      exists (Raise AttributeError), after_second, (map EPrint lines).
      split; [reflexivity|]. split; [left; apply commands_prints|].
      split; [exact Hnot|]. split.
      * intros [S | (sc & S & N)].
        -- destruct (Hraise _ S) as [C _]. discriminate C.
        -- pose proof (Hother _ S N) as C. discriminate C.
      * intros S. destruct (Hraise _ S) as [_ ->].
        split; [reflexivity|]. split; reflexivity.
    + erewrite bind_raise
        by (unfold try_except; rewrite E; cbn [on_decode_error]; reflexivity).
      exists (Raise TypeError), after_second, (map EPrint lines).
      split; [reflexivity|]. split; [left; apply commands_prints|].
      split; [exact Hnot|]. split.
      * intros [S | (sc & S & N)].
        -- destruct (Hraise _ S) as [C _]. discriminate C.
        -- pose proof (Hother _ S N) as C. discriminate C.
      * intros S. destruct (Hraise _ S) as [C _]. discriminate C.
Qed.

End GitUpdate.

(** Witness of C9: the connection is not initialized, and the status
    after the initialize call is 404. *)
Lemma update_from_git_initializes_once_witness :
  exists lines,
    update_workspace_from_git Ref.host Ref.ws1 (u "av01-dev")
      [Ref.prints Ref.not_initialized_answer; Ref.prints [];
       Ref.prints (Ref.envelope "404")]
    = (Ok false, [],
       ECmd (git_status_cmd Ref.host Ref.ws1)
         :: EPrint (u "  " ++ arrow_mark ++ u " Initializing Git connection")
         :: ECmd (git_init_cmd Ref.host Ref.ws1)
         :: ECmd (git_status_cmd Ref.host Ref.ws1) :: map EPrint lines).
Proof.
  destruct (update_from_git_initializes_once Ref.host Ref.ws1 (u "av01-dev")
              [Ref.prints Ref.not_initialized_answer; Ref.prints [];
               Ref.prints (Ref.envelope "404")])
    as (r & w' & rest & E & _ & _ & Hfalse & _).
  - vm_compute. discriminate.
  - exists (JInt 400). split; vm_compute; reflexivity.
  - exists (JStr not_initialized). split; vm_compute; reflexivity.
  - destruct Hfalse as (-> & -> & lines & ->).
    + right. exists (JInt 404). split; vm_compute; reflexivity.
    + exists lines. exact E.
Defined.

(** C9, as stated, fails when the second answer is JSON but not a dict:
    with the first status 400 and the error code of a connection that was
    never initialized, and [null] as the answer to the second status
    query, the second status is not 200, and the function does not return
    [False]: [AttributeError] leaves it, after the status query, the
    initialize call and the second status query. *)
Lemma update_from_git_raises_on_null :
  Ref.json_loads (u "null") = Some JNull
  /\ update_workspace_from_git Ref.host Ref.ws1 (u "av01-dev")
       [Ref.prints Ref.not_initialized_answer; Ref.prints [];
        Ref.prints (u "null")]
     = (Raise AttributeError, [],
        [ECmd (git_status_cmd Ref.host Ref.ws1);
         EPrint (u "  " ++ arrow_mark ++ u " Initializing Git connection");
         ECmd (git_init_cmd Ref.host Ref.ws1);
         ECmd (git_status_cmd Ref.host Ref.ws1)]).
Proof. split; vm_compute; reflexivity. Qed.

(* --------------------------------------------------------------------- *)
(** *** Which outputs an operation absorbs *)
(* --------------------------------------------------------------------- *)













Section Absorbed.

Variable H : Host.
Variable workspace_id : str.
Variable w1 : World H.

Let status := git_status_cmd H workspace_id.
Let init := git_init_cmd H workspace_id.
Let after_second := snd (exec H status (snd (exec H init w1))).


End Absorbed.






